(** * Vehicle_Occlusion: record store and detection life cycle

    A shallow embedding of the JSON-file record store
    ([backend/src/services/dataService.js]), of the [Detection] model
    ([backend/src/models/Detection.js]) and of the analysis route with its
    background job ([backend/src/routes/detectionRoutes.js]), followed by
    the properties of the specification that concern them.

    Conventions of the embedding.
    - A JavaScript value is a term of [value]; an object is a finite map
      from property names to values, so that object spread is map union
      and two objects with the same properties are equal.
    - A JavaScript number is the rational it denotes, kept in lowest
      terms; a division, a product or a difference is rounded to the
      nearest double by [fl], as IEEE 754 has it.
    - A point in time ([Date] object or its ISO-8601 string, which
      [JSON.stringify] produces from it) is [VTime t], [t] in milliseconds.
    - Asynchronous functions are computations in the monad [M] over the
      [World]: the three JSON files and the answers of the environment
      (identifiers drawn by [uuidv4], clock readings, outcomes of the
      writes).  [console] output is not modelled. *)

From Stdlib Require Import QArith Qround Qabs.
From stdpp Require Import gmap strings list fin_maps numbers pretty.

Set Warnings "-register-all".
Local Open Scope string_scope.
Local Open Scope Z_scope.

(** ** JavaScript values *)

Inductive value : Type :=
| VUndef
| VNull
| VBool (b : bool)
| VNum (q : Q)
| VNaN
| VStr (s : string)
| VTime (t : Z)
| VArr (l : list value)
| VObj (o : gmap string value).

Abbreviation obj := (gmap string value).

Definition num_of_Z (z : Z) : value := VNum (inject_Z z).
Definition num_of_nat (n : nat) : value := num_of_Z (Z.of_nat n).

(** [!!v] in JavaScript: ToBoolean. *)
Definition truthy (v : value) : bool :=
  match v with
  | VUndef | VNull | VNaN => false
  | VBool b => b
  | VNum q => negb (Qeq_bool q 0)
  | VStr s => negb (String.eqb s "")
  | VTime _ | VArr _ | VObj _ => true
  end.

(** [a || b]. *)
Definition js_or (a b : value) : value := if truthy a then a else b.

(** [o.k] for an object [o]: [undefined] when the property is absent. *)
Definition prop (o : obj) (k : string) : value := default VUndef (o !! k).

(** [v.k] for a value that is known not to be [null] or [undefined]
    (reads of a primitive give [undefined], but for [length]). *)
Definition get (v : value) (k : string) : value :=
  match v with
  | VObj o => prop o k
  | VArr l => if String.eqb k "length" then num_of_nat (length l) else VUndef
  | VStr s => if String.eqb k "length" then num_of_nat (String.length s) else VUndef
  | _ => VUndef
  end.

(** [a === b].  Objects and arrays are compared by reference in
    JavaScript; the two sides of every comparison of the sources come
    from different places (a stored record and a request), so they are
    never the same reference. *)
Definition strict_eq (a b : value) : bool :=
  match a, b with
  | VUndef, VUndef | VNull, VNull => true
  | VBool x, VBool y => Bool.eqb x y
  | VNum x, VNum y => Qeq_bool x y
  | VStr x, VStr y => String.eqb x y
  | VTime x, VTime y => Z.eqb x y
  | _, _ => false
  end.

(** What [JSON.parse (JSON.stringify v)] gives back: properties whose
    value is [undefined] are dropped, [undefined] and [NaN] inside arrays
    become [null]. *)
Fixpoint to_json (v : value) : value :=
  match v with
  | VUndef | VNaN => VNull
  | VArr l => VArr (map to_json l)
  | VObj o =>
      VObj (omap (fun x => match x with VUndef => None | _ => Some (to_json x) end) o)
  | _ => v
  end.

Definition obj_to_json (o : obj) : obj :=
  omap (fun x => match x with VUndef => None | _ => Some (to_json x) end) o.

(** Conversions of the JavaScript runtime that the sources rely on
    without defining them: ToNumber on strings, arrays and objects, the
    property key a non-string value is converted to, and the time that
    [Date.parse] reads in the string of a string, an array or an object
    ([None] when it reads none).  With them, one fact about the order
    of the properties of an object, which the maps do not keep: whether
    its property [__proto__] comes before its properties named
    [processingTimeFormatted] and [occlusionSummary]. *)
Class Runtime := {
  to_number_ext : value -> option Q;
  to_property_key_ext : value -> string;
  date_parse_ext : value -> option Z;
  prototype_first_ext : obj -> bool
}.

(** ** Doubles

    The result of an arithmetic operation is the double nearest to the
    exact result, the one with the even significand on a tie.  A
    positive double is [m * 2^e] with [m < 2^53] and [-1074 <= e]; the
    numbers of the sources stay far below [2^1024], where the doubles
    end. *)

(** The integer nearest to [n / d], the even one on a tie ([0 < d]). *)
Definition rne (n d : Z) : Z :=
  let f := n / d in
  match 2 * (n mod d) ?= d with
  | Lt => f
  | Gt => f + 1
  | Eq => if Z.even f then f else f + 1
  end.

(** [2^e] is [up e / down e]. *)
Definition up (e : Z) : Z := 2 ^ Z.max e 0.
Definition down (e : Z) : Z := 2 ^ Z.max (- e) 0.
Definition pow2 (e : Z) : Q := up e # Z.to_pos (down e).

(** The [k] with [2^k <= a / b < 2^(k+1)], for positive [a] and [b]. *)
Definition binade (a b : Z) : Z :=
  let k := Z.log2 a - Z.log2 b in
  if b * up k <=? a * down k then k else k - 1.

Definition fl_pos (a b : Z) : Q :=
  let e := Z.max (binade a b - 52) (-1074) in
  Qred (inject_Z (rne (a * down e) (b * up e)) * pow2 e).

(** The double nearest to [x]. *)
Definition fl (x : Q) : Q :=
  match Qnum x with
  | 0 => 0%Q
  | Z.pos a => fl_pos (Z.pos a) (Z.pos (Qden x))
  | Z.neg a => Qred (- fl_pos (Z.pos a) (Z.pos (Qden x)))
  end.

(** ToNumber; [None] is [NaN]. *)
Definition to_number `{Runtime} (v : value) : option Q :=
  match v with
  | VUndef | VNaN => None
  | VNull => Some 0%Q
  | VBool b => Some (if b then 1%Q else 0%Q)
  | VNum q => Some q
  | _ => to_number_ext v
  end.

Definition to_property_key `{Runtime} (v : value) : string :=
  match v with
  | VStr s => s
  | _ => to_property_key_ext v
  end.

(** [v > 0]. *)
Definition js_gt0 `{Runtime} (v : value) : bool :=
  match to_number v with
  | Some q => negb (Qle_bool q 0)
  | None => false
  end.

(** The time value of [new Date(v)], in milliseconds; [None] is an
    invalid date.  A time beyond 8.64e15 milliseconds from the epoch is
    no date; a number within is truncated. *)
Definition max_time : Z := 8640000000000000.

Definition time_clip (t : Z) : option Z :=
  if Z.abs t <=? max_time then Some t else None.

Definition date_ms `{Runtime} (v : value) : option Z :=
  match v with
  | VTime t => time_clip t
  | VNum q =>
      if Qle_bool (Qabs q) (inject_Z max_time)
      then Some (Z.quot (Qnum q) (Z.pos (Qden q)))
      else None
  | VBool b => Some (if b then 1 else 0)
  | VNull => Some 0
  | VUndef | VNaN => None
  | VStr _ | VArr _ | VObj _ =>
      match date_parse_ext v with
      | Some t => time_clip t
      | None => None
      end
  end.

(** [new Date(a) - new Date(b)]. *)
Definition date_sub `{Runtime} (a b : value) : value :=
  match date_ms a, date_ms b with
  | Some x, Some y => VNum (fl (inject_Z (x - y)))
  | _, _ => VNaN
  end.

(** [x.toFixed(2)] for [0 <= x < 10^21]: the integer [n] for which
    [n / 100 - x] is closest to zero (the larger one on a tie), written
    with two digits after the point. *)
Definition digit (n : N) : string := pretty (n mod 10)%N.

Definition toFixed2 (x : Q) : string :=
  let n := Z.to_N (Qfloor (x * inject_Z 100 + (1 # 2))%Q) in
  pretty (n / 100)%N ++ "." ++ digit (n / 10) ++ digit n.

Definition TypeError (msg : string) : value :=
  VObj (<["name" := VStr "TypeError"]> (<["message" := VStr msg]> ∅)).

(** ** The world: files and environment *)

Inductive filename := usersFile | uploadsFile | detectionsFile.

Global Instance filename_eq_dec : EqDecision filename :=
  ltac:(solve_decision).

(** A file either holds a JSON array of records or cannot be read
    (missing, not permitted, malformed).  These are the files the
    service leaves: it writes arrays of records only.  A file edited by
    hand to hold another JSON value (an object, [null], an array with
    [null] in it) is not described. *)
Inductive file :=
| Unreadable
| Stored (records : list obj).

(** A write either replaces the file, or fails and leaves the file in
    some state: [fs.writeJson] truncates the file before writing, so
    nothing is known about that state. *)
Inductive write_outcome :=
| WriteOk
| WriteFails (leftover : file).

Record Env := {
  uuid_at : nat -> string;
  time_at : nat -> Z;
  write_at : nat -> write_outcome
}.

Record World := {
  files : filename -> file;
  env : Env;
  uuid_ctr : nat;
  time_ctr : nat;
  write_ctr : nat
}.

Definition set_file (f : filename) (c : file) (fs : filename -> file) : filename -> file :=
  fun g => if decide (g = f) then c else fs g.

(** ** Computations that may throw *)

Inductive Res (A : Type) :=
| Ok (a : A)
| Throw (e : value).
Arguments Ok {A} a.
Arguments Throw {A} e.

Definition M (A : Type) : Type := World -> Res A * World.

Global Instance M_ret : MRet M := fun A a w => (Ok a, w).
Global Instance M_bind : MBind M := fun A B f m w =>
  match m w with
  | (Ok a, w') => f a w'
  | (Throw e, w') => (Throw e, w')
  end.

Definition throw {A} (e : value) : M A := fun w => (Throw e, w).

(** [try { body } catch (error) { handler }]. *)
Definition try_catch {A} (body : M A) (handler : value -> M A) : M A := fun w =>
  match body w with
  | (Ok a, w') => (Ok a, w')
  | (Throw e, w') => handler e w'
  end.

(** [uuidv4()]. *)
Definition uuidv4 : M value := fun w =>
  (Ok (VStr (uuid_at (env w) (uuid_ctr w))),
   {| files := files w; env := env w; uuid_ctr := S (uuid_ctr w);
      time_ctr := time_ctr w; write_ctr := write_ctr w |}).

(** [new Date()], also [new Date().toISOString()]. *)
Definition new_Date : M value := fun w =>
  (Ok (VTime (time_at (env w) (time_ctr w))),
   {| files := files w; env := env w; uuid_ctr := uuid_ctr w;
      time_ctr := S (time_ctr w); write_ctr := write_ctr w |}).

Definition IOError : value :=
  VObj (<["name" := VStr "Error"]> (<["message" := VStr "EIO"]> ∅)).

(** [fs.readJson(filename)]. *)
Definition fs_readJson (f : filename) : M (list obj) := fun w =>
  match files w f with
  | Stored rs => (Ok rs, w)
  | Unreadable => (Throw IOError, w)
  end.

(** [fs.writeJson(filename, data, { spaces: 2 })]. *)
Definition fs_writeJson (f : filename) (data : list obj) : M unit := fun w =>
  let put c :=
    {| files := set_file f c (files w); env := env w; uuid_ctr := uuid_ctr w;
       time_ctr := time_ctr w; write_ctr := S (write_ctr w) |} in
  match write_at (env w) (write_ctr w) with
  | WriteOk => (Ok tt, put (Stored (map obj_to_json data)))
  | WriteFails leftover => (Throw IOError, put leftover)
  end.

(** ** dataService.js *)

Module DataService.

(** [readData]: a failed read is logged and answered by the empty array. *)
Definition readData (f : filename) : M (list obj) :=
  try_catch (fs_readJson f) (fun _ => mret []).

(** [writeData]: a failed write is logged and answered by [false]. *)
Definition writeData (f : filename) (data : list obj) : M bool :=
  try_catch (fs_writeJson f data ;; mret true) (fun _ => mret false).

(** [records.find(r => r.id === id)]. *)
Definition find_by_id (id : value) (rs : list obj) : option obj :=
  List.find (fun r => strict_eq (prop r "id") id) rs.

(** [records.findIndex(r => r.id === id)]; [None] is [-1]. *)
Fixpoint findIndex_by_id (id : value) (rs : list obj) : option nat :=
  match rs with
  | [] => None
  | r :: rs' =>
      if strict_eq (prop r "id") id then Some O
      else S <$> findIndex_by_id id rs'
  end.

(** The three groups of operations of the service (users, uploads,
    detections) are the same code over three files; each is written once
    here, over the file, and instantiated under the names of the source. *)

Definition getRecords (f : filename) : M (list obj) := readData f.

Definition getRecordById (f : filename) (id : value) : M (option obj) :=
  rs ← getRecords f; mret (find_by_id id rs).

(** [{ id: uuidv4(), ...data, createdAt: now, updatedAt: now }]. *)
Definition new_record (uuid : value) (data : obj) (t1 t2 : value) : obj :=
  <["updatedAt" := t2]> (<["createdAt" := t1]> (data ∪ {["id" := uuid]})).

Definition createRecord (f : filename) (data : obj) : M obj :=
  rs ← getRecords f;
  uuid ← uuidv4;
  t1 ← new_Date;
  t2 ← new_Date;
  let newRecord := new_record uuid data t1 t2 in
  writeData f (rs ++ [newRecord]) ;;
  mret newRecord.

(** [{ ...existing, ...updateData, updatedAt: now }]. *)
Definition merged_record (existing updateData : obj) (t : value) : obj :=
  <["updatedAt" := t]> (updateData ∪ existing).

(** [None] is the [null] answered when no record has the identifier. *)
Definition updateRecord (f : filename) (id : value) (updateData : obj)
  : M (option obj) :=
  rs ← getRecords f;
  match findIndex_by_id id rs with
  | None => mret None
  | Some i =>
      match rs !! i with
      | None => mret None
      | Some existing =>
          t ← new_Date;
          let updated := merged_record existing updateData t in
          writeData f (<[i := updated]> rs) ;;
          mret (Some updated)
      end
  end.

Definition deleteRecord (f : filename) (id : value) : M bool :=
  rs ← getRecords f;
  let filtered := filter (fun r => strict_eq (prop r "id") id = false) rs in
  writeData f filtered ;;
  mret (bool_decide (length filtered < length rs)%nat).

Definition getUsers := getRecords usersFile.
Definition getUserById := getRecordById usersFile.
Definition createUser := createRecord usersFile.
Definition deleteUser := deleteRecord usersFile.

Definition getUploads := getRecords uploadsFile.
Definition getUploadById := getRecordById uploadsFile.
Definition createUpload := createRecord uploadsFile.
Definition updateUpload := updateRecord uploadsFile.
Definition deleteUpload := deleteRecord uploadsFile.

Definition getDetections := getRecords detectionsFile.
Definition getDetectionById := getRecordById detectionsFile.
Definition createDetection := createRecord detectionsFile.
Definition updateDetection := updateRecord detectionsFile.
Definition deleteDetection := deleteRecord detectionsFile.

Definition getDetectionsByUploadId (uploadId : value) : M (list obj) :=
  rs ← getDetections;
  mret (filter (fun d => strict_eq (prop d "uploadId") uploadId = true) rs).


(** Statistics.  A [forEach] over the vehicles raises a [TypeError] at
    the first vehicle that is [null] or [undefined], and so does a
    [vehicles] property that is truthy but not an array. *)

Definition no_forEach : value := TypeError "detection.vehicles.forEach is not a function".
Definition null_read : value := TypeError "Cannot read properties of null".

(** One round of the inner loop of [calculateOcclusionStats] on the
    counters [(totalVehicles, occludedVehicles)]. *)
Definition occlusion_visit (acc : nat * nat) (vehicle : value) : Res (nat * nat) :=
  match vehicle with
  | VUndef | VNull => Throw null_read
  | _ =>
      Ok (S acc.1, if truthy (get vehicle "occluded") then S acc.2 else acc.2)
  end.

Fixpoint forEach {A} (f : A -> value -> Res A) (acc : A) (l : list value) : Res A :=
  match l with
  | [] => Ok acc
  | x :: l' =>
      match f acc x with
      | Ok acc' => forEach f acc' l'
      | Throw e => Throw e
      end
  end.

(** One round of an outer loop [detections.forEach(detection => { if
    (detection.vehicles) detection.vehicles.forEach(...) })]. *)
Definition visit_detection {A} (f : A -> value -> Res A) (acc : A) (detection : obj)
  : Res A :=
  match prop detection "vehicles" with
  | VArr vehicles => forEach f acc vehicles
  | v => if truthy v then Throw no_forEach else Ok acc
  end.

Fixpoint forEach_detection {A} (f : A -> value -> Res A) (acc : A)
  (detections : list obj) : Res A :=
  match detections with
  | [] => Ok acc
  | d :: ds =>
      match visit_detection f acc d with
      | Ok acc' => forEach_detection f acc' ds
      | Throw e => Throw e
      end
  end.

Definition occlusion_counts (detections : list obj) : Res (nat * nat) :=
  forEach_detection occlusion_visit (O, O) detections.

(** [a / b * 100]: the quotient is rounded, then the product. *)
Definition ratio100 (a b : nat) : Q :=
  fl (fl (inject_Z (Z.of_nat a) / inject_Z (Z.of_nat b)) * inject_Z 100).

Definition occlusion_stats_of (c : nat * nat) : obj :=
  let totalVehicles := c.1 in
  let occludedVehicles := c.2 in
  <["totalVehicles" := num_of_nat totalVehicles]>
  (<["occludedVehicles" := num_of_nat occludedVehicles]>
  (<["occlusionRate" :=
       if bool_decide (0 < totalVehicles)%nat
       then VStr (toFixed2 (ratio100 occludedVehicles totalVehicles))
       else num_of_Z 0]> ∅)).

Definition calculateOcclusionStats (detections : list obj) : Res obj :=
  match occlusion_counts detections with
  | Ok c => Ok (occlusion_stats_of c)
  | Throw e => Throw e
  end.

(** One round of the inner loop of [calculateVehicleStats]:
    [vehicleTypes[vehicle.type] = (vehicleTypes[vehicle.type] || 0) + 1].
    Type names are taken not to be names that every object inherits. *)
Definition type_visit `{Runtime} (vehicleTypes : gmap string nat) (vehicle : value)
  : Res (gmap string nat) :=
  match vehicle with
  | VUndef | VNull => Throw null_read
  | _ =>
      let k := to_property_key (get vehicle "type") in
      Ok (<[k := S (default O (vehicleTypes !! k))]> vehicleTypes)
  end.

Definition calculateVehicleStats `{Runtime} (detections : list obj) : Res obj :=
  match forEach_detection type_visit ∅ detections with
  | Ok m => Ok (num_of_nat <$> m)
  | Throw e => Throw e
  end.

Definition lift {A} (r : Res A) : M A := fun w => (r, w).

(** [list.slice(-10).reverse()]. *)
Definition last10_reversed {A} (l : list A) : list A :=
  rev (drop (length l - 10) l).

(** [getStats(userId = null)]. *)
Definition getStats `{Runtime} (userId : value) : M obj :=
  uploads ← getUploads;
  detections ← getDetections;
  let userUploads :=
    if truthy userId
    then filter (fun u => strict_eq (prop u "userId") userId = true) uploads
    else uploads in
  let userDetections :=
    if truthy userId
    then filter (fun d => strict_eq (prop d "userId") userId = true) detections
    else detections in
  vehicleStats ← lift (calculateVehicleStats userDetections);
  occlusionStats ← lift (calculateOcclusionStats userDetections);
  mret (<["totalUploads" := num_of_nat (length userUploads)]>
       (<["totalDetections" := num_of_nat (length userDetections)]>
       (<["recentActivity" := VArr (VObj <$> last10_reversed userUploads)]>
       (<["vehicleStats" := VObj vehicleStats]>
       (<["occlusionStats" := VObj occlusionStats]> ∅))))).

(** The remaining lookups of the service. *)

Definition getUserByEmail (email : value) : M (option obj) :=
  users ← getUsers;
  mret (List.find (fun user => strict_eq (prop user "email") email) users).

Definition getUploadsByUserId (userId : value) : M (list obj) :=
  uploads ← getUploads;
  mret (filter (fun upload => strict_eq (prop upload "userId") userId = true) uploads).

Definition getDetectionsByUserId (userId : value) : M (list obj) :=
  detections ← getDetections;
  mret (filter (fun d => strict_eq (prop d "userId") userId = true) detections).

End DataService.

(** ** models/Detection.js

    An instance of the class is the object of its properties; a method
    that assigns to [this] returns the instance it leaves behind. *)

Module Detection.
Import DataService.

Definition default_results : value :=
  VObj (<["totalVehicles" := num_of_Z 0]>
       (<["occludedVehicles" := num_of_Z 0]>
       (<["occlusionPercentage" := num_of_Z 0]>
       (<["vehicles" := VArr []]>
       (<["imageMetadata" := VObj ∅]>
       (<["processingMetadata" := VObj ∅]> ∅)))))).

(** [new Detection(detectionData)]. *)
Definition new (detectionData : obj) : obj :=
  <["id" := prop detectionData "id"]>
  (<["userId" := prop detectionData "userId"]>
  (<["uploadId" := prop detectionData "uploadId"]>
  (<["status" := js_or (prop detectionData "status") (VStr "pending")]>
  (<["processingStartTime" := prop detectionData "processingStartTime"]>
  (<["processingEndTime" := prop detectionData "processingEndTime"]>
  (<["processingDuration" := prop detectionData "processingDuration"]>
  (<["results" := js_or (prop detectionData "results") default_results]>
  (<["annotations" := js_or (prop detectionData "annotations") (VArr [])]>
  (<["errorDetails" := js_or (prop detectionData "errorDetails") (VObj ∅)]>
  (<["metrics" := js_or (prop detectionData "metrics") (VObj ∅)]>
  (<["createdAt" := prop detectionData "createdAt"]>
  (<["updatedAt" := prop detectionData "updatedAt"]> ∅)))))))))))).

Definition findById (id : value) : M (option obj) :=
  detectionData ← getDetectionById id;
  mret (new <$> detectionData).

Definition findByUploadId (uploadId : value) : M (list obj) :=
  detectionsData ← getDetectionsByUploadId uploadId;
  mret (new <$> detectionsData).


(** The callback of the filter in [save]:
    [v => v.occlusion && v.occlusion.isOccluded]. *)
Definition is_occluded (v : value) : Res bool :=
  match v with
  | VUndef | VNull => Throw null_read
  | _ =>
      let occlusion := get v "occlusion" in
      Ok (truthy occlusion && truthy (get occlusion "isOccluded"))
  end.

(** [vehicles.filter(callback).length]. *)
Fixpoint occluded_count (vehicles : list value) : Res nat :=
  match vehicles with
  | [] => Ok O
  | v :: vs =>
      match is_occluded v with
      | Throw e => Throw e
      | Ok b =>
          match occluded_count vs with
          | Throw e => Throw e
          | Ok n => Ok (if b then S n else n)
          end
      end
  end.

Definition no_filter : value := TypeError "this.results.vehicles.filter is not a function".

(** The second statement of [save], "Calculate occlusion percentage",
    as it acts on [this.results]: [Some r] is the object the two
    assignments leave in [this.results], [None] says that the guard
    failed and nothing was assigned.  The guard is [this.results &&
    this.results.vehicles && this.results.vehicles.length > 0]; a truthy
    [vehicles] that is a string has a positive length and no [filter],
    one that is a number or [true] has no length. *)
Definition occlusion_update `{Runtime} (results : value) : Res (option obj) :=
  if truthy results && truthy (get results "vehicles") then
    match get results "vehicles" with
    | VArr vehicles =>
        if bool_decide (0 < length vehicles)%nat then
          match occluded_count vehicles with
          | Throw e => Throw e
          | Ok occludedCount =>
              let r := match results with VObj r => r | _ => ∅ end in
              Ok (Some (<["occlusionPercentage" :=
                            VNum (ratio100 occludedCount (length vehicles))]>
                       (<["occludedVehicles" := num_of_nat occludedCount]> r)))
          end
        else Ok None
    | VStr _ | VTime _ => Throw no_filter
    | VObj o => if js_gt0 (prop o "length") then Throw no_filter else Ok None
    | _ => Ok None
    end
  else Ok None.

Definition recompute_occlusion `{Runtime} (this : obj) : Res obj :=
  match occlusion_update (prop this "results") with
  | Throw e => Throw e
  | Ok None => Ok this
  | Ok (Some r) => Ok (<["results" := VObj r]> this)
  end.

(** The first statement of [save], "Calculate processing duration". *)
Definition recompute_duration `{Runtime} (this : obj) : obj :=
  if truthy (prop this "processingStartTime") && truthy (prop this "processingEndTime")
  then <["processingDuration" :=
           date_sub (prop this "processingEndTime") (prop this "processingStartTime")]> this
  else this.

(** The object literal [detectionData] of [save]. *)
Definition detectionData_of (this : obj) : obj :=
  <["userId" := prop this "userId"]>
  (<["uploadId" := prop this "uploadId"]>
  (<["status" := prop this "status"]>
  (<["processingStartTime" := prop this "processingStartTime"]>
  (<["processingEndTime" := prop this "processingEndTime"]>
  (<["processingDuration" := prop this "processingDuration"]>
  (<["results" := prop this "results"]>
  (<["annotations" := prop this "annotations"]>
  (<["errorDetails" := prop this "errorDetails"]>
  (<["metrics" := prop this "metrics"]> ∅))))))))).

(** [Object.assign(this, data)] sets on the instance every property of
    [data], in their order.  The class has two accessors with a getter
    and no setter, [processingTimeFormatted] and [occlusionSummary]:
    setting one of them throws a [TypeError].  Setting [__proto__]
    replaces the prototype of the instance when the value is an object
    or [null], and does nothing otherwise; an instance whose prototype
    was replaced is written here with that value under [__proto__].
    Once the prototype is replaced the accessors are out of reach, and
    the names of the two are set like any other.  Every other name is
    set as a property of the instance, also when the class has a method
    of that name. *)
Definition accessor_names : list string := ["processingTimeFormatted"; "occlusionSummary"].

Definition getter_only : value :=
  TypeError "Cannot set property which has only a getter".

Definition has_accessor (data : obj) : bool :=
  existsb (fun k => bool_decide (is_Some (data !! k))) accessor_names.

Definition replaces_prototype (v : value) : bool :=
  match v with
  | VObj _ | VArr _ | VNull => true
  | _ => false
  end.

Definition assigned (this data : obj) : obj :=
  match data !! "__proto__" with
  | Some v =>
      if replaces_prototype v then data ∪ this else delete "__proto__" data ∪ this
  | None => data ∪ this
  end.

Definition prototype_replaced_first `{Runtime} (data : obj) : bool :=
  match data !! "__proto__" with
  | Some v => replaces_prototype v && prototype_first_ext data
  | None => false
  end.

Definition prototype_replaced (this : obj) : bool :=
  bool_decide (is_Some (this !! "__proto__")).

Definition Object_assign `{Runtime} (this data : obj) : Res obj :=
  if has_accessor data && negb (prototype_replaced this)
     && negb (prototype_replaced_first data)
  then Throw getter_only
  else Ok (assigned this data).

Definition save `{Runtime} (this : obj) : M obj :=
  this ← lift (recompute_occlusion (recompute_duration this));
  let detectionData := detectionData_of this in
  if truthy (prop this "id") then
    updatedData ← updateDetection (prop this "id") detectionData;
    match updatedData with
    | Some updatedData => lift (Object_assign this updatedData)
    | None => mret this
    end
  else
    newDetectionData ← createDetection detectionData;
    lift (Object_assign this newDetectionData).

(** [instance.save()]: the method is found on the prototype unless the
    instance has a property of that name, which is never a function, or
    its prototype was replaced. *)
Definition not_a_function : value := TypeError "is not a function".

Definition has_method (this : obj) (name : string) : bool :=
  negb (bool_decide (is_Some (this !! name)))
  && negb (bool_decide (is_Some (this !! "__proto__"))).

Definition call_save `{Runtime} (this : obj) : M obj :=
  if has_method this "save" then save this else throw not_a_function.

Definition terminal_status (status : value) : bool :=
  strict_eq status (VStr "completed") || strict_eq status (VStr "failed")
  || strict_eq status (VStr "cancelled").

(** [updateStatus(status, errorDetails = null)]. *)
Definition updateStatus `{Runtime} (this : obj) (status : value) (errorDetails : value)
  : M obj :=
  let this := <["status" := status]> this in
  this ←
    (if strict_eq status (VStr "processing")
        && negb (truthy (prop this "processingStartTime"))
     then t ← new_Date; mret (<["processingStartTime" := t]> this)
     else if terminal_status status && negb (truthy (prop this "processingEndTime"))
     then t ← new_Date; mret (<["processingEndTime" := t]> this)
     else mret this);
  let this :=
    if truthy errorDetails then <["errorDetails" := errorDetails]> this else this in
  call_save this.

Definition findByUserId (userId : value) : M (list obj) :=
  detectionsData ← getDetectionsByUserId userId;
  mret (new <$> detectionsData).

Definition findAll : M (list obj) :=
  detectionsData ← getDetections;
  mret (new <$> detectionsData).

(** [remove()]. *)
Definition remove (this : obj) : M bool :=
  if truthy (prop this "id") then deleteDetection (prop this "id")
  else mret false.

Definition no_push : value := TypeError "this.annotations.push is not a function".

(** [addAnnotation(annotation)], for an annotation that is an object. *)
Definition addAnnotation `{Runtime} (this annotation : obj) : M obj :=
  t ← new_Date;
  let annotation := <["timestamp" := t]> annotation in
  match prop this "annotations" with
  | VArr annotations =>
      call_save (<["annotations" := VArr (annotations ++ [VObj annotation])%list]> this)
  | _ => throw no_push
  end.

(** The getter [processingTimeFormatted].  [Math.floor] of a quotient of
    integers is [Z.div], [%] is [Z.rem]; integers are written in decimal,
    as JavaScript writes them below 10^21. *)
Definition processingTimeFormatted `{Runtime} (this : obj) : value :=
  let processingDuration := prop this "processingDuration" in
  if negb (truthy processingDuration) then VNull
  else
    match to_number processingDuration with
    | None => VStr "NaNs"
    | Some duration =>
        let seconds := Qfloor (duration / inject_Z 1000) in
        let minutes := seconds / 60 in
        let hours := minutes / 60 in
        if 0 <? hours then
          VStr (pretty hours ++ "h " ++ pretty (Z.rem minutes 60) ++ "m "
                ++ pretty (Z.rem seconds 60) ++ "s")
        else if 0 <? minutes then
          VStr (pretty minutes ++ "m " ++ pretty (Z.rem seconds 60) ++ "s")
        else VStr (pretty seconds ++ "s")
    end.

(** The getter [occlusionSummary].  [summary[level]++] adds one to a
    count, and leaves [NaN] under any other name, but for [__proto__],
    whose assignment is ignored. *)
Definition empty_summary : obj :=
  <["none" := num_of_Z 0]> (<["partial" := num_of_Z 0]>
  (<["heavy" := num_of_Z 0]> (<["complete" := num_of_Z 0]> ∅))).

Definition increment (summary : obj) (k : string) : obj :=
  if String.eqb k "__proto__" then summary
  else
    <[k := match summary !! k with
           | Some (VNum n) => VNum (Qred (n + 1))
           | _ => VNaN
           end]> summary.

Definition summary_visit `{Runtime} (summary : obj) (vehicle : value) : Res obj :=
  match vehicle with
  | VUndef | VNull => Throw null_read
  | _ =>
      let occlusion := get vehicle "occlusion" in
      if truthy occlusion && truthy (get occlusion "occlusionLevel")
      then Ok (increment summary (to_property_key (get occlusion "occlusionLevel")))
      else Ok summary
  end.

Definition occlusionSummary `{Runtime} (this : obj) : Res value :=
  let results := prop this "results" in
  if negb (truthy results) || negb (truthy (get results "vehicles")) then Ok VNull
  else
    match get results "vehicles" with
    | VArr vehicles =>
        match forEach summary_visit empty_summary vehicles with
        | Ok summary => Ok (VObj summary)
        | Throw e => Throw e
        end
    | _ => Throw no_forEach
    end.

End Detection.

(** ** routes/detectionRoutes.js *)

Module Routes.
Import DataService.

Record Response := { status_code : nat; body : obj }.

(** The properties [{ ...v }] copies from [v]: those of an object, the
    elements of an array and the characters of a string under their
    indices, nothing from any other value. *)
Definition indexed (l : list value) : obj :=
  list_to_map (imap (fun i x => (pretty (N.of_nat i), x)) l).

Definition chars (s : string) : list value :=
  (fun c => VStr (String c "")) <$> String.list_ascii_of_string s.

Definition spread_of (v : value) : obj :=
  match v with
  | VObj o => o
  | VArr l => indexed l
  | VStr s => indexed (chars s)
  | _ => ∅
  end.

(** [mockResults], the result the source inlines in place of an
    analysis.  A decimal literal is the double nearest to it. *)
Definition mock_vehicle (id type : string) (confidence : Q) (x y width height : Z)
  (occlusion features : obj) : value :=
  VObj (<["id" := VStr id]>
       (<["type" := VStr type]>
       (<["confidence" := VNum (fl confidence)]>
       (<["boundingBox" :=
            VObj (<["x" := num_of_Z x]> (<["y" := num_of_Z y]>
                 (<["width" := num_of_Z width]> (<["height" := num_of_Z height]> ∅))))]>
       (<["occlusion" := VObj occlusion]>
       (<["features" := VObj features]> ∅)))))).

Definition mock_features (color size : string) (orientation : Z) : obj :=
  <["color" := VStr color]> (<["size" := VStr size]>
  (<["orientation" := num_of_Z orientation]> ∅)).

Definition not_occluded : obj :=
  <["isOccluded" := VBool false]> (<["occlusionLevel" := VStr "none"]>
  (<["occlusionPercentage" := num_of_Z 0]> ∅)).

Definition mockResults : obj :=
  <["totalVehicles" := num_of_Z 3]>
  (<["occludedVehicles" := num_of_Z 1]>
  (<["occlusionPercentage" := VNum (fl (3333 # 100))]>
  (<["vehicles" := VArr [
       mock_vehicle "vehicle_1" "car" (95 # 100) 100 150 200 150
         not_occluded (mock_features "blue" "medium" 0);
       mock_vehicle "vehicle_2" "truck" (88 # 100) 350 120 300 200
         (<["isOccluded" := VBool true]> (<["occlusionLevel" := VStr "partial"]>
          (<["occlusionPercentage" := num_of_Z 35]>
          (<["occludedBy" := VArr [VStr "vehicle_3"]]> ∅))))
         (mock_features "white" "large" 15);
       mock_vehicle "vehicle_3" "car" (92 # 100) 500 180 180 140
         not_occluded (mock_features "red" "medium" (-10)) ]]>
  (<["processingMetadata" :=
       VObj (<["modelVersion" := VStr "v1.0.0"]>
            (<["algorithm" := VStr "YOLO + Custom Occlusion Analysis"]>
            (<["computeTime" := num_of_Z 4850]>
            (<["memoryUsage" := num_of_Z 1024]> ∅))))]> ∅)))).

Section Handlers.
Context `{Runtime}.

(** The route queries its models through [findOne].  The property
    [findOne] of a class is a function that answers a document or
    [null], or it is [undefined], written [None], and calling it throws
    a [TypeError]. *)
Variable Upload_findOne : option (obj -> M value).
Variable Detection_findOne : option (obj -> M value).

Definition call (method : option (obj -> M value)) (argument : obj) : M value :=
  match method with
  | Some f => f argument
  | None => throw Detection.not_a_function
  end.

(** The step of the job between its two saves, where the source waits
    five seconds and builds [mockResults] ([mock_analyze] below). *)
Variable analyze : M obj.

(** The [try] block of [processVehicleDetection]. *)
Definition process_body (detectionId : value) : M unit :=
  found ← Detection.findById detectionId;
  match found with
  | None => mret tt
  | Some detection =>
      let detection := <["status" := VStr "processing"]> detection in
      t ← new_Date;
      let detection := <["processingStartTime" := t]> detection in
      detection ← Detection.save detection;
      results ← analyze;
      let detection := <["status" := VStr "completed"]> detection in
      t ← new_Date;
      let detection := <["processingEndTime" := t]> detection in
      let detection :=
        <["results" := VObj (results ∪ spread_of (prop detection "results"))]>
          detection in
      Detection.call_save detection ;;
      mret tt
  end.

(** Its [catch (error)] block. *)
Definition process_failed (detectionId : value) (error : value) : M unit :=
  found ← Detection.findById detectionId;
  match found with
  | None => mret tt
  | Some detection =>
      let detection := <["status" := VStr "failed"]> detection in
      t ← new_Date;
      let detection := <["processingEndTime" := t]> detection in
      message ←
        match error with
        | VUndef | VNull => throw null_read
        | _ => mret (get error "message")
        end;
      let detection :=
        <["errorDetails" :=
            VObj (<["code" := VStr "PROCESSING_ERROR"]>
                 (<["message" := message]> ∅))]> detection in
      Detection.save detection ;;
      mret tt
  end.

(** [processVehicleDetection(detectionId)]. *)
Definition processVehicleDetection (detectionId : value) : M unit :=
  try_catch (process_body detectionId) (process_failed detectionId).

(** The callback handed to [setTimeout] by the route: the job, with
    whatever it throws caught and logged. *)
Definition background_task (detectionId : value) : M unit :=
  try_catch (processVehicleDetection detectionId) (fun _ => mret tt).

Definition failure (message : string) : obj :=
  <["success" := VBool false]> (<["message" := VStr message]> ∅).

(** The handler of [POST /api/detection/analyze], given the body of the
    request and [req.user._id].  It answers the response and, when it
    starts a job, the argument given to [processVehicleDetection]. *)
Definition post_analyze (req_body : obj) (user_id : value)
  : M (Response * option value) :=
  let uploadId := prop req_body "uploadId" in
  let parameters := prop req_body "parameters" in
  if negb (truthy uploadId) then
    mret ({| status_code := 400; body := failure "Upload ID is required" |}, None)
  else
    upload ← call Upload_findOne (<["_id" := uploadId]> (<["user" := user_id]> ∅));
    if negb (truthy upload) then
      mret ({| status_code := 404; body := failure "Upload not found" |}, None)
    else
      existingDetection ← call Detection_findOne (<["uploadedFile" := uploadId]> ∅);
      if truthy existingDetection then
        mret ({| status_code := 400;
                 body := <["data" :=
                             VObj (<["detectionId" := get existingDetection "_id"]> ∅)]>
                         (failure "Detection already exists for this upload") |},
              None)
      else
        let detection :=
          Detection.new
            (<["user" := user_id]>
            (<["uploadedFile" := uploadId]>
            (<["status" := VStr "pending"]>
            (<["results" :=
                 VObj (<["processingMetadata" :=
                          VObj (<["parameters" := js_or parameters (VObj ∅)]> ∅)]> ∅)]>
               ∅)))) in
        detection ← Detection.save detection;
        mret ({| status_code := 201;
                 body := <["success" := VBool true]>
                        (<["message" := VStr "Detection analysis started"]>
                        (<["data" :=
                             VObj (<["detectionId" := prop detection "_id"]>
                                  (<["status" := prop detection "status"]> ∅))]> ∅)) |},
              Some (prop detection "_id")).

End Handlers.

(** The analysis of the source: the inlined mock, which never fails. *)
Definition mock_analyze : M obj := mret mockResults.

(** The classes as the repository has them.  [models/Upload.js] defines
    the static methods [findById], [findByUserId], [findAll] and
    [create], [models/Detection.js] those and [findByUploadId] and
    [createSampleDetection]: [findOne] is a method of neither. *)
Definition Upload_findOne : option (obj -> M value) := None.
Definition Detection_findOne : option (obj -> M value) := None.

(** The handler of the route and the job, as they run. *)
Definition analyze_route `{Runtime} : obj -> value -> M (Response * option value) :=
  post_analyze Upload_findOne Detection_findOne.

Definition job `{Runtime} : value -> M unit := processVehicleDetection mock_analyze.

End Routes.

(** ** Concurrent calls of [createDetection]

    A call runs in two turns of the event loop: up to the completion of
    [fs.readJson], after which the record is built and the write is
    issued, and up to the completion of [fs.writeJson].  Turns of several
    calls interleave in any order. *)

Module Interleaving.
Import DataService.

Inductive task :=
| Called (detectionData : obj)
| Writing (newDetection : obj) (detections : list obj)
| Returned (result : Res obj).

Definition first_turn (detectionData : obj) : M (obj * list obj) :=
  detections ← getDetections;
  uuid ← uuidv4;
  t1 ← new_Date;
  t2 ← new_Date;
  let newDetection := new_record uuid detectionData t1 t2 in
  mret (newDetection, (detections ++ [newDetection])%list).

Definition second_turn (newDetection : obj) (detections : list obj) : M obj :=
  writeData detectionsFile detections ;;
  mret newDetection.

Definition turn (t : task) (w : World) : task * World :=
  match t with
  | Called detectionData =>
      match first_turn detectionData w with
      | (Ok (n, all), w') => (Writing n all, w')
      | (Throw e, w') => (Returned (Throw e), w')
      end
  | Writing n all =>
      match second_turn n all w with
      | (r, w') => (Returned r, w')
      end
  | Returned r => (Returned r, w)
  end.

(** The calls in flight and the world, after the turns of a schedule;
    a schedule names, turn after turn, the call that runs. *)
Fixpoint run (schedule : list nat) (tasks : list task) (w : World)
  : list task * World :=
  match schedule with
  | [] => (tasks, w)
  | i :: schedule' =>
      match tasks !! i with
      | None => run schedule' tasks w
      | Some t =>
          let '(t', w') := turn t w in
          run schedule' (<[i := t']> tasks) w'
      end
  end.

Definition succeeded (t : task) : bool :=
  match t with Returned (Ok _) => true | _ => false end.

Definition failed (t : task) : bool :=
  match t with Returned (Throw _) => true | _ => false end.

(** The turns a call has taken. *)
Definition turns_taken (t : task) : nat :=
  match t with
  | Called _ => 0
  | Writing _ _ => 1
  | Returned _ => 2
  end.

(** The turns a schedule gives to a call. *)
Definition scheduled (i : nat) (schedule : list nat) : nat :=
  length (filter (fun j => j = i) schedule).

(** Every call is given at least its two turns. *)
Definition complete (n : nat) (schedule : list nat) : Prop :=
  forall i, (i < n)%nat -> (2 <= scheduled i schedule)%nat.

End Interleaving.

(** ** Notions used by the statements *)

Import DataService.

(** The records a read of the file answers. *)
Definition stored (w : World) (f : filename) : list obj :=
  match files w f with
  | Stored rs => rs
  | Unreadable => []
  end.

(** The next write of the world succeeds. *)
Definition write_succeeds (w : World) : Prop :=
  write_at (env w) (write_ctr w) = WriteOk.

(** The value a property has after a round trip through JSON. *)
Definition json_prop (v : value) : value :=
  match v with
  | VUndef => VUndef
  | _ => to_json v
  end.

Definition is_object (v : value) : bool :=
  match v with VObj _ => true | _ => false end.

(** Results whose [vehicles] are as the data model has them: absent, or
    an array of objects. *)
Definition plain_results (results : value) : bool :=
  match get results "vehicles" with
  | VArr vehicles => forallb is_object vehicles
  | v => negb (truthy v)
  end.

(** The invariant of the specification on the results of a detection:
    [occlusionPercentage == occludedVehicles / totalVehicles * 100],
    and [0] when [totalVehicles == 0]. *)
Definition occlusion_consistent (results : value) : bool :=
  match get results "totalVehicles", get results "occludedVehicles",
        get results "occlusionPercentage" with
  | VNum total, VNum occluded, VNum percentage =>
      if Qeq_bool total 0 then Qeq_bool percentage 0
      else Qeq_bool percentage (occluded / total * inject_Z 100)
  | _, _, _ => false
  end.

(** The vehicles the statistics visit: those in the top-level
    [vehicles] of the detections. *)
Definition top_level_vehicles (detection : obj) : list value :=
  match prop detection "vehicles" with
  | VArr vehicles => vehicles
  | _ => []
  end.

Definition visited_vehicles (detections : list obj) : list value :=
  detections ≫= top_level_vehicles.

(** Detections the statistics read without a [TypeError]: the top-level
    [vehicles] are absent (or falsy), or an array without [null]. *)
Definition nullish (v : value) : bool :=
  match v with VUndef | VNull => true | _ => false end.

Definition countable_detection (detection : obj) : bool :=
  match prop detection "vehicles" with
  | VArr vehicles => forallb (fun v => negb (nullish v)) vehicles
  | v => negb (truthy v)
  end.

(** The detections [getStats] hands to the two calculations. *)
Definition stats_detections (userId : value) (w : World) : list obj :=
  if truthy userId
  then filter (fun d => strict_eq (prop d "userId") userId = true)
         (stored w detectionsFile)
  else stored w detectionsFile.

Definition occluded_flag (vehicle : value) : bool := truthy (get vehicle "occluded").

(** A record as the detection pipeline leaves it in the file: created by
    [save], then updated by [save] any number of times. *)
Inductive pipeline_record : obj -> Prop :=
| pipeline_created (this : obj) (uuid t1 t2 : value) :
    pipeline_record (obj_to_json (new_record uuid (Detection.detectionData_of this) t1 t2))
| pipeline_updated (existing this : obj) (t : value) :
    pipeline_record existing ->
    pipeline_record
      (obj_to_json (merged_record existing (Detection.detectionData_of this) t)).

(** A string of decimal digits, a point and two decimal digits. *)
Definition two_decimals (s : string) : Prop :=
  exists i a b : N, (a < 10)%N /\ (b < 10)%N /\ s = pretty i ++ "." ++ pretty a ++ pretty b.

(** [s] is what [x.toFixed(2)] gives for a number [0 <= x < 10^21]: the
    digits of the integer [n] for which [n / 100 - x] is closest to
    zero, the larger one when there are two, with a point before the
    last two. *)
Definition fixed2_of (x : Q) (s : string) : Prop :=
  exists n : N,
    (inject_Z (Z.of_N n) - (1 # 2) <= x * inject_Z 100)%Q /\
    (x * inject_Z 100 < inject_Z (Z.of_N n) + (1 # 2))%Q /\
    s = pretty (n / 100)%N ++ "." ++ pretty (n / 10 mod 10)%N ++ pretty (n mod 10)%N.

(** The record [createRecord] builds in a world, and the moment
    [updateRecord] stamps. *)
Definition created_record (data : obj) (w : World) : obj :=
  new_record (VStr (uuid_at (env w) (uuid_ctr w))) data
    (VTime (time_at (env w) (time_ctr w)))
    (VTime (time_at (env w) (S (time_ctr w)))).

Definition now (w : World) : value := VTime (time_at (env w) (time_ctr w)).

(** The properties of an instance that [save] hands to the store. *)
Definition saved_fields : list string :=
  ["userId"; "uploadId"; "status"; "processingStartTime"; "processingEndTime";
   "processingDuration"; "results"; "annotations"; "errorDetails"; "metrics"].

(** The record holds, for each of them, the value the instance has. *)
Definition saved_as (this rec : obj) : Prop :=
  forall k, k ∈ saved_fields -> rec !! k = Some (prop this k).

(** Rounding, as IEEE 754 defines it for a result [0 <= x]: [d] is the
    multiple [m * 2^e] of the spacing [2^e] of the doubles around [x]
    that is nearest to [x], the one with [m] even when [x] is half way
    between two.  The spacing is the one of the binade of [x],
    [2^(e+52) <= x < 2^(e+53)], and [2^(-1074)] below the binades. *)
Definition nearest_double (x d : Q) : Prop :=
  exists m e : Z,
    -1074 <= e /\
    (x < inject_Z (2 ^ 53) * pow2 e)%Q /\
    ((inject_Z (2 ^ 52) * pow2 e <= x)%Q \/ e = -1074) /\
    (Qabs (x - inject_Z m * pow2 e) * 2 <= pow2 e)%Q /\
    ((Qabs (x - inject_Z m * pow2 e) * 2 == pow2 e)%Q -> Z.even m = true) /\
    d = Qred (inject_Z m * pow2 e).

(** [p] is what JavaScript computes for [c / n * 100]. *)
Definition percentage_of (c n : nat) (p : Q) : Prop :=
  exists q : Q,
    nearest_double (inject_Z (Z.of_nat c) / inject_Z (Z.of_nat n)) q /\
    nearest_double (q * inject_Z 100) p.

(** A vehicle that its [occlusion] marks as occluded. *)
Definition marked_occluded (vehicle : value) : bool :=
  truthy (get vehicle "occlusion") && truthy (get (get vehicle "occlusion") "isOccluded").

(** The results [r] with the two statistics that [save] derives. *)
Definition with_statistics (r : obj) (c : nat) (p : Q) : obj :=
  <["occlusionPercentage" := VNum p]> (<["occludedVehicles" := num_of_nat c]> r).

(** A record without a property named like an accessor of the class
    [Detection], and one that, besides, has no property named [save]
    and none named [__proto__]. *)
Definition accessor_free (r : obj) : Prop :=
  r !! "processingTimeFormatted" = None /\ r !! "occlusionSummary" = None.

Definition method_free (r : obj) : Prop :=
  accessor_free r /\ r !! "save" = None /\ r !! "__proto__" = None.

(** Times that are dates, and integers that a double holds. *)
Definition valid_time (t : Z) : Prop := Z.abs t <= max_time.
Definition exact_integer (z : Z) : Prop := Z.abs z < 2 ^ 53.

(** What a run answered, when it did not throw, and one property of it. *)
Definition returned {A} (r : Res A * World) : option A :=
  match r.1 with
  | Ok a => Some a
  | Throw _ => None
  end.

Definition field (k : string) (o : obj) : value := prop o k.

(** What a run threw, when it threw. *)
Definition thrown {A} (r : Res A * World) : option value :=
  match r.1 with
  | Ok _ => None
  | Throw e => Some e
  end.

(** The same of an answer that is a record or [null]. *)
Definition found_field (k : string) (r : Res (option obj) * World)
  : option (option value) :=
  match returned r with
  | Some found => Some (field k <$> found)
  | None => None
  end.

(** Hours, minutes and seconds as [processingTimeFormatted] writes
    them: the leading zero parts are left out. *)
Definition hms_text (h m s : Z) : string :=
  if 0 <? h then pretty h ++ "h " ++ pretty m ++ "m " ++ pretty s ++ "s"
  else if 0 <? m then pretty m ++ "m " ++ pretty s ++ "s"
  else pretty s ++ "s".

(** The name under which [occlusionSummary] counts a vehicle, if it
    counts it, and the name under which [calculateVehicleStats] does. *)
Definition level_key `{Runtime} (vehicle : value) : option string :=
  let occlusion := get vehicle "occlusion" in
  if truthy occlusion && truthy (get occlusion "occlusionLevel")
  then Some (to_property_key (get occlusion "occlusionLevel"))
  else None.

Definition type_key `{Runtime} (vehicle : value) : string :=
  to_property_key (get vehicle "type").

Definition occlusion_levels : list string := ["none"; "partial"; "heavy"; "complete"].

(** The names every object inherits, under which a count of
    [calculateVehicleStats] would not start from [undefined]. *)
Definition inherited_names : list string :=
  ["constructor"; "hasOwnProperty"; "isPrototypeOf"; "propertyIsEnumerable";
   "toLocaleString"; "toString"; "valueOf"; "__proto__"; "__defineGetter__";
   "__defineSetter__"; "__lookupGetter__"; "__lookupSetter__"].

(** The uploads [getStats] counts. *)
Definition stats_uploads (userId : value) (w : World) : list obj :=
  if truthy userId
  then filter (fun u => strict_eq (prop u "userId") userId = true)
         (stored w uploadsFile)
  else stored w uploadsFile.

(** What [summary[k]++] leaves under [k], and what
    [vehicleTypes[k] = (vehicleTypes[k] || 0) + 1] does. *)
Definition bumped (o : option value) : option value :=
  Some match o with
       | Some (VNum n) => VNum (Qred (n + 1))
       | _ => VNaN
       end.

Definition counted (o : option nat) : option nat := Some (S (default O o)).

(** The nesting depth of a value, on which the inductions over values
    run. *)
Fixpoint depth (v : value) : nat :=
  match v with
  | VArr l => S (foldr (fun x acc => Nat.max (depth x) acc) O l)
  | VObj o => S (map_fold (fun _ x acc => Nat.max (depth x) acc) O o)
  | _ => O
  end.

(** ** Worlds of the examples *)

Module Examples.

Definition runtime : Runtime :=
  {| to_number_ext := fun _ => None; to_property_key_ext := fun _ => "undefined";
     date_parse_ext := fun _ => None;
     prototype_first_ext := fun _ => false |}.

Definition world (content : filename -> file) (outcome : nat -> write_outcome) : World :=
  {| files := content;
     env := {| uuid_at := fun n => "uuid-" ++ pretty (N.of_nat n);
               time_at := fun n => 1000 + Z.of_nat n;
               write_at := outcome |};
     uuid_ctr := 0; time_ctr := 0; write_ctr := 0 |}.

Definition healthy : nat -> write_outcome := fun _ => WriteOk.

(** A disk whose writes fail and leave the file truncated. *)
Definition failing : nat -> write_outcome := fun _ => WriteFails Unreadable.

Definition empty_store : filename -> file := fun _ => Stored [].
Definition corrupt_store : filename -> file := fun _ => Unreadable.

Definition draft (uploadId : string) : obj :=
  <["userId" := VStr "user-1"]> (<["uploadId" := VStr uploadId]> ∅).

Definition record (id status : string) : obj :=
  <["id" := VStr id]> (<["status" := VStr status]>
  (<["uploadId" := VStr "U1"]> (<["createdAt" := VTime 10]>
  (<["updatedAt" := VTime 10]> ∅)))).

Definition one_record (r : obj) : filename -> file := fun _ => Stored [r].

(** An upload and a detection of it. *)
Definition analysed_store : filename -> file := fun f =>
  match f with
  | uploadsFile => Stored [<["id" := VStr "U1"]> (<["userId" := VStr "user-1"]> ∅)]
  | detectionsFile => Stored [record "a" "completed"]
  | usersFile => Stored []
  end.

(** A stored detection with vehicles at its top level, one of them
    flagged [occluded], one flagged in [occlusion.isOccluded] only. *)
Definition flagged_store : filename -> file := fun f =>
  match f with
  | detectionsFile =>
      Stored [<["id" := VStr "d1"]>
              (<["vehicles" :=
                   VArr [VObj (<["type" := VStr "car"]> (<["occluded" := VBool true]> ∅));
                         VObj (<["type" := VStr "car"]> (<["occluded" := VBool false]> ∅));
                         VObj (<["type" := VStr "truck"]>
                              (<["occlusion" :=
                                   VObj (<["isOccluded" := VBool true]> ∅)]> ∅))]]> ∅)]
  | _ => Stored []
  end.

(** A record with a property named like an accessor of the class, and
    the form a record has in the file once the job has started on it,
    at the time 1000, the write being stamped 1001. *)
Definition tagged_record : obj := <["occlusionSummary" := VNull]> (record "a" "pending").

(** A record with a property named like a method of the class. *)
Definition shadowing_record : obj := <["save" := VNull]> (record "a" "pending").

Definition processing_form (r : obj) : obj :=
  obj_to_json
    (merged_record r
       (Detection.detectionData_of
          (<["processingStartTime" := VTime 1000]>
          (<["status" := VStr "processing"]> (Detection.new r))))
       (VTime 1001)).

(** Vehicles with an occlusion level. *)
Definition levelled (level : string) : value :=
  VObj (<["occlusion" := VObj (<["occlusionLevel" := VStr level]> ∅)]> ∅).

(** Results as a caller may supply them. *)
Definition supplied_results (total occluded percentage : Z) (vehicles : list value)
  : obj :=
  <["totalVehicles" := num_of_Z total]>
  (<["occludedVehicles" := num_of_Z occluded]>
  (<["occlusionPercentage" := num_of_Z percentage]>
  (<["vehicles" := VArr vehicles]> ∅))).

Definition occluded_vehicle : value :=
  VObj (<["id" := VStr "v1"]>
       (<["occlusion" := VObj (<["isOccluded" := VBool true]> ∅)]> ∅)).

Definition clear_vehicle : value :=
  VObj (<["id" := VStr "v2"]>
       (<["occlusion" := VObj (<["isOccluded" := VBool false]> ∅)]> ∅)).

(** A new instance (no identifier yet) with the given results. *)
Definition unsaved (results : obj) : obj :=
  Detection.new (<["uploadId" := VStr "U1"]> (<["results" := VObj results]> ∅)).

(** An upload that has no detection yet. *)
Definition uploaded_store : filename -> file := fun f =>
  match f with
  | uploadsFile => Stored [<["id" := VStr "U1"]> (<["userId" := VStr "user-1"]> ∅)]
  | _ => Stored []
  end.

(** The vehicles of [mockResults]. *)
Definition mock_vehicles : list value :=
  match prop Routes.mockResults "vehicles" with
  | VArr vehicles => vehicles
  | _ => []
  end.

End Examples.

(** * Properties *)

Local Open Scope list_scope.

(** Closed statements are settled by evaluation, a conjunct at a time. *)
Ltac evaluate :=
  cbv zeta;
  repeat match goal with |- _ /\ _ => split end;
  vm_compute; reflexivity.

(** ** Doubles *)

Lemma rne_spec n d :
  0 < d ->
  2 * Z.abs (n - rne n d * d) <= d /\
  (2 * Z.abs (n - rne n d * d) = d -> Z.even (rne n d) = true).
Proof.
  intros Hd. unfold rne.
  pose proof (Z.div_mod n d ltac:(lia)) as Hdiv.
  pose proof (Z.mod_pos_bound n d Hd) as Hmod.
  destruct (Z.compare_spec (2 * (n mod d)) d) as [Heq|Hlt|Hgt].
  - destruct (Z.even (n / d)) eqn:Heven.
    + split; [lia|]. intros _. exact Heven.
    + split; [lia|]. intros _. rewrite Z.even_add, Heven. reflexivity.
  - split; lia.
  - split; lia.
Qed.

Lemma rne_nonneg n d : 0 < d -> 0 <= n -> 0 <= rne n d.
Proof.
  intros Hd Hn. unfold rne.
  pose proof (Z.div_pos n d Hn Hd).
  destruct (_ ?= _); [destruct (Z.even _)| |]; lia.
Qed.

Lemma up_pos e : 0 < up e.
Proof. unfold up. apply Z.pow_pos_nonneg; lia. Qed.

Lemma down_pos e : 0 < down e.
Proof. unfold down. apply Z.pow_pos_nonneg; lia. Qed.

(** [2^e = 2^s * 2^(e - s)]. *)
Lemma shift e s : 0 <= s -> up e * down (e - s) = 2 ^ s * up (e - s) * down e.
Proof.
  intros Hs. unfold up, down.
  rewrite <- !Z.pow_add_r by lia. f_equal. lia.
Qed.

Lemma binade_spec a b :
  0 < a -> 0 < b ->
  let k := binade a b in
  b * up k <= a * down k < 2 * (b * up k).
Proof.
  intros Ha Hb.
  pose proof (Z.log2_spec a Ha) as HA. pose proof (Z.log2_spec b Hb) as HB.
  unfold binade. set (k := Z.log2 a - Z.log2 b).
  assert (Hk : 2 ^ Z.log2 a * down k = 2 ^ Z.log2 b * up k).
  { unfold up, down. rewrite <- !Z.pow_add_r by (pose proof (Z.log2_nonneg a); pose proof (Z.log2_nonneg b); lia).
    f_equal. lia. }
  rewrite !Z.pow_succ_r in * by apply Z.log2_nonneg.
  pose proof (up_pos k). pose proof (down_pos k).
  pose proof (up_pos (k - 1)). pose proof (down_pos (k - 1)).
  pose proof (shift k 1 ltac:(lia)) as Hs. change (2 ^ 1) with 2 in Hs.
  set (A := 2 ^ Z.log2 a) in *. set (B := 2 ^ Z.log2 b) in *.
  set (p := up k) in *. set (q := down k) in *.
  set (p1 := up (k - 1)) in *. set (q1 := down (k - 1)) in *.
  destruct (Z.leb_spec (b * p) (a * q)) as [Hle|Hgt]; cbv zeta.
  - split; [exact Hle|].
    assert (a * q < 2 * A * q) by (apply Z.mul_lt_mono_pos_r; lia).
    assert (B * p <= b * p) by (apply Z.mul_le_mono_nonneg_r; lia).
    lia.
  - fold p1 q1. split.
    + (* b p1 <= a q1 *)
      assert (H5 : b * p1 * q < a * q1 * q).
      { assert (b * (p1 * q) < 2 * B * (p1 * q)) by (apply Z.mul_lt_mono_pos_r; nia).
        assert (A * (q * q1) <= a * (q * q1)) by (apply Z.mul_le_mono_nonneg_r; nia).
        assert (A * (q * q1) = 2 * B * (p1 * q)) by nia.
        lia. }
      apply Z.lt_le_incl. apply (Z.mul_lt_mono_pos_r q); [lia|]. lia.
    + assert (H5 : a * q1 * q < 2 * (b * p1) * q).
      { assert (a * q * q1 < b * p * q1) by (apply Z.mul_lt_mono_pos_r; lia).
        assert (b * p * q1 = 2 * (b * p1) * q) by nia.
        lia. }
      apply (Z.mul_lt_mono_pos_r q); [lia|]. lia.
Qed.

Lemma fl_pos_range a b :
  0 < a -> 0 < b ->
  let e := Z.max (binade a b - 52) (-1074) in
  a * down e < 2 ^ 53 * (b * up e) /\
  (2 ^ 52 * (b * up e) <= a * down e \/ e = -1074).
Proof.
  intros Ha Hb e. pose proof (binade_spec a b Ha Hb) as Hk. cbv zeta in Hk.
  set (k := binade a b) in *.
  pose proof (up_pos k). pose proof (down_pos k).
  pose proof (up_pos e). pose proof (down_pos e).
  destruct (Z.max_spec (k - 52) (-1074)) as [[Hlt He]|[Hle He]]; fold e in He.
  - (* subnormal *)
    split; [|right; exact He].
    assert (Hup : up k = 1).
    { unfold up. replace (Z.max k 0) with 0 by lia. reflexivity. }
    assert (Hupe : up e = 1).
    { unfold up. rewrite He. reflexivity. }
    rewrite Hup in Hk. rewrite Hupe.
    assert (Hdown : down e <= 2 ^ 51 * down k).
    { unfold down. rewrite He.
      replace (Z.max (- -1074) 0) with 1074 by reflexivity.
      replace (Z.max (- k) 0) with (- k) by lia.
      rewrite <- Z.pow_add_r by lia.
      apply Z.pow_le_mono_r; lia. }
    assert (a * down e <= a * (2 ^ 51 * down k)) by (apply Z.mul_le_mono_nonneg_l; lia).
    change (2 ^ 53) with (2 ^ 51 * 4). nia.
  - (* normal *)
    assert (He' : e = k - 52) by lia.
    pose proof (shift k 52 ltac:(lia)) as Hs. rewrite <- He' in Hs.
    set (p := up k) in *. set (q := down k) in *.
    set (pe := up e) in *. set (qe := down e) in *.
    split; [|left].
    + apply (Z.mul_lt_mono_pos_r q); [lia|].
      assert (a * q * qe < 2 * (b * p) * qe) by (apply Z.mul_lt_mono_pos_r; lia).
      change (2 ^ 53) with (2 * 2 ^ 52). nia.
    + apply (Z.mul_le_mono_pos_r _ _ q); [lia|].
      assert (b * p * qe <= a * q * qe) by (apply Z.mul_le_mono_nonneg_r; lia).
      nia.
Qed.

Lemma pow2_den e : Z.pos (Z.to_pos (down e)) = down e.
Proof. apply Z2Pos.id, down_pos. Qed.

Lemma Qlt_scaled (a : Z) (b : positive) (c e : Z) :
  (a # b < inject_Z c * pow2 e)%Q <-> a * down e < c * (Z.pos b * up e).
Proof.
  unfold Qlt, pow2. cbn [Qnum Qden Qmult inject_Z].
  rewrite Pos.mul_1_l, pow2_den. split; intros; lia.
Qed.

Lemma Qle_scaled (a : Z) (b : positive) (c e : Z) :
  (inject_Z c * pow2 e <= a # b)%Q <-> c * (Z.pos b * up e) <= a * down e.
Proof.
  unfold Qle, pow2. cbn [Qnum Qden Qmult inject_Z].
  rewrite Pos.mul_1_l, pow2_den. split; intros; lia.
Qed.

Lemma Qdist_scaled (a : Z) (b : positive) (m e : Z) :
  let n := a * down e in
  let d := Z.pos b * up e in
  ((Qabs ((a # b) - inject_Z m * pow2 e) * 2 <= pow2 e)%Q <-> 2 * Z.abs (n - m * d) <= d) /\
  ((Qabs ((a # b) - inject_Z m * pow2 e) * 2 == pow2 e)%Q <-> 2 * Z.abs (n - m * d) = d).
Proof.
  intros n d. pose proof (up_pos e). pose proof (down_pos e).
  unfold Qle, Qeq, pow2, Qminus, Qplus, Qopp, Qabs.
  cbn [Qnum Qden Qmult inject_Z].
  rewrite !Pos.mul_1_l, !Pos2Z.inj_mul, !pow2_den.
  replace (a * down e + - (m * up e) * Z.pos b) with (n - m * d) by (unfold n, d; ring).
  assert (Hb : 0 < Z.pos b) by lia.
  set (B := Z.pos b) in *. set (p := up e) in *. set (q := down e) in *.
  split; split; intros Hx; fold d in Hx |- *.
  - assert (2 * Z.abs (n - m * d) * q <= B * p * q) by lia.
    apply (Z.mul_le_mono_pos_r _ _ q); [lia|]. unfold d. lia.
  - assert (2 * Z.abs (n - m * d) * q <= d * q) by (apply Z.mul_le_mono_nonneg_r; lia).
    unfold d in *. lia.
  - assert (2 * Z.abs (n - m * d) * q = B * p * q) by lia.
    apply (Z.mul_reg_r _ _ q); [lia|]. unfold d. lia.
  - unfold d in *. rewrite Z.mul_1_r. nia.
Qed.

Lemma fl_pos_nearest (a b : positive) :
  nearest_double (Z.pos a # b) (fl_pos (Z.pos a) (Z.pos b)).
Proof.
  unfold fl_pos.
  set (e := Z.max (binade (Z.pos a) (Z.pos b) - 52) (-1074)).
  set (n := Z.pos a * down e). set (d := Z.pos b * up e).
  assert (Hd : 0 < d) by (pose proof (up_pos e); unfold d; lia).
  destruct (fl_pos_range (Z.pos a) (Z.pos b) ltac:(lia) ltac:(lia)) as (Hhi & Hlo).
  fold e in Hhi, Hlo. fold n d in Hhi, Hlo.
  destruct (rne_spec n d Hd) as (Hnear & Htie).
  destruct (Qdist_scaled (Z.pos a) b (rne n d) e) as (Hle & Heq).
  fold n d in Hle, Heq.
  exists (rne n d), e. split; [lia|]. split; [apply Qlt_scaled; exact Hhi|].
  split.
  { destruct Hlo as [Hlo|Hlo]; [left; apply Qle_scaled; exact Hlo | right; exact Hlo]. }
  split; [apply Hle, Hnear|]. split; [|reflexivity].
  intros Hx. apply Htie, Heq, Hx.
Qed.

(** [fl] rounds as IEEE 754 has it. *)
Lemma fl_nearest (x : Q) : (0 <= x)%Q -> nearest_double x (fl x).
Proof.
  destruct x as [[|a|a] b]; intros Hx.
  - exists 0, (-1074). split; [lia|]. split; [reflexivity|]. split; [right; reflexivity|].
    split; [discriminate|]. split; [reflexivity|]. reflexivity.
  - apply fl_pos_nearest.
  - exfalso. apply Hx. reflexivity.
Qed.

Lemma rne_one n : rne n 1 = n.
Proof. unfold rne. rewrite Z.mod_1_r, Z.div_1_r. reflexivity. Qed.

Lemma fl_pos_int (a : positive) :
  Z.pos a < 2 ^ 53 -> fl_pos (Z.pos a) 1 = inject_Z (Z.pos a).
Proof.
  intros Ha. unfold fl_pos.
  pose proof (Z.log2_spec (Z.pos a) ltac:(lia)) as HL.
  pose proof (Z.log2_nonneg (Z.pos a)) as HL0.
  assert (HL53 : Z.log2 (Z.pos a) < 53).
  { apply Z.log2_lt_pow2; lia. }
  assert (Hb : binade (Z.pos a) 1 = Z.log2 (Z.pos a)).
  { unfold binade. change (Z.log2 1) with 0. rewrite Z.sub_0_r.
    unfold up, down. rewrite Z.max_l, Z.max_r by lia.
    rewrite (proj2 (Z.leb_le _ _)); [reflexivity|]. simpl (2 ^ 0). lia. }
  rewrite Hb. set (L := Z.log2 (Z.pos a)) in *.
  rewrite Z.max_l by lia.
  assert (Hup : up (L - 52) = 1).
  { unfold up. rewrite Z.max_r by lia. reflexivity. }
  rewrite Hup, Z.mul_1_l, rne_one.
  rewrite (Qred_complete _ (inject_Z (Z.pos a))).
  - apply Qcanon.Qred_identity. simpl. apply Z.gcd_1_r.
  - unfold Qeq, pow2. cbn [Qnum Qden Qmult inject_Z].
    rewrite Hup, Pos.mul_1_l, pow2_den. lia.
Qed.

Lemma fl_int z : Z.abs z < 2 ^ 53 -> fl (inject_Z z) = inject_Z z.
Proof.
  intros Hz. destruct z as [|a|a]; unfold fl; cbn [Qnum Qden inject_Z].
  - reflexivity.
  - apply fl_pos_int. lia.
  - rewrite fl_pos_int by lia.
    apply (Qcanon.Qred_identity (inject_Z (Z.neg a))). simpl. apply Z.gcd_1_r.
Qed.

(** ** The monad and the primitives *)

Lemma bind_run {A B} (m : M A) (f : A -> M B) (w : World) :
  (m ≫= f) w =
  match m w with
  | (Ok a, w') => f a w'
  | (Throw e, w') => (Throw e, w')
  end.
Proof. reflexivity. Qed.

Lemma readData_run f w : readData f w = (Ok (stored w f), w).
Proof.
  unfold readData, try_catch, fs_readJson, stored.
  destruct (files w f); reflexivity.
Qed.

Lemma writeData_run f data w :
  writeData f data w =
  (Ok (match write_at (env w) (write_ctr w) with WriteOk => true | _ => false end),
   (fs_writeJson f data w).2).
Proof.
  unfold writeData, try_catch. rewrite bind_run.
  unfold fs_writeJson. destruct (write_at (env w) (write_ctr w)); reflexivity.
Qed.

Lemma stored_after_write f data w :
  write_succeeds w ->
  stored (fs_writeJson f data w).2 f = obj_to_json <$> data.
Proof.
  unfold write_succeeds, fs_writeJson, stored. intros ->. simpl.
  unfold set_file. rewrite decide_True; reflexivity.
Qed.

Lemma file_after_failed_write f data w leftover :
  write_at (env w) (write_ctr w) = WriteFails leftover ->
  files (fs_writeJson f data w).2 f = leftover.
Proof.
  unfold fs_writeJson. intros ->. simpl.
  unfold set_file. rewrite decide_True; reflexivity.
Qed.

Lemma createRecord_run f data w :
  createRecord f data w =
  (Ok (created_record data w),
   (fs_writeJson f (stored w f ++ [created_record data w])
      (new_Date (new_Date (uuidv4 w).2).2).2).2).
Proof.
  unfold createRecord, getRecords.
  rewrite bind_run, readData_run.
  unfold mbind, M_bind, uuidv4, new_Date. cbn beta iota.
  rewrite writeData_run. reflexivity.
Qed.

(** ** C4 *)

(** C4 (as amended): when the file cannot be read, [readData] does not
    fail: it answers the empty array, and leaves the world as it was. *)
Theorem readData_answers_empty_on_failure (f : filename) (w : World) :
  files w f = Unreadable -> readData f w = (Ok [], w).
Proof.
  intros Hf. rewrite readData_run. unfold stored. rewrite Hf. reflexivity.
Qed.

(** C4 (as stated) fails: on an unreadable detections file the read is
    not answered by an error, the caller is handed the empty collection. *)
Lemma readData_hands_out_empty_collection :
  let w := Examples.world Examples.corrupt_store Examples.healthy in
  files w detectionsFile = Unreadable /\
  (forall e w', readData detectionsFile w <> (Throw e, w')) /\
  readData detectionsFile w = (Ok [], w).
Proof. repeat split. intros e w' H. discriminate H. Qed.

Lemma readData_answers_empty_on_failure_witness :
  let w := Examples.world Examples.corrupt_store Examples.healthy in
  files w detectionsFile = Unreadable /\
  readData detectionsFile w = (Ok [], w).
Proof.
  split; [reflexivity|].
  apply (readData_answers_empty_on_failure detectionsFile). reflexivity.
Defined.

(** ** Lookups by identifier and JSON forms *)

Lemma findIndex_of_find id rs r :
  find_by_id id rs = Some r ->
  exists i, findIndex_by_id id rs = Some i /\ rs !! i = Some r.
Proof.
  unfold find_by_id. induction rs as [|x rs IH]; simpl; [discriminate|].
  destruct (strict_eq (prop x "id") id).
  - intros [= ->]. exists O. split; reflexivity.
  - intros Hr. destruct (IH Hr) as (i & -> & Hi).
    exists (S i). split; [reflexivity | exact Hi].
Qed.

Lemma findIndex_found id rs i :
  findIndex_by_id id rs = Some i ->
  exists r, rs !! i = Some r /\ strict_eq (prop r "id") id = true.
Proof.
  revert i. induction rs as [|x rs IH]; simpl; intros i; [discriminate|].
  destruct (strict_eq (prop x "id") id) eqn:Hx.
  - intros [= <-]. exists x. split; [reflexivity | exact Hx].
  - destruct (findIndex_by_id id rs) as [j|]; simpl; [|discriminate].
    intros [= <-]. apply (IH j). reflexivity.
Qed.

Lemma find_by_id_app_fresh id rs r :
  find_by_id id rs = None ->
  strict_eq (prop r "id") id = true ->
  find_by_id id (rs ++ [r]) = Some r.
Proof.
  unfold find_by_id. induction rs as [|x rs IH]; simpl; intros Hnone Hr.
  - rewrite Hr. reflexivity.
  - destruct (strict_eq (prop x "id") id); [discriminate|]. auto.
Qed.

Lemma prop_obj_to_json (o : obj) k :
  prop (obj_to_json o) k = json_prop (prop o k).
Proof.
  unfold prop, obj_to_json. rewrite lookup_omap.
  destruct (o !! k) as [v|]; simpl; [|reflexivity].
  destruct v; reflexivity.
Qed.

(** A value equal to itself under [===] is a primitive that JSON keeps. *)
Lemma json_prop_comparable v : strict_eq v v = true -> json_prop v = v.
Proof. destruct v; simpl; intros H; try reflexivity; discriminate. Qed.

(** But for [null], the identifiers a value is equal to are the same
    before and after the round trip of the compared record. *)
Lemma strict_eq_json_prop v id :
  id <> VNull -> strict_eq (json_prop v) id = strict_eq v id.
Proof.
  intros Hid. destruct v; simpl; try reflexivity.
  destruct id; congruence.
Qed.

Lemma prop_new_record_other uuid data t1 t2 k :
  k <> "id" -> k <> "createdAt" -> k <> "updatedAt" ->
  new_record uuid data t1 t2 !! k = data !! k.
Proof.
  intros H1 H2 H3. unfold new_record.
  rewrite !lookup_insert_ne by congruence.
  rewrite lookup_union, lookup_singleton_ne by congruence.
  destruct (data !! k); reflexivity.
Qed.

Lemma id_new_record uuid data t1 t2 :
  new_record uuid data t1 t2 !! "id" = Some (default uuid (data !! "id")).
Proof.
  unfold new_record. rewrite !lookup_insert_ne by discriminate.
  rewrite lookup_union, lookup_singleton_eq.
  destruct (data !! "id"); reflexivity.
Qed.

Lemma times_new_record uuid data t1 t2 :
  prop (new_record uuid data t1 t2) "createdAt" = t1 /\
  prop (new_record uuid data t1 t2) "updatedAt" = t2.
Proof.
  unfold new_record, prop. split.
  - rewrite lookup_insert_ne by discriminate. rewrite lookup_insert_eq. reflexivity.
  - rewrite lookup_insert_eq. reflexivity.
Qed.

Lemma prop_merged_record existing patch t k :
  k <> "updatedAt" ->
  prop (merged_record existing patch t) k = default (prop existing k) (patch !! k).
Proof.
  intros Hk. unfold merged_record, prop.
  rewrite lookup_insert_ne by congruence. rewrite lookup_union.
  destruct (patch !! k), (existing !! k); reflexivity.
Qed.

Lemma updatedAt_merged_record existing patch t :
  prop (merged_record existing patch t) "updatedAt" = t.
Proof. unfold merged_record, prop. rewrite lookup_insert_eq. reflexivity. Qed.

Lemma updateRecord_run f id patch w i existing :
  findIndex_by_id id (stored w f) = Some i ->
  stored w f !! i = Some existing ->
  updateRecord f id patch w =
  (Ok (Some (merged_record existing patch (now w))),
   (fs_writeJson f (<[i := merged_record existing patch (now w)]> (stored w f))
      (new_Date w).2).2).
Proof.
  intros Hi Hex. unfold updateRecord, getRecords.
  rewrite bind_run, readData_run, Hi, Hex.
  unfold mbind, M_bind, new_Date. cbn beta iota.
  rewrite writeData_run. reflexivity.
Qed.

Lemma updateRecord_missing f id patch w :
  findIndex_by_id id (stored w f) = None ->
  updateRecord f id patch w = (Ok None, w).
Proof.
  intros Hi. unfold updateRecord, getRecords.
  rewrite bind_run, readData_run, Hi. reflexivity.
Qed.

(** ** C5 *)

(** C5 (as amended): a failed write is not an error of [writeData],
    which answers [false]; the mutation that called it reports success
    all the same ([createDetection] answers the new record); and the file
    is left as the failed write left it. *)
Theorem failed_write_is_reported_as_success
  (f : filename) (records : list obj) (detectionData : obj) (w : World)
  (leftover : file) :
  write_at (env w) (write_ctr w) = WriteFails leftover ->
  (exists w', writeData f records w = (Ok false, w') /\ files w' f = leftover) /\
  (exists w', createDetection detectionData w = (Ok (created_record detectionData w), w')
              /\ files w' detectionsFile = leftover).
Proof.
  intros Hw. split.
  - eexists. rewrite writeData_run, Hw. split; [reflexivity|].
    apply file_after_failed_write; exact Hw.
  - eexists. unfold createDetection. rewrite createRecord_run.
    split; [reflexivity|]. apply file_after_failed_write; exact Hw.
Qed.

(** C5 (as stated) fails: with a disk whose write fails and truncates
    the file, [createDetection] answers the new record and no error, and
    the record that was stored before is gone. *)
Lemma createDetection_hides_failed_write :
  let w := Examples.world (Examples.one_record (Examples.record "a" "pending"))
             Examples.failing in
  let r := createDetection (Examples.draft "U2") w in
  stored w detectionsFile = [Examples.record "a" "pending"] /\
  r.1 = Ok (created_record (Examples.draft "U2") w) /\
  (forall e, r.1 <> Throw e) /\
  files r.2 detectionsFile = Unreadable.
Proof.
  repeat split.
  intros e H. discriminate H.
Qed.

Lemma failed_write_is_reported_as_success_witness :
  let w := Examples.world (Examples.one_record (Examples.record "a" "pending"))
             Examples.failing in
  write_at (env w) (write_ctr w) = WriteFails Unreadable /\
  (exists w', writeData detectionsFile [] w = (Ok false, w')
              /\ files w' detectionsFile = Unreadable) /\
  (exists w', createDetection (Examples.draft "U2") w
              = (Ok (created_record (Examples.draft "U2") w), w')
              /\ files w' detectionsFile = Unreadable).
Proof.
  split; [reflexivity|].
  apply (failed_write_is_reported_as_success detectionsFile [] (Examples.draft "U2")).
  reflexivity.
Defined.

(** ** C7 *)

Lemma find_by_id_fmap_json id rs r :
  strict_eq id id = true ->
  prop r "id" = id ->
  find_by_id id (obj_to_json <$> rs) = None ->
  find_by_id id (obj_to_json <$> (rs ++ [r])) = Some (obj_to_json r).
Proof.
  intros Hid Hr Hfresh. rewrite fmap_app. simpl.
  apply find_by_id_app_fresh; [exact Hfresh|].
  rewrite prop_obj_to_json, Hr, json_prop_comparable; assumption.
Qed.

(** C7 (as amended): when the write succeeds, the identifier of the new
    record can be compared and no record of the file has it,
    [createDetection] followed by [getDetectionById] of the returned
    identifier answers the JSON form of the returned record, which is the
    draft with [createdAt] and [updatedAt] set by the server and with the
    identifier the draft supplied, or the one drawn by the server when it
    supplied none. *)
Theorem create_then_get (detectionData : obj) (w : World) :
  let created := created_record detectionData w in
  let id := prop created "id" in
  write_succeeds w ->
  strict_eq id id = true ->
  find_by_id id (obj_to_json <$> stored w detectionsFile) = None ->
  exists w',
    createDetection detectionData w = (Ok created, w') /\
    getDetectionById id w' = (Ok (Some (obj_to_json created)), w') /\
    (forall k, k <> "id" -> k <> "createdAt" -> k <> "updatedAt" ->
               created !! k = detectionData !! k) /\
    created !! "id"
      = Some (default (VStr (uuid_at (env w) (uuid_ctr w))) (detectionData !! "id")) /\
    prop created "createdAt" = VTime (time_at (env w) (time_ctr w)) /\
    prop created "updatedAt" = VTime (time_at (env w) (S (time_ctr w))).
Proof.
  intros created id Hw Hid Hfresh.
  eexists. split; [apply createRecord_run|]. split.
  - unfold getDetectionById, getRecordById, getRecords.
    rewrite bind_run, readData_run, stored_after_write by exact Hw.
    unfold mret, M_ret. do 2 f_equal. f_equal.
    apply find_by_id_fmap_json; [exact Hid | reflexivity | exact Hfresh].
  - split; [intros k; apply prop_new_record_other|].
    split; [apply id_new_record|].
    apply times_new_record.
Qed.

(** C7 (as stated) fails: the identifier of a draft that carries one is
    kept, in the answer of the creation and in the record read back; the
    identifier drawn by the server is not used. *)
Lemma create_keeps_identifier_of_draft :
  let w := Examples.world Examples.empty_store Examples.healthy in
  let detectionData := <["id" := VStr "mine"]> (Examples.draft "U1") in
  let r := createDetection detectionData w in
  uuid_at (env w) (uuid_ctr w) = "uuid-0" /\
  field "id" <$> returned r = Some (VStr "mine") /\
  found_field "id" (getDetectionById (VStr "mine") r.2)
    = Some (Some (VStr "mine")) /\
  found_field "uploadId" (getDetectionById (VStr "mine") r.2)
    = Some (Some (VStr "U1")) /\
  found_field "id" (getDetectionById (VStr "uuid-0") r.2)
    = Some None.
Proof. evaluate. Qed.

Lemma create_then_get_witness :
  let w := Examples.world Examples.empty_store Examples.healthy in
  let detectionData := Examples.draft "U1" in
  let created := created_record detectionData w in
  let id := prop created "id" in
  (write_succeeds w /\ strict_eq id id = true /\
   find_by_id id (obj_to_json <$> stored w detectionsFile) = None) /\
  exists w',
    createDetection detectionData w = (Ok created, w') /\
    getDetectionById id w' = (Ok (Some (obj_to_json created)), w') /\
    (forall k, k <> "id" -> k <> "createdAt" -> k <> "updatedAt" ->
               created !! k = detectionData !! k) /\
    created !! "id"
      = Some (default (VStr (uuid_at (env w) (uuid_ctr w))) (detectionData !! "id")) /\
    prop created "createdAt" = VTime (time_at (env w) (time_ctr w)) /\
    prop created "updatedAt" = VTime (time_at (env w) (S (time_ctr w))).
Proof.
  split; [repeat split|].
  apply (create_then_get (Examples.draft "U1")
           (Examples.world Examples.empty_store Examples.healthy));
    reflexivity.
Defined.

(** ** C8 *)




(** ** [save] *)

Ltac not_saved :=
  unfold saved_fields; rewrite !elem_of_cons, elem_of_nil;
  intros Hin; repeat (destruct Hin as [Hin|Hin]; [discriminate Hin|]); exact Hin.

Section Save.
Context `{Runtime}.

Lemma prop_recompute_duration this k :
  k <> "processingDuration" ->
  prop (Detection.recompute_duration this) k = prop this k.
Proof.
  intros Hk. unfold Detection.recompute_duration.
  destruct (_ && _); [|reflexivity].
  unfold prop. rewrite lookup_insert_ne by congruence. reflexivity.
Qed.

Lemma prop_recompute_occlusion this this1 k :
  Detection.recompute_occlusion this = Ok this1 ->
  k <> "results" -> prop this1 k = prop this k.
Proof.
  unfold Detection.recompute_occlusion.
  destruct (Detection.occlusion_update _) as [[r|]|e]; intros [= <-] Hk;
    [|reflexivity].
  unfold prop. rewrite lookup_insert_ne by congruence. reflexivity.
Qed.

Lemma lookup_recomputed this this1 k :
  Detection.recompute_occlusion (Detection.recompute_duration this) = Ok this1 ->
  k <> "results" -> k <> "processingDuration" -> this1 !! k = this !! k.
Proof.
  unfold Detection.recompute_occlusion.
  destruct (Detection.occlusion_update _) as [[r|]|e]; intros [= <-] Hk1 Hk2;
    rewrite ?lookup_insert_ne by congruence;
    unfold Detection.recompute_duration; destruct (_ && _);
    rewrite ?lookup_insert_ne by congruence; reflexivity.
Qed.

Lemma detectionData_of_lookup this k :
  k ∈ saved_fields -> Detection.detectionData_of this !! k = Some (prop this k).
Proof.
  unfold saved_fields. rewrite !elem_of_cons, elem_of_nil.
  intros Hk. unfold Detection.detectionData_of.
  repeat (destruct Hk as [->|Hk];
          [repeat (rewrite lookup_insert_ne by discriminate);
           apply lookup_insert_eq|]).
  destruct Hk.
Qed.

Lemma detectionData_of_no_id this : Detection.detectionData_of this !! "id" = None.
Proof. reflexivity. Qed.

Lemma saved_fields_plain k :
  k ∈ saved_fields -> k <> "id" /\ k <> "createdAt" /\ k <> "updatedAt".
Proof.
  unfold saved_fields. rewrite !elem_of_cons, elem_of_nil. intros Hk.
  repeat (destruct Hk as [->|Hk]; [repeat split; discriminate|]).
  destruct Hk.
Qed.

Lemma saved_as_new_record this uuid t1 t2 :
  saved_as this (new_record uuid (Detection.detectionData_of this) t1 t2).
Proof.
  intros k Hk. destruct (saved_fields_plain k Hk) as (H1 & H2 & H3).
  rewrite prop_new_record_other by assumption.
  apply detectionData_of_lookup, Hk.
Qed.

Lemma saved_as_merged_record this existing t :
  saved_as this (merged_record existing (Detection.detectionData_of this) t).
Proof.
  intros k Hk. destruct (saved_fields_plain k Hk) as (_ & _ & H3).
  unfold merged_record. rewrite lookup_insert_ne by congruence.
  rewrite lookup_union, (detectionData_of_lookup this k Hk).
  destruct (existing !! k); reflexivity.
Qed.

Lemma prop_assigned this rec k v :
  k <> "__proto__" -> rec !! k = Some v -> prop (Detection.assigned this rec) k = v.
Proof.
  intros Hp Hk. unfold Detection.assigned, prop.
  destruct (rec !! "__proto__") as [x|]; [destruct (Detection.replaces_prototype x)|];
    rewrite lookup_union, ?lookup_delete_ne by congruence;
    rewrite Hk; destruct (this !! k); reflexivity.
Qed.

Lemma prop_assigned_missing this rec k :
  k <> "__proto__" -> rec !! k = None -> prop (Detection.assigned this rec) k = prop this k.
Proof.
  intros Hp Hk. unfold Detection.assigned, prop.
  destruct (rec !! "__proto__") as [x|]; [destruct (Detection.replaces_prototype x)|];
    rewrite lookup_union, ?lookup_delete_ne by congruence;
    rewrite Hk; destruct (this !! k); reflexivity.
Qed.

Lemma saved_fields_not_proto k : k ∈ saved_fields -> k <> "__proto__".
Proof.
  unfold saved_fields. rewrite !elem_of_cons, elem_of_nil. intros Hk.
  repeat (destruct Hk as [->|Hk]; [discriminate|]).
  destruct Hk.
Qed.

Lemma has_accessor_free (data : obj) :
  accessor_free data <-> Detection.has_accessor data = false.
Proof.
  unfold accessor_free, Detection.has_accessor, Detection.accessor_names. simpl.
  rewrite orb_false_r, orb_false_iff, !bool_decide_eq_false, <- !eq_None_not_Some.
  reflexivity.
Qed.

Lemma accessor_free_new_record this uuid t1 t2 :
  accessor_free (new_record uuid (Detection.detectionData_of this) t1 t2).
Proof. split; reflexivity. Qed.

Lemma merged_record_lookup existing this t k :
  k ∉ saved_fields -> k <> "updatedAt" ->
  merged_record existing (Detection.detectionData_of this) t !! k = existing !! k.
Proof.
  intros Hk Hu. unfold merged_record. rewrite lookup_insert_ne by congruence.
  rewrite lookup_union.
  assert (Hnone : Detection.detectionData_of this !! k = None).
  { unfold Detection.detectionData_of.
    unfold saved_fields in Hk. rewrite !elem_of_cons, elem_of_nil in Hk.
    repeat (rewrite lookup_insert_ne by (intros <-; tauto)).
    apply lookup_empty. }
  rewrite Hnone. destruct (existing !! k); reflexivity.
Qed.

Lemma accessor_free_merged_record existing this t :
  accessor_free (merged_record existing (Detection.detectionData_of this) t)
  <-> accessor_free existing.
Proof.
  unfold accessor_free.
  rewrite !merged_record_lookup by (not_saved || discriminate). reflexivity.
Qed.

Lemma Object_assign_free this rec :
  accessor_free rec ->
  Detection.Object_assign this rec = Ok (Detection.assigned this rec).
Proof.
  intros Hfree. unfold Detection.Object_assign.
  rewrite (proj1 (has_accessor_free rec) Hfree). reflexivity.
Qed.

Lemma Object_assign_accessor this rec :
  ~ accessor_free rec -> this !! "__proto__" = None -> rec !! "__proto__" = None ->
  Detection.Object_assign this rec = Throw Detection.getter_only.
Proof.
  intros Hfree Hthis Hproto.
  unfold Detection.Object_assign, Detection.prototype_replaced_first,
    Detection.prototype_replaced.
  rewrite Hproto, Hthis.
  destruct (Detection.has_accessor rec) eqn:Hrec; [reflexivity|].
  destruct Hfree. apply has_accessor_free, Hrec.
Qed.

Lemma save_throws this e w :
  Detection.recompute_occlusion (Detection.recompute_duration this) = Throw e ->
  Detection.save this w = (Throw e, w).
Proof.
  intros Hr. unfold Detection.save. rewrite bind_run. unfold lift.
  rewrite Hr. reflexivity.
Qed.

Lemma save_create_run this this1 w :
  Detection.recompute_occlusion (Detection.recompute_duration this) = Ok this1 ->
  truthy (prop this1 "id") = false ->
  let rec := created_record (Detection.detectionData_of this1) w in
  Detection.save this w =
  (Ok (Detection.assigned this1 rec),
   (fs_writeJson detectionsFile (stored w detectionsFile ++ [rec])
      (new_Date (new_Date (uuidv4 w).2).2).2).2).
Proof.
  intros Hr Hid rec. unfold Detection.save. rewrite bind_run. unfold lift.
  rewrite Hr, Hid. rewrite bind_run. unfold createDetection.
  rewrite createRecord_run. fold rec.
  rewrite (Object_assign_free this1 rec) by apply accessor_free_new_record.
  reflexivity.
Qed.

Lemma save_update_run this this1 w i existing :
  Detection.recompute_occlusion (Detection.recompute_duration this) = Ok this1 ->
  truthy (prop this1 "id") = true ->
  findIndex_by_id (prop this1 "id") (stored w detectionsFile) = Some i ->
  stored w detectionsFile !! i = Some existing ->
  let rec := merged_record existing (Detection.detectionData_of this1) (now w) in
  Detection.save this w =
  (Detection.Object_assign this1 rec,
   (fs_writeJson detectionsFile (<[i := rec]> (stored w detectionsFile))
      (new_Date w).2).2).
Proof.
  intros Hr Hid Hi Hex rec. unfold Detection.save. rewrite bind_run. unfold lift.
  rewrite Hr, Hid. rewrite bind_run. unfold updateDetection.
  rewrite (updateRecord_run _ _ _ _ _ _ Hi Hex). reflexivity.
Qed.

(** The same when the record has no property named like an accessor:
    the assignment goes through. *)
Lemma save_update_free this this1 w i existing :
  Detection.recompute_occlusion (Detection.recompute_duration this) = Ok this1 ->
  truthy (prop this1 "id") = true ->
  findIndex_by_id (prop this1 "id") (stored w detectionsFile) = Some i ->
  stored w detectionsFile !! i = Some existing ->
  accessor_free existing ->
  let rec := merged_record existing (Detection.detectionData_of this1) (now w) in
  Detection.save this w =
  (Ok (Detection.assigned this1 rec),
   (fs_writeJson detectionsFile (<[i := rec]> (stored w detectionsFile))
      (new_Date w).2).2).
Proof.
  intros Hr Hid Hi Hex Hfree rec.
  rewrite (save_update_run this this1 w i existing Hr Hid Hi Hex).
  fold rec. rewrite (Object_assign_free this1 rec); [reflexivity|].
  apply accessor_free_merged_record, Hfree.
Qed.

Lemma save_update_missing this this1 w :
  Detection.recompute_occlusion (Detection.recompute_duration this) = Ok this1 ->
  truthy (prop this1 "id") = true ->
  findIndex_by_id (prop this1 "id") (stored w detectionsFile) = None ->
  Detection.save this w = (Ok this1, w).
Proof.
  intros Hr Hid Hi. unfold Detection.save. rewrite bind_run. unfold lift.
  rewrite Hr, Hid. rewrite bind_run. unfold updateDetection.
  rewrite (updateRecord_missing _ _ _ _ Hi). reflexivity.
Qed.

End Save.

Lemma find_after_update id rs i u :
  id <> VNull ->
  findIndex_by_id id rs = Some i ->
  strict_eq (prop u "id") id = true ->
  find_by_id id (obj_to_json <$> <[i := u]> rs) = Some (obj_to_json u).
Proof.
  intros Hid. revert i. unfold find_by_id.
  induction rs as [|x rs IH]; simpl; intros i Hi Hu; [discriminate|].
  destruct (strict_eq (prop x "id") id) eqn:Hx.
  - injection Hi as <-. simpl.
    rewrite prop_obj_to_json, strict_eq_json_prop, Hu by exact Hid. reflexivity.
  - destruct (findIndex_by_id id rs) as [j|]; simpl in Hi; [|discriminate].
    injection Hi as <-. simpl.
    rewrite prop_obj_to_json, strict_eq_json_prop, Hx by exact Hid.
    apply IH; [reflexivity | exact Hu].
Qed.

Lemma strict_eq_comparable a b : strict_eq a b = true -> strict_eq a a = true.
Proof.
  destruct a, b; simpl; intros Hab; try discriminate; try reflexivity.
  - apply eqb_reflx.
  - apply Qeq_bool_refl.
  - apply String.eqb_refl.
  - apply Z.eqb_refl.
Qed.

Lemma truthy_not_null v : truthy v = true -> v <> VNull.
Proof. intros Hv ->. discriminate Hv. Qed.

Section SaveStores.
Context `{Runtime}.

(** [save] answers the instance with the saved properties as they
    were computed. *)
Lemma save_returns this this1 w :
  Detection.recompute_occlusion (Detection.recompute_duration this) = Ok this1 ->
  Forall accessor_free (stored w detectionsFile) ->
  exists this' w',
    Detection.save this w = (Ok this', w') /\
    (forall k, k ∈ saved_fields -> prop this' k = prop this1 k).
Proof.
  intros Hr Hfree. destruct (truthy (prop this1 "id")) eqn:Hid.
  - destruct (findIndex_by_id (prop this1 "id") (stored w detectionsFile))
      as [i|] eqn:Hi.
    + destruct (findIndex_found _ _ _ Hi) as (existing & Hex & _).
      pose proof (Forall_lookup_1 _ _ _ _ Hfree Hex) as Hexisting.
      do 2 eexists.
      split; [apply (save_update_free _ _ _ _ _ Hr Hid Hi Hex Hexisting)|].
      intros k Hk.
      apply prop_assigned; [apply saved_fields_not_proto, Hk|].
      apply saved_as_merged_record, Hk.
    + do 2 eexists. split; [apply (save_update_missing _ _ _ Hr Hid Hi)|].
      reflexivity.
  - do 2 eexists. split; [apply (save_create_run _ _ _ Hr Hid)|].
    intros k Hk.
    apply prop_assigned; [apply saved_fields_not_proto, Hk|].
    apply saved_as_new_record, Hk.
Qed.

(** When the write succeeds and the instance is new or designates a
    record of the file, the file holds afterwards, in JSON form, a
    record with the saved properties, under the identifier of the
    answer. *)
Lemma save_stores this this1 w :
  Detection.recompute_occlusion (Detection.recompute_duration this) = Ok this1 ->
  write_succeeds w ->
  Forall accessor_free (stored w detectionsFile) ->
  truthy (prop this "id") = false
  \/ is_Some (find_by_id (prop this "id") (stored w detectionsFile)) ->
  exists this' w' i rec,
    Detection.save this w = (Ok this', w') /\
    stored w' detectionsFile !! i = Some (obj_to_json rec) /\
    saved_as this1 rec /\
    prop rec "id" = prop this' "id" /\
    json_prop (prop rec "id") = prop rec "id".
Proof.
  intros Hr Hw Hfree Hcase.
  assert (Hsame : prop this1 "id" = prop this "id").
  { rewrite (prop_recompute_occlusion _ _ "id" Hr) by discriminate.
    apply prop_recompute_duration. discriminate. }
  destruct (truthy (prop this1 "id")) eqn:Hid.
  - destruct Hcase as [Hno|[r Hfind]]; [congruence|].
    rewrite <- Hsame in Hfind.
    destruct (findIndex_of_find _ _ _ Hfind) as (i & Hi & Hex).
    pose proof (Forall_lookup_1 _ _ _ _ Hfree Hex) as Hexisting.
    eexists _, _, i, _.
    split; [apply (save_update_free _ _ _ _ _ Hr Hid Hi Hex Hexisting)|].
    destruct (findIndex_found _ _ _ Hi) as (r' & Hex' & Heq).
    rewrite Hex in Hex'. injection Hex' as <-.
    pose proof (prop_merged_record r (Detection.detectionData_of this1) (now w)
                  "id" ltac:(discriminate)) as Hrec.
    rewrite detectionData_of_no_id in Hrec. simpl in Hrec.
    split; [|split; [apply saved_as_merged_record|split]].
    + rewrite stored_after_write by exact Hw.
      rewrite list_lookup_fmap, list_lookup_insert_eq; [reflexivity|].
      apply (lookup_lt_Some _ _ _ Hex).
    + destruct (merged_record r (Detection.detectionData_of this1) (now w) !! "id")
        as [v|] eqn:E.
      * rewrite (prop_assigned _ _ "id" _ ltac:(discriminate) E).
        unfold prop. rewrite E. reflexivity.
      * unfold prop at 1 in Hrec. rewrite E in Hrec. simpl in Hrec.
        rewrite <- Hrec in Heq. destruct (prop this1 "id"); discriminate.
    + rewrite Hrec. apply json_prop_comparable, (strict_eq_comparable _ _ Heq).
  - eexists _, _, (length (stored w detectionsFile)), _.
    split; [apply (save_create_run _ _ _ Hr Hid)|].
    split; [|split; [apply saved_as_new_record|split]].
    + rewrite stored_after_write by exact Hw.
      rewrite list_lookup_fmap, lookup_app_r, Nat.sub_diag by reflexivity.
      reflexivity.
    + pose proof (id_new_record (VStr (uuid_at (env w) (uuid_ctr w)))
                    (Detection.detectionData_of this1)
                    (VTime (time_at (env w) (time_ctr w)))
                    (VTime (time_at (env w) (S (time_ctr w))))) as E.
      fold (created_record (Detection.detectionData_of this1) w) in E.
      rewrite (prop_assigned _ _ "id" _ ltac:(discriminate) E).
      unfold prop. rewrite id_new_record. reflexivity.
    + unfold created_record, prop. rewrite id_new_record.
      rewrite detectionData_of_no_id. reflexivity.
Qed.

End SaveStores.

(** ** C1 *)

Lemma prop_insert_eq (o : obj) k v : prop (<[k := v]> o) k = v.
Proof. unfold prop. rewrite lookup_insert_eq. reflexivity. Qed.

Lemma prop_insert_ne (o : obj) k k' v : k <> k' -> prop (<[k := v]> o) k' = prop o k'.
Proof. intros Hk. unfold prop. rewrite lookup_insert_ne by exact Hk. reflexivity. Qed.

Lemma fl_pos_nonneg a b : 0 < a -> 0 < b -> (0 <= fl_pos a b)%Q.
Proof.
  intros Ha Hb. unfold fl_pos.
  set (e := Z.max (binade a b - 52) (-1074)).
  rewrite Qred_correct.
  pose proof (up_pos e). pose proof (down_pos e).
  pose proof (rne_nonneg (a * down e) (b * up e) ltac:(lia) ltac:(lia)) as Hm.
  unfold Qle, pow2. cbn [Qnum Qden Qmult inject_Z]. lia.
Qed.

Lemma fl_nonneg x : (0 <= x)%Q -> (0 <= fl x)%Q.
Proof.
  destruct x as [[|a|a] b]; intros Hx; unfold fl; cbn [Qnum Qden].
  - discriminate.
  - apply fl_pos_nonneg; lia.
  - exfalso. apply Hx. reflexivity.
Qed.

Lemma Qdiv_nat_nonneg (a b : nat) :
  (0 < b)%nat -> (0 <= inject_Z (Z.of_nat a) / inject_Z (Z.of_nat b))%Q.
Proof.
  intros Hb. apply Qle_shift_div_l.
  - unfold Qlt. simpl. lia.
  - rewrite Qmult_0_l. unfold Qle. simpl. lia.
Qed.

(** The share that the code computes is the one JavaScript computes. *)
Lemma ratio100_percentage (c n : nat) : (0 < n)%nat -> percentage_of c n (ratio100 c n).
Proof.
  intros Hn. pose proof (Qdiv_nat_nonneg c n Hn) as Hq.
  exists (fl (inject_Z (Z.of_nat c) / inject_Z (Z.of_nat n))). split.
  - apply fl_nearest, Hq.
  - apply fl_nearest. apply Qmult_le_0_compat; [apply fl_nonneg, Hq | discriminate].
Qed.

Lemma occluded_count_marked vehicles :
  forallb (fun v => negb (nullish v)) vehicles = true ->
  Detection.occluded_count vehicles
  = Ok (length (filter (fun v => marked_occluded v = true) vehicles)).
Proof.
  induction vehicles as [|v vs IH]; simpl; intros Hv; [reflexivity|].
  apply andb_prop in Hv as [Hnull Hvs]. rewrite (IH Hvs), filter_cons.
  assert (Hocc : Detection.is_occluded v = Ok (marked_occluded v))
    by (destruct v; try discriminate Hnull; reflexivity).
  rewrite Hocc. destruct (marked_occluded v); reflexivity.
Qed.

Section C1.
Context `{Runtime}.

Lemma recompute_occlusion_array this r vehicles :
  prop this "results" = VObj r ->
  prop r "vehicles" = VArr vehicles ->
  forallb (fun v => negb (nullish v)) vehicles = true ->
  let c := length (filter (fun v => marked_occluded v = true) vehicles) in
  exists this1 results,
    Detection.recompute_occlusion this = Ok this1 /\
    prop this1 "results" = VObj results /\
    (vehicles = [] -> results = r) /\
    (vehicles <> [] ->
     exists p, percentage_of c (length vehicles) p /\ results = with_statistics r c p).
Proof.
  intros Hres Hv Hnull c.
  unfold Detection.recompute_occlusion, Detection.occlusion_update.
  rewrite Hres. simpl. rewrite Hv. simpl. rewrite (occluded_count_marked _ Hnull).
  fold c. destruct vehicles as [|v vs].
  - exists this, r. split; [reflexivity|]. split; [exact Hres|].
    split; [reflexivity|]. intros Hne. destruct Hne. reflexivity.
  - rewrite bool_decide_eq_true_2 by (simpl; lia).
    eexists _, _. split; [reflexivity|]. split; [apply prop_insert_eq|].
    split; [discriminate|]. intros _.
    exists (ratio100 c (length (v :: vs))). split; [|reflexivity].
    apply ratio100_percentage. simpl. lia.
Qed.

(** C1 (as amended): for a detection whose [results.vehicles] is a list
    without [null], [save] leaves in [results], in the answer and in the
    record it stores, the results it was given with, when the list is
    not empty, [occludedVehicles] set to the number of vehicles whose
    [occlusion.isOccluded] is truthy and [occlusionPercentage] to what
    JavaScript computes for that number divided by the length of the
    list, times 100, whatever values were supplied.  When the list is
    empty the results are stored as supplied, and [totalVehicles] is
    stored as supplied in both cases.  This when the write succeeds and
    no record of the file has a property named like an accessor of the
    class. *)
Theorem save_recomputes_occlusion
  (this r : obj) (vehicles : list value) (w : World) :
  prop this "results" = VObj r ->
  prop r "vehicles" = VArr vehicles ->
  forallb (fun v => negb (nullish v)) vehicles = true ->
  write_succeeds w ->
  Forall accessor_free (stored w detectionsFile) ->
  truthy (prop this "id") = false
  \/ is_Some (find_by_id (prop this "id") (stored w detectionsFile)) ->
  let c := length (filter (fun v => marked_occluded v = true) vehicles) in
  exists this' w' i record results,
    Detection.save this w = (Ok this', w') /\
    prop this' "results" = VObj results /\
    stored w' detectionsFile !! i = Some record /\
    prop record "id" = prop this' "id" /\
    prop record "results" = VObj (obj_to_json results) /\
    prop results "totalVehicles" = prop r "totalVehicles" /\
    (vehicles = [] -> results = r) /\
    (vehicles <> [] ->
     exists p, percentage_of c (length vehicles) p /\ results = with_statistics r c p).
Proof.
  intros Hres Hv Hnull Hw Hfree Hcase c.
  assert (Hres' : prop (Detection.recompute_duration this) "results" = VObj r).
  { rewrite prop_recompute_duration by discriminate. exact Hres. }
  destruct (recompute_occlusion_array _ _ _ Hres' Hv Hnull)
    as (this1 & results & Hr & Hres1 & Hempty & Hfull).
  destruct (save_stores this this1 w Hr Hw Hfree Hcase)
    as (this' & w' & i & rec & Hsave & Hi & Hrec & Hid & Hjid).
  assert (Hin : "results" ∈ saved_fields).
  { unfold saved_fields. rewrite !elem_of_cons. tauto. }
  exists this', w', i, (obj_to_json rec), results.
  split; [exact Hsave|]. split; [|split; [exact Hi|split; [|split; [|split]]]].
  - destruct (save_returns this this1 w Hr Hfree) as (this'' & w'' & Hsave' & Hk).
    rewrite Hsave in Hsave'. injection Hsave' as <- <-.
    rewrite (Hk "results" Hin). exact Hres1.
  - rewrite prop_obj_to_json, Hjid. exact Hid.
  - rewrite prop_obj_to_json. unfold prop at 1. rewrite (Hrec "results" Hin).
    simpl. rewrite Hres1. reflexivity.
  - destruct vehicles as [|v vs].
    + rewrite (Hempty eq_refl). reflexivity.
    + destruct (Hfull ltac:(discriminate)) as (p & _ & ->).
      unfold with_statistics, prop.
      rewrite !lookup_insert_ne by discriminate. reflexivity.
  - split; assumption.
Qed.

End C1.

(** C1 (as stated) fails.  With an empty vehicle list the supplied
    values are stored as they are: [totalVehicles] is 0 and the stored
    [occlusionPercentage] is 50, [occludedVehicles] 2.  With one occluded
    vehicle and a supplied [totalVehicles] of 4 the stored percentage is
    100 while [occludedVehicles / totalVehicles * 100] is 25. *)
Lemma save_keeps_supplied_statistics :
  let w := Examples.world Examples.empty_store Examples.healthy in
  let supplied := Examples.supplied_results 0 2 50 [] in
  let supplied' := Examples.supplied_results 4 9 9 [Examples.occluded_vehicle] in
  let stored_results (results : obj) (k : string) :=
    (fun d => get (prop d "results") k)
      <$> stored (Detection.save (H := Examples.runtime) (Examples.unsaved results) w).2
            detectionsFile in
  let consistent (results : obj) :=
    (fun d => occlusion_consistent (prop d "results"))
      <$> stored (Detection.save (H := Examples.runtime) (Examples.unsaved results) w).2
            detectionsFile in
  (stored_results supplied "vehicles" = [VArr []] /\
   stored_results supplied "totalVehicles" = [num_of_Z 0] /\
   stored_results supplied "occludedVehicles" = [num_of_Z 2] /\
   stored_results supplied "occlusionPercentage" = [num_of_Z 50] /\
   consistent supplied = [false]) /\
  (stored_results supplied' "totalVehicles" = [num_of_Z 4] /\
   stored_results supplied' "occludedVehicles" = [num_of_Z 1] /\
   stored_results supplied' "occlusionPercentage" = [num_of_Z 100] /\
   consistent supplied' = [false]).
Proof. evaluate. Qed.

Lemma save_recomputes_occlusion_witness :
  let w := Examples.world Examples.empty_store Examples.healthy in
  let vehicles := [Examples.occluded_vehicle; Examples.clear_vehicle] in
  let r := Examples.supplied_results 7 5 99 vehicles in
  let this := Examples.unsaved r in
  let c := length (filter (fun v => marked_occluded v = true) vehicles) in
  (prop this "results" = VObj r /\ prop r "vehicles" = VArr vehicles /\
   forallb (fun v => negb (nullish v)) vehicles = true /\ write_succeeds w /\
   Forall accessor_free (stored w detectionsFile) /\
   truthy (prop this "id") = false) /\
  exists this' w' i record results,
    Detection.save (H := Examples.runtime) this w = (Ok this', w') /\
    prop this' "results" = VObj results /\
    stored w' detectionsFile !! i = Some record /\
    prop record "id" = prop this' "id" /\
    prop record "results" = VObj (obj_to_json results) /\
    prop results "totalVehicles" = prop r "totalVehicles" /\
    (vehicles = [] -> results = r) /\
    (vehicles <> [] ->
     exists p, percentage_of c (length vehicles) p /\ results = with_statistics r c p).
Proof.
  split.
  - split; [evaluate|]. split; [evaluate|]. split; [reflexivity|].
    split; [reflexivity|]. split; [apply List.Forall_nil | evaluate].
  - apply (save_recomputes_occlusion (H := Examples.runtime));
      [evaluate | evaluate | reflexivity | reflexivity | apply List.Forall_nil
      | left; evaluate].
Defined.

(** What is stored for 11 occluded vehicles in 20 and for 1 in 3: the
    doubles that JavaScript prints as 55.00000000000001 and
    33.33333333333333, not 55 and 100/3. *)
Example percentages_are_doubles :
  ratio100 11 20 = (7740561859543041 # 140737488355328)%Q /\
  ratio100 1 3 = (2345624805922133 # 70368744177664)%Q /\
  ratio100 1 2 = 50%Q /\ ratio100 0 7 = 0%Q /\ ratio100 3 3 = 100%Q.
Proof. evaluate. Qed.

(** ** C2 *)

Section C2.
Context `{Runtime}.

(** The update of the results does not look at the other properties. *)
Lemma recompute_succeeds this u :
  Detection.occlusion_update (prop this "results") = Ok u ->
  exists this1,
    Detection.recompute_occlusion (Detection.recompute_duration this) = Ok this1 /\
    (forall k, k <> "results" -> k <> "processingDuration" ->
               prop this1 k = prop this k).
Proof.
  intros Hu. unfold Detection.recompute_occlusion.
  rewrite prop_recompute_duration, Hu by discriminate.
  destruct u as [r|]; eexists; (split; [reflexivity|]); intros k Hk1 Hk2.
  - unfold prop at 1. rewrite lookup_insert_ne by congruence.
    apply prop_recompute_duration, Hk2.
  - apply prop_recompute_duration, Hk2.
Qed.

(** A save of an instance that designates a record of the file: the
    record is found again under the identifier, with the saved
    properties in JSON form. *)
Lemma save_of_existing this this1 existing w :
  Detection.recompute_occlusion (Detection.recompute_duration this) = Ok this1 ->
  prop this1 "id" = prop this "id" ->
  write_succeeds w ->
  truthy (prop this "id") = true ->
  find_by_id (prop this "id") (stored w detectionsFile) = Some existing ->
  exists w' rec,
    Detection.save this w = (Detection.Object_assign this1 rec, w') /\
    (accessor_free rec <-> accessor_free existing) /\
    rec !! "__proto__" = existing !! "__proto__" /\
    (forall k, k ∈ saved_fields -> prop (Detection.assigned this1 rec) k = prop this1 k) /\
    saved_as this1 rec /\
    find_by_id (prop this "id") (stored w' detectionsFile) = Some (obj_to_json rec).
Proof.
  intros Hr Hsame Hw Hid Hfind.
  rewrite <- Hsame in Hid, Hfind.
  destruct (findIndex_of_find _ _ _ Hfind) as (i & Hi & Hex).
  destruct (findIndex_found _ _ _ Hi) as (r' & Hex' & Heq).
  rewrite Hex in Hex'. injection Hex' as <-.
  eexists _, _.
  split; [apply (save_update_run _ _ _ _ _ Hr Hid Hi Hex)|].
  split; [apply accessor_free_merged_record|].
  split; [apply merged_record_lookup; (not_saved || discriminate)|].
  split; [|split; [apply saved_as_merged_record|]].
  - intros k Hk.
    apply prop_assigned; [apply saved_fields_not_proto, Hk|].
    apply saved_as_merged_record, Hk.
  - rewrite stored_after_write by exact Hw. rewrite <- Hsame.
    apply find_after_update; [apply truthy_not_null, Hid | exact Hi |].
    rewrite prop_merged_record by discriminate.
    rewrite detectionData_of_no_id. exact Heq.
Qed.

Lemma has_method_insert (this : obj) k v name :
  k <> name -> k <> "__proto__" ->
  Detection.has_method (<[k := v]> this) name = Detection.has_method this name.
Proof.
  intros Hk Hp. unfold Detection.has_method.
  rewrite !lookup_insert_ne by assumption. reflexivity.
Qed.

(** [updateStatus] comes down to a [save] of the instance with the new
    status, in a world with the same files. *)
Lemma updateStatus_run this status errorDetails w :
  exists this2 w2,
    Detection.updateStatus this status errorDetails w = Detection.call_save this2 w2 /\
    prop this2 "status" = status /\
    prop this2 "results" = prop this "results" /\
    prop this2 "id" = prop this "id" /\
    stored w2 detectionsFile = stored w detectionsFile /\
    (write_succeeds w -> write_succeeds w2) /\
    Detection.has_method this2 "save" = Detection.has_method this "save".
Proof.
  unfold Detection.updateStatus. rewrite bind_run.
  destruct (strict_eq status (VStr "processing") && _);
    [|destruct (Detection.terminal_status status && _)];
    unfold mbind, M_bind, new_Date, mret, M_ret; cbn beta iota;
    (eexists _, _; split; [reflexivity|]);
    destruct (truthy errorDetails);
    rewrite ?prop_insert_ne by discriminate;
    (split; [apply prop_insert_eq|]);
    rewrite ?prop_insert_ne by discriminate;
    rewrite ?has_method_insert by discriminate;
    repeat split; auto.
Qed.

(** C2 (as amended): [updateStatus] checks no transition.  Whatever
    the status of the detection, terminal or not, and whatever the new
    status, the call answers the instance with the new status; and when
    the detection is in the file and the write succeeds, the record read
    back under its identifier has the new status.  This for an instance
    whose results [save] reads without a [TypeError] and whose [save] is
    the method of the class, and a file without a record that has a
    property named like an accessor of the class. *)
Theorem updateStatus_accepts_every_transition
  (this : obj) (status errorDetails : value) (u : option obj) (w : World) :
  Detection.occlusion_update (prop this "results") = Ok u ->
  Detection.has_method this "save" = true ->
  Forall accessor_free (stored w detectionsFile) ->
  exists this' w',
    Detection.updateStatus this status errorDetails w = (Ok this', w') /\
    prop this' "status" = status /\
    (write_succeeds w ->
     truthy (prop this "id") = true ->
     is_Some (find_by_id (prop this "id") (stored w detectionsFile)) ->
     exists record,
       getDetectionById (prop this "id") w' = (Ok (Some record), w') /\
       prop record "status" = json_prop status).
Proof.
  intros Hu Hmethod Hfree.
  destruct (updateStatus_run this status errorDetails w)
    as (this2 & w2 & Hrun & Hst & Hres & Hid & Hsto & Hwr & Hm).
  rewrite Hrun. unfold Detection.call_save. rewrite Hm, Hmethod.
  rewrite <- Hres in Hu. rewrite <- Hsto in Hfree.
  destruct (recompute_succeeds this2 u Hu) as (this1 & Hr & Hk).
  assert (Hin : "status" ∈ saved_fields).
  { unfold saved_fields. rewrite !elem_of_cons. tauto. }
  destruct (save_returns this2 this1 w2 Hr Hfree) as (this' & w' & Hsave & Hret).
  exists this', w'. split; [exact Hsave|]. split.
  - rewrite (Hret "status" Hin), Hk by discriminate. exact Hst.
  - intros Hw Htruthy [existing Hfind].
    rewrite <- Hid, <- Hsto in Hfind. rewrite <- Hid in Htruthy.
    destruct (save_of_existing this2 this1 existing w2 Hr
                (Hk "id" ltac:(discriminate) ltac:(discriminate))
                (Hwr Hw) Htruthy Hfind)
      as (w'' & rec & Hsave' & _ & _ & _ & Hrec & Hfound).
    rewrite Hsave in Hsave'. injection Hsave' as _ <-.
    exists (obj_to_json rec). split.
    + unfold getDetectionById, getRecordById, getRecords.
      rewrite bind_run, readData_run. unfold mret, M_ret.
      rewrite <- Hid, Hfound. reflexivity.
    + rewrite prop_obj_to_json. unfold prop at 1. rewrite (Hrec "status" Hin).
      simpl. rewrite Hk by discriminate. rewrite Hst. reflexivity.
Qed.

End C2.

(** C2 (as stated) fails: a detection that is completed, failed or
    cancelled is moved to [processing] without an error, in the answer
    and in the file. *)
Lemma terminal_detection_reenters_processing :
  let w (status : string) :=
    Examples.world (Examples.one_record (Examples.record "a" status)) Examples.healthy in
  let move (status : string) :=
    Detection.updateStatus (H := Examples.runtime)
      (Detection.new (Examples.record "a" status)) (VStr "processing") VNull (w status) in
  (field "status" <$> stored (w "completed") detectionsFile = [VStr "completed"] /\
   field "status" <$> returned (move "completed") = Some (VStr "processing") /\
   field "status" <$> stored (move "completed").2 detectionsFile = [VStr "processing"]) /\
  (field "status" <$> returned (move "failed") = Some (VStr "processing") /\
   field "status" <$> stored (move "failed").2 detectionsFile = [VStr "processing"]) /\
  (field "status" <$> returned (move "cancelled") = Some (VStr "processing") /\
   field "status" <$> stored (move "cancelled").2 detectionsFile = [VStr "processing"]).
Proof. evaluate. Qed.

Lemma updateStatus_accepts_every_transition_witness :
  let w := Examples.world (Examples.one_record (Examples.record "a" "completed"))
             Examples.healthy in
  let this := Detection.new (Examples.record "a" "completed") in
  (Detection.occlusion_update (H := Examples.runtime) (prop this "results") = Ok None /\
   Detection.has_method this "save" = true /\
   Forall accessor_free (stored w detectionsFile) /\
   write_succeeds w /\
   truthy (prop this "id") = true /\
   is_Some (find_by_id (prop this "id") (stored w detectionsFile))) /\
  exists this' w' record,
    Detection.updateStatus (H := Examples.runtime) this (VStr "processing") VNull w
      = (Ok this', w') /\
    prop this' "status" = VStr "processing" /\
    getDetectionById (prop this "id") w' = (Ok (Some record), w') /\
    prop record "status" = VStr "processing".
Proof.
  cbv zeta.
  assert (Hhyp : forall P Q : Prop, P -> (P -> Q) -> P /\ Q) by tauto.
  apply Hhyp.
  - split; [evaluate|]. split; [evaluate|].
    split; [apply List.Forall_cons; [split; reflexivity | apply List.Forall_nil]|].
    split; [reflexivity|]. split; [evaluate|].
    eexists. reflexivity.
  - intros (Hresults & Hmethod & Hfree & Hw & Hid & Hfound).
    destruct (updateStatus_accepts_every_transition (H := Examples.runtime)
                _ (VStr "processing") VNull None
                (Examples.world (Examples.one_record (Examples.record "a" "completed"))
                   Examples.healthy) Hresults Hmethod Hfree)
      as (this' & w' & Hrun & Hstatus & Hstored).
    destruct (Hstored Hw Hid Hfound) as (record & Hget & Hrecord).
    exists this', w', record. repeat split; assumption.
Defined.

(** ** C3 *)

(** C3: nothing keeps one detection per upload.  Two detections are
    created for the upload [U1], one after the other; both calls answer
    their record and the file holds both.  The route, asked to analyse
    the upload [U1] once it has a detection, does not answer that one
    exists: it throws the [TypeError] of its call of [Upload.findOne],
    before it looks for a detection. *)
Lemma second_detection_for_upload_is_created :
  let w := Examples.world Examples.uploaded_store Examples.healthy in
  let first := createDetection (Examples.draft "U1") w in
  let second := createDetection (Examples.draft "U1") first.2 in
  let request :=
    Routes.analyze_route (H := Examples.runtime)
      (<["uploadId" := VStr "U1"]> ∅) (VStr "user-1") first.2 in
  field "uploadId" <$> returned first = Some (VStr "U1") /\
  field "id" <$> returned first = Some (VStr "uuid-0") /\
  field "uploadId" <$> returned second = Some (VStr "U1") /\
  field "id" <$> returned second = Some (VStr "uuid-1") /\
  field "uploadId" <$> stored second.2 detectionsFile = [VStr "U1"; VStr "U1"] /\
  field "id" <$> stored second.2 detectionsFile = [VStr "uuid-0"; VStr "uuid-1"] /\
  (fun e => get e "name") <$> thrown request = Some (VStr "TypeError") /\
  thrown request = Some Detection.not_a_function /\
  request.2 = first.2.
Proof. evaluate. Qed.

(** ** C9 *)

Lemma Qeq_bool_congr a b x y :
  Qeq_bool a b = true -> Qeq_bool x y = true -> Qeq_bool a x = Qeq_bool b y.
Proof.
  intros Hab Hxy. apply Qeq_bool_iff in Hab. apply Qeq_bool_iff in Hxy.
  apply eq_true_iff_eq. rewrite !Qeq_bool_iff, Hab, Hxy. tauto.
Qed.

Lemma Qeq_bool_right a b x :
  Qeq_bool a b = true -> Qeq_bool x a = Qeq_bool x b.
Proof.
  intros Hab. apply Qeq_bool_congr; [apply Qeq_bool_refl | exact Hab].
Qed.

(** Identifiers equal under [===] designate the same records. *)
Lemma strict_eq_right a b x : strict_eq a b = true -> strict_eq x a = strict_eq x b.
Proof.
  destruct a, b; simpl; intros Hab; try discriminate; try reflexivity.
  - apply eqb_prop in Hab. subst. reflexivity.
  - destruct x; try reflexivity. simpl. apply Qeq_bool_right, Hab.
  - apply String.eqb_eq in Hab. subst. reflexivity.
  - apply Z.eqb_eq in Hab. subst. reflexivity.
Qed.

Lemma find_by_id_equal a b rs :
  strict_eq a b = true -> find_by_id a rs = find_by_id b rs.
Proof.
  intros Hab. unfold find_by_id. induction rs as [|r rs IH]; simpl; [reflexivity|].
  rewrite (strict_eq_right a b _ Hab), IH. reflexivity.
Qed.

Lemma strict_eq_truthy a b : strict_eq a b = true -> truthy b = true -> truthy a = true.
Proof.
  destruct a, b; simpl; intros Hab Hb; try discriminate; try reflexivity.
  - apply eqb_prop in Hab. congruence.
  - rewrite (Qeq_bool_congr _ _ 0 0 Hab (Qeq_bool_refl 0)). exact Hb.
  - apply String.eqb_eq in Hab. congruence.
Qed.

Lemma find_by_id_matches id rs r :
  find_by_id id rs = Some r -> strict_eq (prop r "id") id = true.
Proof.
  unfold find_by_id. intros Hr. apply find_some in Hr. apply Hr.
Qed.

Lemma occluded_count_objects vehicles :
  forallb is_object vehicles = true -> exists c, Detection.occluded_count vehicles = Ok c.
Proof.
  induction vehicles as [|v vs IH]; simpl; [eexists; reflexivity|].
  intros Hv. apply andb_prop in Hv as [Hobj Hvs].
  destruct (IH Hvs) as [c ->]. destruct v; try discriminate Hobj.
  eexists. reflexivity.
Qed.

Section C9.
Context `{Runtime}.

Lemma occlusion_update_plain results :
  plain_results results = true -> exists u, Detection.occlusion_update results = Ok u.
Proof.
  unfold plain_results, Detection.occlusion_update. intros Hplain.
  destruct (truthy results); simpl; [|eexists; reflexivity].
  destruct (get results "vehicles") as [| |b|q| |s|t|vehicles|o] eqn:Hv;
    simpl in *; try (eexists; reflexivity); try discriminate Hplain.
  - destruct b; [discriminate Hplain | eexists; reflexivity].
  - destruct (negb (Qeq_bool q 0)); [discriminate Hplain | eexists; reflexivity].
  - destruct (negb (s =? "")%string); [discriminate Hplain | eexists; reflexivity].
  - destruct (occluded_count_objects _ Hplain) as [c ->].
    destruct (bool_decide _); eexists; reflexivity.
Qed.

Lemma occlusion_update_new existing :
  plain_results (prop existing "results") = true ->
  exists u, Detection.occlusion_update (prop (Detection.new existing) "results") = Ok u.
Proof.
  intros Hplain.
  assert (Hres : prop (Detection.new existing) "results"
                 = js_or (prop existing "results") Detection.default_results)
    by reflexivity.
  rewrite Hres. unfold js_or.
  destruct (truthy (prop existing "results")).
  - apply occlusion_update_plain, Hplain.
  - exists None. reflexivity.
Qed.

(** X25: a failure of the [try] block of the job is recorded when the
    save of the [catch] block reaches its write.  When the [try] block
    throws an error that is an object (as every error of a save is), the
    detection is still in the file, its stored vehicles are absent or
    objects, and the write succeeds, the detection read back has the
    status [failed], the time of the failure as [processingEndTime], and
    in [errorDetails] the code [PROCESSING_ERROR] and the message of the
    error.  The job returns when the record has no property named like
    an accessor of the class; when it has one, and none named
    [__proto__], the job throws the [TypeError] of the assignment, after
    the write.  The callback of the route returns in every case. *)
Theorem failure_is_recorded
  (analyze : M obj) (detectionId error : value) (existing : obj) (w w1 : World) :
  Routes.process_body analyze detectionId w = (Throw error, w1) ->
  error <> VUndef -> error <> VNull ->
  truthy detectionId = true ->
  find_by_id detectionId (stored w1 detectionsFile) = Some existing ->
  plain_results (prop existing "results") = true ->
  write_succeeds w1 ->
  exists answer w' record,
    Routes.processVehicleDetection analyze detectionId w = (answer, w') /\
    (accessor_free existing -> answer = Ok tt) /\
    (~ accessor_free existing -> existing !! "__proto__" = None ->
     answer = Throw Detection.getter_only) /\
    Routes.background_task analyze detectionId w = (Ok tt, w') /\
    getDetectionById detectionId w' = (Ok (Some record), w') /\
    prop record "status" = VStr "failed" /\
    prop record "processingEndTime" = now w1 /\
    get (prop record "errorDetails") "code" = VStr "PROCESSING_ERROR" /\
    get (prop record "errorDetails") "message" = json_prop (get error "message").
Proof.
  intros Hbody Hundef Hnull Hid Hfind Hplain Hw.
  pose proof (find_by_id_matches _ _ _ Hfind) as Hmatch.
  set (message := get error "message").
  set (this :=
         <["errorDetails" := VObj (<["code" := VStr "PROCESSING_ERROR"]>
                                   (<["message" := message]> ∅))]>
         (<["processingEndTime" := now w1]>
         (<["status" := VStr "failed"]> (Detection.new existing)))).
  assert (Hrun : Routes.processVehicleDetection analyze detectionId w
                 = match Detection.save this (new_Date w1).2 with
                   | (Ok _, w') => (Ok tt, w')
                   | (Throw e, w') => (Throw e, w')
                   end).
  { unfold Routes.processVehicleDetection, try_catch. rewrite Hbody.
    unfold Routes.process_failed, Detection.findById, getDetectionById,
      getRecordById, getRecords.
    unfold mbind, M_bind. rewrite readData_run. unfold mret, M_ret.
    rewrite Hfind. unfold new_Date, throw.
    destruct error; try congruence; reflexivity. }
  assert (Hthis_id : prop this "id" = prop existing "id") by reflexivity.
  assert (Hthis_res : prop this "results" = prop (Detection.new existing) "results")
    by reflexivity.
  destruct (occlusion_update_new existing Hplain) as (u & Hu).
  rewrite <- Hthis_res in Hu.
  destruct (recompute_succeeds this u Hu) as (this1 & Hr & Hk).
  assert (Htruthy : truthy (prop this "id") = true).
  { rewrite Hthis_id. apply (strict_eq_truthy _ _ Hmatch Hid). }
  assert (Hfind' : find_by_id (prop this "id") (stored (new_Date w1).2 detectionsFile)
                   = Some existing).
  { rewrite Hthis_id, (find_by_id_equal _ _ _ Hmatch). exact Hfind. }
  destruct (save_of_existing this this1 existing (new_Date w1).2 Hr
              (Hk "id" ltac:(discriminate) ltac:(discriminate)) Hw Htruthy Hfind')
    as (w' & rec & Hsave & Hfree & Hproto & _ & Hrec & Hfound).
  rewrite Hsave in Hrun.
  assert (Hanswer : exists answer,
             Routes.processVehicleDetection analyze detectionId w = (answer, w') /\
             (accessor_free existing -> answer = Ok tt) /\
             (~ accessor_free existing -> existing !! "__proto__" = None ->
              answer = Throw Detection.getter_only)).
  { exists (match Detection.Object_assign this1 rec with
            | Ok _ => Ok tt
            | Throw e => Throw e
            end).
    split; [rewrite Hrun; destruct (Detection.Object_assign this1 rec); reflexivity|].
    split.
    - intros Hex. rewrite Object_assign_free by (apply Hfree, Hex). reflexivity.
    - intros Hex Hnone. rewrite Object_assign_accessor; [reflexivity| | |].
      + rewrite Hfree. exact Hex.
      + rewrite (lookup_recomputed _ _ _ Hr) by discriminate. reflexivity.
      + rewrite Hproto. exact Hnone. }
  destruct Hanswer as (answer & Hjob & Hok & Hthrow).
  exists answer, w', (obj_to_json rec). split; [exact Hjob|].
  split; [exact Hok|]. split; [exact Hthrow|].
  split.
  { unfold Routes.background_task, try_catch. rewrite Hjob.
    destruct answer as [[]|e]; reflexivity. }
  assert (Hfield : forall k, k ∈ saved_fields -> k <> "results" ->
                             k <> "processingDuration" ->
                             prop (obj_to_json rec) k = json_prop (prop this k)).
  { intros k Hin H1 H2. rewrite prop_obj_to_json. unfold prop at 1.
    rewrite (Hrec k Hin). simpl. rewrite Hk by assumption. reflexivity. }
  split.
  - unfold getDetectionById, getRecordById, getRecords.
    rewrite bind_run, readData_run. unfold mret, M_ret.
    rewrite <- (find_by_id_equal _ _ _ Hmatch), <- Hthis_id, Hfound. reflexivity.
  - split; [|split; [|split]].
    + rewrite Hfield; [reflexivity | | discriminate | discriminate].
      unfold saved_fields. rewrite !elem_of_cons. tauto.
    + rewrite Hfield; [reflexivity | | discriminate | discriminate].
      unfold saved_fields. rewrite !elem_of_cons. tauto.
    + rewrite Hfield; [| |discriminate|discriminate].
      * unfold this. rewrite prop_insert_eq. simpl.
        rewrite prop_obj_to_json. reflexivity.
      * unfold saved_fields. rewrite !elem_of_cons. tauto.
    + rewrite Hfield; [| |discriminate|discriminate].
      * unfold this. rewrite prop_insert_eq. simpl.
        rewrite prop_obj_to_json. reflexivity.
      * unfold saved_fields. rewrite !elem_of_cons. tauto.
Qed.

End C9.

(** The callback the route schedules never throws. *)
Lemma background_task_never_throws `{Runtime} (analyze : M obj) detectionId w :
  exists w', Routes.background_task analyze detectionId w = (Ok tt, w').
Proof.
  unfold Routes.background_task, try_catch.
  destruct (Routes.processVehicleDetection analyze detectionId w) as [[[]|e] w'];
    eexists; reflexivity.
Qed.


Lemma failure_is_recorded_witness :
  let w := Examples.world (Examples.one_record Examples.tagged_record)
             Examples.healthy in
  let analyze := Routes.mock_analyze in
  let detectionId := VStr "a" in
  let error := Detection.getter_only in
  let w1 := (Routes.process_body (H := Examples.runtime) analyze detectionId w).2 in
  let existing := Examples.processing_form Examples.tagged_record in
  (Routes.process_body (H := Examples.runtime) analyze detectionId w = (Throw error, w1) /\
   error <> VUndef /\ error <> VNull /\
   truthy detectionId = true /\
   find_by_id detectionId (stored w1 detectionsFile) = Some existing /\
   plain_results (prop existing "results") = true /\
   write_succeeds w1) /\
  exists answer w' record,
    Routes.processVehicleDetection (H := Examples.runtime) analyze detectionId w
      = (answer, w') /\
    (accessor_free existing -> answer = Ok tt) /\
    (~ accessor_free existing -> existing !! "__proto__" = None ->
     answer = Throw Detection.getter_only) /\
    Routes.background_task (H := Examples.runtime) analyze detectionId w = (Ok tt, w') /\
    getDetectionById detectionId w' = (Ok (Some record), w') /\
    prop record "status" = VStr "failed" /\
    prop record "processingEndTime" = now w1 /\
    get (prop record "errorDetails") "code" = VStr "PROCESSING_ERROR" /\
    get (prop record "errorDetails") "message" = json_prop (get error "message").
Proof.
  cbv zeta.
  assert (Hhyp : forall P Q : Prop, P -> (P -> Q) -> P /\ Q) by tauto.
  apply Hhyp.
  - split; [apply injective_projections; reflexivity|].
    split; [discriminate|]. split; [discriminate|]. split; [reflexivity|].
    split; [reflexivity|]. split; [evaluate | reflexivity].
  - intros (Hbody & Hundef & Hnull & Hid & Hfind & Hplain & Hw).
    exact (failure_is_recorded (H := Examples.runtime) _ _ _ _ _ _
             Hbody Hundef Hnull Hid Hfind Hplain Hw).
Defined.

(** A failure that is recorded.  On a record with a property [save] the
    first save of the job leaves that property on the instance, and the
    call of [save] that follows the analysis throws; the [catch] block
    saves a new instance: the job returns and the detection is [failed],
    with the message of the error. *)
Example failure_of_the_second_save :
  let w := Examples.world (Examples.one_record Examples.shadowing_record)
             Examples.healthy in
  let run := Routes.job (H := Examples.runtime) (VStr "a") w in
  returned run = Some tt /\
  field "status" <$> stored run.2 detectionsFile = [VStr "failed"] /\
  (fun d => get (prop d "errorDetails") "message") <$> stored run.2 detectionsFile
    = [get Detection.not_a_function "message"] /\
  field "processingEndTime" <$> stored run.2 detectionsFile = [VTime 1003].
Proof. evaluate. Qed.

(** The run of the witness above, seen in the file: the detection whose
    record has a property [occlusionSummary] ends [failed], and the job
    throws. *)
Example failure_after_the_write :
  let w := Examples.world (Examples.one_record Examples.tagged_record)
             Examples.healthy in
  let run := Routes.job (H := Examples.runtime) (VStr "a") w in
  (fun e => get e "name") <$> thrown run = Some (VStr "TypeError") /\
  field "status" <$> stored run.2 detectionsFile = [VStr "failed"] /\
  (fun d => get (prop d "errorDetails") "code") <$> stored run.2 detectionsFile
    = [VStr "PROCESSING_ERROR"] /\
  field "processingDuration" <$> stored run.2 detectionsFile = [num_of_Z 2].
Proof. evaluate. Qed.

(** ** C10 *)

Lemma forEach_without_null {A} (f : A -> value -> Res A) (g : A -> value -> A) vehicles :
  (forall acc v, nullish v = false -> f acc v = Ok (g acc v)) ->
  forallb (fun v => negb (nullish v)) vehicles = true ->
  forall acc, forEach f acc vehicles = Ok (foldl g acc vehicles).
Proof.
  intros Hf. induction vehicles as [|v vs IH]; simpl; intros Hv acc; [reflexivity|].
  apply andb_prop in Hv as [Hnull Hvs]. apply negb_true_iff in Hnull.
  rewrite (Hf acc v Hnull). apply IH, Hvs.
Qed.

Lemma visit_detection_countable {A} (f : A -> value -> Res A) (g : A -> value -> A) d :
  (forall acc v, nullish v = false -> f acc v = Ok (g acc v)) ->
  countable_detection d = true ->
  forall acc, visit_detection f acc d = Ok (foldl g acc (top_level_vehicles d)).
Proof.
  intros Hf Hd acc. unfold visit_detection, top_level_vehicles.
  unfold countable_detection in Hd.
  destruct (prop d "vehicles") as [| |b|q| |s0|t|vehicles|o];
    try reflexivity;
    try (apply negb_true_iff in Hd; rewrite Hd; reflexivity);
    try discriminate Hd.
  apply (forEach_without_null f g); assumption.
Qed.

Lemma visited_vehicles_cons d ds :
  visited_vehicles (d :: ds) = top_level_vehicles d ++ visited_vehicles ds.
Proof. reflexivity. Qed.

Lemma forEach_detection_countable {A} (f : A -> value -> Res A) (g : A -> value -> A)
  detections :
  (forall acc v, nullish v = false -> f acc v = Ok (g acc v)) ->
  Forall (fun d => countable_detection d = true) detections ->
  forall acc,
    forEach_detection f acc detections = Ok (foldl g acc (visited_vehicles detections)).
Proof.
  intros Hf Hds. induction Hds as [|d ds Hd Hds IH]; intros acc; [reflexivity|].
  rewrite visited_vehicles_cons, foldl_app. cbn [forEach_detection].
  rewrite (visit_detection_countable f g d Hf Hd). apply IH.
Qed.

(** The counters after the visit of a list of vehicles. *)
Lemma occlusion_counters vehicles acc :
  foldl (fun acc v => (S acc.1, if occluded_flag v then S acc.2 else acc.2)) acc vehicles
  = ((acc.1 + length vehicles)%nat,
     (acc.2 + length (filter (fun v => occluded_flag v = true) vehicles))%nat).
Proof.
  revert acc. induction vehicles as [|v vs IH]; intros [a b]; simpl.
  - rewrite !Nat.add_0_r. reflexivity.
  - rewrite IH. simpl. rewrite filter_cons.
    destruct (decide (occluded_flag v = true)) as [Hv|Hv].
    + rewrite Hv. simpl. f_equal; lia.
    + apply not_true_is_false in Hv. rewrite Hv. f_equal; lia.
Qed.

Lemma pipeline_record_no_vehicles d : pipeline_record d -> prop d "vehicles" = VUndef.
Proof.
  induction 1 as [this uuid t1 t2|existing this t _ IH]; rewrite prop_obj_to_json.
  - unfold prop. rewrite prop_new_record_other by discriminate. reflexivity.
  - rewrite prop_merged_record by discriminate.
    change (Detection.detectionData_of this !! "vehicles") with (@None value).
    simpl. rewrite IH. reflexivity.
Qed.

Lemma pipeline_records_not_visited detections :
  Forall pipeline_record detections -> visited_vehicles detections = [].
Proof.
  induction 1 as [|d ds Hd _ IH]; [reflexivity|].
  rewrite visited_vehicles_cons, IH.
  unfold top_level_vehicles. rewrite (pipeline_record_no_vehicles d Hd). reflexivity.
Qed.

Lemma toFixed2_two_decimals q : two_decimals (toFixed2 q).
Proof.
  unfold two_decimals, toFixed2, digit.
  eexists _, _, _. split; [|split; [|reflexivity]];
    apply N.mod_lt; discriminate.
Qed.

Lemma calculateOcclusionStats_countable detections :
  Forall (fun d => countable_detection d = true) detections ->
  calculateOcclusionStats detections
  = Ok (occlusion_stats_of
          (length (visited_vehicles detections),
           length (filter (fun v => occluded_flag v = true)
                     (visited_vehicles detections)))).
Proof.
  intros Hds. unfold calculateOcclusionStats, occlusion_counts.
  rewrite (forEach_detection_countable occlusion_visit
             (fun acc v => (S acc.1, if occluded_flag v then S acc.2 else acc.2)));
    [|intros acc [] Hv; (discriminate Hv || reflexivity)|exact Hds].
  rewrite occlusion_counters. reflexivity.
Qed.

Lemma calculateVehicleStats_countable `{Runtime} detections :
  Forall (fun d => countable_detection d = true) detections ->
  exists vehicleStats, calculateVehicleStats detections = Ok vehicleStats.
Proof.
  intros Hds. unfold calculateVehicleStats.
  rewrite (forEach_detection_countable type_visit
             (fun m v => let k := to_property_key (get v "type") in
                         <[k := S (default O (m !! k))]> m));
    [|intros acc [] Hv; (discriminate Hv || reflexivity)|exact Hds].
  eexists. reflexivity.
Qed.

Lemma toFixed2_fixed2 x : (0 <= x)%Q -> fixed2_of x (toFixed2 x).
Proof.
  intros Hx. unfold fixed2_of, toFixed2, digit.
  assert (Hz : (0 <= x * inject_Z 100)%Q)
    by (apply Qmult_le_0_compat; [exact Hx | discriminate]).
  set (z := (x * inject_Z 100)%Q) in *.
  assert (Hf : 0 <= Qfloor (z + (1 # 2))).
  { change 0 with (Qfloor 0). apply Qfloor_resp_le.
    apply Qle_trans with z; [exact Hz|].
    rewrite <- (Qplus_0_r z) at 1. apply Qplus_le_r. discriminate. }
  exists (Z.to_N (Qfloor (z + (1 # 2)))). rewrite Z2N.id by exact Hf.
  pose proof (Qfloor_le (z + (1 # 2))) as Hlow.
  pose proof (Qlt_floor (z + (1 # 2))) as Hhigh.
  rewrite inject_Z_plus in Hhigh.
  split; [|split; [|reflexivity]].
  - apply (Qplus_le_l _ _ (1 # 2)).
    setoid_replace (inject_Z (Qfloor (z + (1 # 2))) - (1 # 2) + (1 # 2))%Q
      with (inject_Z (Qfloor (z + (1 # 2)))) using relation Qeq by ring.
    exact Hlow.
  - apply (Qplus_lt_l _ _ (1 # 2)).
    setoid_replace (inject_Z (Qfloor (z + (1 # 2))) + (1 # 2) + (1 # 2))%Q
      with (inject_Z (Qfloor (z + (1 # 2))) + inject_Z 1)%Q using relation Qeq by ring.
    exact Hhigh.
Qed.

Lemma ratio100_nonneg (a b : nat) : (0 < b)%nat -> (0 <= ratio100 a b)%Q.
Proof.
  intros Hb. unfold ratio100. apply fl_nonneg, Qmult_le_0_compat; [|discriminate].
  apply fl_nonneg, Qdiv_nat_nonneg, Hb.
Qed.

Lemma occlusion_rate_of (total occluded : nat) :
  prop (occlusion_stats_of (total, occluded)) "occlusionRate"
  = if bool_decide (0 < total)%nat
    then VStr (toFixed2 (ratio100 occluded total))
    else num_of_Z 0.
Proof. reflexivity. Qed.

(** C10 (as amended): on detections whose top-level [vehicles] are
    absent, or a list without [null], [getStats] returns.  It counts
    among the vehicles found at the top level of the detections those
    whose own [occluded] property is truthy, a property that the records
    written by [Detection.save] do not have, so that the count is 0 for
    detections left by the pipeline.  When there are no vehicles
    [occlusionRate] is the number 0; when there are, it is the string
    that [toFixed(2)] gives for what JavaScript computes for the count
    divided by the number of vehicles, times 100: a string with two
    decimals. *)
Theorem statistics_count_top_level_occluded_flag `{Runtime} (userId : value) (w : World) :
  let detections := stats_detections userId w in
  let vehicles := visited_vehicles detections in
  let total := length vehicles in
  let occluded := length (filter (fun v => occluded_flag v = true) vehicles) in
  Forall (fun d => countable_detection d = true) detections ->
  exists result stats,
    getStats userId w = (Ok result, w) /\
    prop result "occlusionStats" = VObj stats /\
    calculateOcclusionStats detections = Ok stats /\
    prop stats "totalVehicles" = num_of_nat total /\
    prop stats "occludedVehicles" = num_of_nat occluded /\
    (total = O -> prop stats "occlusionRate" = num_of_Z 0) /\
    ((0 < total)%nat ->
     exists p s, percentage_of occluded total p /\ fixed2_of p s /\
                 two_decimals s /\ prop stats "occlusionRate" = VStr s) /\
    (Forall pipeline_record detections -> occluded = O).
Proof.
  intros detections vehicles total occluded Hds.
  destruct (calculateVehicleStats_countable detections Hds) as (vehicleStats & Hv).
  pose proof (calculateOcclusionStats_countable detections Hds) as Ho.
  eexists _, _. split.
  - unfold getStats, getUploads, getDetections, getRecords.
    rewrite bind_run, readData_run, bind_run, readData_run.
    fold (stats_detections userId w). fold detections.
    unfold lift. rewrite bind_run, Hv, bind_run, Ho. reflexivity.
  - split; [reflexivity|]. split; [exact Ho|].
    split; [reflexivity|]. split; [reflexivity|].
    fold vehicles. fold total. fold occluded. rewrite occlusion_rate_of.
    split; [|split].
    + intros ->. reflexivity.
    + intros Ht. rewrite bool_decide_eq_true_2 by exact Ht.
      exists (ratio100 occluded total), (toFixed2 (ratio100 occluded total)).
      split; [apply ratio100_percentage, Ht|].
      split; [apply toFixed2_fixed2, ratio100_nonneg, Ht|].
      split; [apply toFixed2_two_decimals | reflexivity].
    + intros Hpipeline. unfold occluded, vehicles.
      rewrite (pipeline_records_not_visited detections Hpipeline). reflexivity.
Qed.

(** C10 (as stated) fails for some detection lists.  A detection
    created with [null] among its top-level vehicles is stored as it is,
    and [getStats] then throws the [TypeError] of the read of a property
    of [null]: it answers no statistics at all. *)
Lemma statistics_throw_on_null_vehicle :
  let w := Examples.world Examples.empty_store Examples.healthy in
  let data := <["vehicles" := VArr [VNull]]> ∅ in
  let created := createDetection data w in
  (fun d => prop d "vehicles") <$> stored created.2 detectionsFile = [VArr [VNull]] /\
  thrown (getStats (H := Examples.runtime) VNull created.2) = Some null_read /\
  returned (getStats (H := Examples.runtime) VNull created.2) = None.
Proof. evaluate. Qed.

(** On a stored detection with three top-level vehicles, one with
    [occluded: true], one with [occluded: false] and one with
    [occlusion.isOccluded: true] only, one vehicle in three counts. *)
Example statistics_of_flagged_vehicles :
  let stats :=
    (fun result => prop result "occlusionStats")
      <$> returned (getStats (H := Examples.runtime) VNull
                      (Examples.world Examples.flagged_store Examples.healthy)) in
  (fun s => get s "totalVehicles") <$> stats = Some (num_of_Z 3) /\
  (fun s => get s "occludedVehicles") <$> stats = Some (num_of_Z 1) /\
  (fun s => get s "occlusionRate") <$> stats = Some (VStr "33.33").
Proof. evaluate. Qed.

(** After the job has run on a detection, with the mock analysis of the
    source that finds one occluded vehicle in three, the statistics see
    no vehicle at all. *)
Example statistics_after_the_job :
  let w := Examples.world (Examples.one_record (Examples.record "a" "pending"))
             Examples.healthy in
  let done := Routes.processVehicleDetection (H := Examples.runtime)
                Routes.mock_analyze (VStr "a") w in
  let stats :=
    (fun result => prop result "occlusionStats")
      <$> returned (getStats (H := Examples.runtime) VNull done.2) in
  field "status" <$> stored done.2 detectionsFile = [VStr "completed"] /\
  (fun d => get (prop d "results") "occludedVehicles") <$> stored done.2 detectionsFile
    = [num_of_Z 1] /\
  (fun s => get s "totalVehicles") <$> stats = Some (num_of_Z 0) /\
  (fun s => get s "occludedVehicles") <$> stats = Some (num_of_Z 0) /\
  (fun s => get s "occlusionRate") <$> stats = Some (num_of_Z 0).
Proof. evaluate. Qed.

Lemma statistics_count_top_level_occluded_flag_witness :
  (let w := Examples.world Examples.flagged_store Examples.healthy in
   let detections := stats_detections VNull w in
   let vehicles := visited_vehicles detections in
   let total := length vehicles in
   let occluded := length (filter (fun v => occluded_flag v = true) vehicles) in
   Forall (fun d => countable_detection d = true) detections /\
   exists result stats,
     getStats (H := Examples.runtime) VNull w = (Ok result, w) /\
     prop result "occlusionStats" = VObj stats /\
     calculateOcclusionStats detections = Ok stats /\
     prop stats "totalVehicles" = num_of_nat total /\
     prop stats "occludedVehicles" = num_of_nat occluded /\
     (total = O -> prop stats "occlusionRate" = num_of_Z 0) /\
     ((0 < total)%nat ->
      exists p s, percentage_of occluded total p /\ fixed2_of p s /\
                  two_decimals s /\ prop stats "occlusionRate" = VStr s) /\
     (Forall pipeline_record detections -> occluded = O)) /\
  (let this :=
     Examples.unsaved
       (Examples.supplied_results 1 0 0 [Examples.occluded_vehicle]) in
   let w := (Detection.save (H := Examples.runtime) this
               (Examples.world Examples.empty_store Examples.healthy)).2 in
   let detections := stats_detections VNull w in
   let vehicles := visited_vehicles detections in
   (Forall (fun d => countable_detection d = true) detections /\
    Forall pipeline_record detections) /\
   length (filter (fun v => occluded_flag v = true) vehicles) = O).
Proof.
  split.
  - split.
    + repeat constructor.
    + apply (statistics_count_top_level_occluded_flag (H := Examples.runtime) VNull).
      repeat constructor.
  - cbv zeta.
    assert (Hhyp : forall P Q : Prop, P -> (P -> Q) -> P /\ Q) by tauto.
    apply Hhyp.
    + split; [repeat constructor|].
      apply List.Forall_cons; [apply pipeline_created | apply List.Forall_nil].
    + intros (Hcountable & Hpipeline).
      destruct (statistics_count_top_level_occluded_flag (H := Examples.runtime)
                  VNull _ Hcountable)
        as (result & stats & _ & _ & _ & _ & _ & _ & _ & Hzero).
      exact (Hzero Hpipeline).
Defined.

(** The rate of 23 occluded vehicles in 160: the product is the double
    14.374999999999998, which [toFixed(2)] writes 14.37, where the exact
    14.375 would be written 14.38. *)
Example rate_of_a_rounded_product :
  prop (occlusion_stats_of (160%nat, 23%nat)) "occlusionRate" = VStr "14.37" /\
  toFixed2 (115 # 8) = "14.38".
Proof. evaluate. Qed.

(** ** C6 *)

Module InterleavingFacts.
Import Interleaving.

Lemma first_turn_run detectionData w :
  first_turn detectionData w
  = (Ok (created_record detectionData w,
         stored w detectionsFile ++ [created_record detectionData w]),
     (new_Date (new_Date (uuidv4 w).2).2).2).
Proof.
  unfold first_turn, getDetections, getRecords.
  rewrite bind_run, readData_run. reflexivity.
Qed.

Lemma second_turn_run newDetection detections w :
  second_turn newDetection detections w
  = (Ok newDetection, (fs_writeJson detectionsFile detections w).2).
Proof. unfold second_turn. rewrite bind_run, writeData_run. reflexivity. Qed.

(** The two turns of a call, run one after the other, are the call. *)
Lemma turns_in_sequence detectionData w :
  let '(t, w1) := turn (Called detectionData) w in
  let '(t', w') := turn t w1 in
  (t', w') = (Returned (createDetection detectionData w).1,
              (createDetection detectionData w).2).
Proof.
  unfold turn. rewrite first_turn_run, second_turn_run.
  unfold createDetection. rewrite createRecord_run. reflexivity.
Qed.

Lemma turn_not_failed t w : failed t = false -> failed (turn t w).1 = false.
Proof.
  destruct t as [d|n all|r]; intros Ht; unfold turn.
  - rewrite first_turn_run. reflexivity.
  - rewrite second_turn_run. reflexivity.
  - exact Ht.
Qed.

Lemma turn_taken t w : turns_taken (turn t w).1 = Nat.min 2 (S (turns_taken t)).
Proof.
  destruct t as [d|n all|r]; unfold turn.
  - rewrite first_turn_run. reflexivity.
  - rewrite second_turn_run. reflexivity.
  - reflexivity.
Qed.

Lemma run_cons i schedule tasks w :
  run (i :: schedule) tasks w
  = match tasks !! i with
    | None => run schedule tasks w
    | Some t => run schedule (<[i := (turn t w).1]> tasks) (turn t w).2
    end.
Proof. simpl. destruct (tasks !! i) as [t|]; [|reflexivity]. destruct (turn t w). reflexivity. Qed.

Lemma run_length schedule : forall tasks w,
  length (run schedule tasks w).1 = length tasks.
Proof.
  induction schedule as [|i schedule IH]; intros tasks w; [reflexivity|].
  rewrite run_cons. destruct (tasks !! i) as [t|]; [|apply IH].
  rewrite IH. apply length_insert.
Qed.

Lemma run_not_failed schedule : forall tasks w,
  Forall (fun t => failed t = false) tasks ->
  Forall (fun t => failed t = false) (run schedule tasks w).1.
Proof.
  induction schedule as [|i schedule IH]; intros tasks w Htasks; [exact Htasks|].
  rewrite run_cons. destruct (tasks !! i) as [t|] eqn:Hi; [|apply IH, Htasks].
  apply IH. apply Forall_insert; [exact Htasks|].
  apply turn_not_failed. apply (Forall_lookup_1 _ _ _ _ Htasks Hi).
Qed.

Lemma run_turns_taken schedule : forall tasks w i t,
  tasks !! i = Some t ->
  exists t', (run schedule tasks w).1 !! i = Some t' /\
             turns_taken t' = Nat.min 2 (turns_taken t + scheduled i schedule).
Proof.
  induction schedule as [|j schedule IH]; intros tasks w i t Hi.
  - exists t. split; [exact Hi|]. unfold scheduled. simpl.
    destruct t; simpl; reflexivity.
  - rewrite run_cons. unfold scheduled. rewrite filter_cons.
    destruct (decide (j = i)) as [->|Hne].
    + rewrite Hi.
      destruct (IH (<[i := (turn t w).1]> tasks) (turn t w).2 i (turn t w).1)
        as (t' & Ht' & Htaken).
      { apply list_lookup_insert_eq. apply (lookup_lt_Some _ _ _ Hi). }
      exists t'. split; [exact Ht'|]. rewrite Htaken, turn_taken.
      unfold scheduled. simpl length.
      generalize (turns_taken t) (length (filter (fun j => j = i) schedule)).
      intros n c.
      destruct (Nat.min_spec 2 (S n)) as [[? ->]|[? ->]];
        destruct (Nat.min_spec 2 (n + S c)) as [[? ->]|[? ->]];
        try (destruct (Nat.min_spec 2 (S n + c)) as [[? ->]|[? ->]]);
        try (destruct (Nat.min_spec 2 (2 + c)) as [[? ->]|[? ->]]); lia.
    + destruct (tasks !! j) as [tj|] eqn:Hj.
      * apply IH. rewrite list_lookup_insert_ne by exact Hne. exact Hi.
      * apply IH, Hi.
Qed.

End InterleavingFacts.

(** C6 (as amended): [createDetection] takes no lock and checks no
    uniqueness.  However the two halves of N concurrent calls interleave,
    no call fails, and once every call has had its two turns all N have
    succeeded: N successes and no failure, also when all the drafts name
    the same upload. *)
Theorem concurrent_creations_all_succeed
  (drafts : list obj) (schedule : list nat) (w : World) :
  Interleaving.complete (length drafts) schedule ->
  let calls := (Interleaving.run schedule (Interleaving.Called <$> drafts) w).1 in
  length calls = length drafts /\
  Forall (fun t => Interleaving.failed t = false) calls /\
  Forall (fun t => Interleaving.succeeded t = true) calls.
Proof.
  intros Hcomplete calls.
  assert (Hlen : length calls = length drafts).
  { unfold calls. rewrite InterleavingFacts.run_length, length_fmap. reflexivity. }
  assert (Hnot : Forall (fun t => Interleaving.failed t = false) calls).
  { apply InterleavingFacts.run_not_failed.
    apply Forall_fmap, Forall_true. reflexivity. }
  split; [exact Hlen|]. split; [exact Hnot|].
  apply Forall_lookup_2. intros i t Hi.
  assert (Hlt : (i < length drafts)%nat).
  { rewrite <- Hlen. apply (lookup_lt_Some _ _ _ Hi). }
  destruct (lookup_lt_is_Some_2 drafts i Hlt) as [d Hd].
  destruct (InterleavingFacts.run_turns_taken schedule
              (Interleaving.Called <$> drafts) w i (Interleaving.Called d))
    as (t' & Ht' & Htaken).
  { rewrite list_lookup_fmap, Hd. reflexivity. }
  fold calls in Ht'. rewrite Hi in Ht'. injection Ht' as <-.
  pose proof (Hcomplete i Hlt) as Htwice.
  pose proof (Forall_lookup_1 _ _ _ _ Hnot Hi) as Hfailed.
  assert (Hdone : Interleaving.turns_taken t = 2%nat).
  { rewrite Htaken. simpl Interleaving.turns_taken. lia. }
  destruct t as [?|? ?|[r|e]]; try discriminate Hdone;
    [reflexivity | discriminate Hfailed].
Qed.

(** C6 (as stated) fails: two concurrent creations for the upload [U1]
    both succeed, whether their halves interleave or not.  When they
    interleave (both calls read, then both write) the file is left with
    the record of the second call alone: the two halves of a mutation are
    not kept together, and the first creation is lost. *)
Lemma concurrent_creations_for_one_upload_both_succeed :
  let w := Examples.world Examples.empty_store Examples.healthy in
  let calls := Interleaving.Called <$> [Examples.draft "U1"; Examples.draft "U1"] in
  let interleaved := Interleaving.run [0; 1; 0; 1]%nat calls w in
  let serial := Interleaving.run [0; 0; 1; 1]%nat calls w in
  (Interleaving.succeeded <$> interleaved.1 = [true; true] /\
   Interleaving.failed <$> interleaved.1 = [false; false] /\
   field "uploadId" <$> stored interleaved.2 detectionsFile = [VStr "U1"] /\
   field "id" <$> stored interleaved.2 detectionsFile = [VStr "uuid-1"]) /\
  (Interleaving.succeeded <$> serial.1 = [true; true] /\
   Interleaving.failed <$> serial.1 = [false; false] /\
   field "uploadId" <$> stored serial.2 detectionsFile = [VStr "U1"; VStr "U1"]).
Proof. evaluate. Qed.

Lemma concurrent_creations_all_succeed_witness :
  let w := Examples.world Examples.empty_store Examples.healthy in
  let drafts := [Examples.draft "U1"; Examples.draft "U1"] in
  let schedule := [0; 1; 0; 1]%nat in
  let calls := (Interleaving.run schedule (Interleaving.Called <$> drafts) w).1 in
  Interleaving.complete (length drafts) schedule /\
  length calls = length drafts /\
  Forall (fun t => Interleaving.failed t = false) calls /\
  Forall (fun t => Interleaving.succeeded t = true) calls.
Proof.
  assert (Hcomplete : Interleaving.complete 2 [0; 1; 0; 1]%nat).
  { intros i Hi. destruct i as [|[|i]]; [vm_compute; lia | vm_compute; lia | lia]. }
  split; [exact Hcomplete|].
  apply (concurrent_creations_all_succeed
           [Examples.draft "U1"; Examples.draft "U1"] [0; 1; 0; 1]%nat).
  exact Hcomplete.
Defined.

(** * Further properties of the record store *)

Lemma findIndex_none_of_find id rs :
  find_by_id id rs = None -> findIndex_by_id id rs = None.
Proof.
  unfold find_by_id. induction rs as [|r rs IH]; simpl; [reflexivity|].
  destruct (strict_eq (prop r "id") id); [discriminate|].
  intros Hnone. rewrite (IH Hnone). reflexivity.
Qed.

Lemma findIndex_first id rs i :
  findIndex_by_id id rs = Some i ->
  forall j r, (j < i)%nat -> rs !! j = Some r -> strict_eq (prop r "id") id = false.
Proof.
  revert i. induction rs as [|x rs IH]; simpl; intros i; [discriminate|].
  destruct (strict_eq (prop x "id") id) eqn:Hx.
  - intros [= <-] j r Hj. lia.
  - destruct (findIndex_by_id id rs) as [k|]; simpl; [|discriminate].
    intros [= <-] [|j] r Hj Hr.
    + injection Hr as <-. exact Hx.
    + apply (IH k eq_refl j r); [lia | exact Hr].
Qed.

Lemma deleteRecord_run f id w :
  deleteRecord f id w
  = (Ok (bool_decide
           (length (filter (fun r => strict_eq (prop r "id") id = false) (stored w f))
            < length (stored w f))%nat),
     (fs_writeJson f
        (filter (fun r => strict_eq (prop r "id") id = false) (stored w f)) w).2).
Proof.
  unfold deleteRecord, getRecords.
  rewrite bind_run, readData_run, bind_run, writeData_run. reflexivity.
Qed.

Lemma filter_shorter_iff_found id rs :
  (length (filter (fun r => strict_eq (prop r "id") id = false) rs) < length rs)%nat
  <-> is_Some (find_by_id id rs).
Proof.
  unfold find_by_id. induction rs as [|r rs IH]; simpl.
  - split; [lia | intros [x Hx]; discriminate Hx].
  - rewrite filter_cons.
    pose proof (length_filter (fun r => strict_eq (prop r "id") id = false) rs) as Hle.
    destruct (strict_eq (prop r "id") id) eqn:Hr.
    + rewrite decide_False by discriminate. split; [eauto | lia].
    + rewrite decide_True by reflexivity. simpl. rewrite <- IH. lia.
Qed.

Lemma find_none_after_filter id rs :
  id <> VNull ->
  find_by_id id
    (obj_to_json <$> filter (fun r => strict_eq (prop r "id") id = false) rs) = None.
Proof.
  intros Hid. unfold find_by_id. induction rs as [|r rs IH]; [reflexivity|].
  rewrite filter_cons. destruct (decide (strict_eq (prop r "id") id = false)) as [Hr|Hr].
  - simpl. rewrite prop_obj_to_json, strict_eq_json_prop, Hr by exact Hid. exact IH.
  - exact IH.
Qed.

(** X1: a deletion, in any of the three collections, answers whether a
    record had the identifier; when the write succeeds the file holds
    the records with another identifier, in their order, and a lookup of
    the identifier finds nothing, however many records had it. *)
Theorem delete_removes_every_record_with_the_identifier
  (f : filename) (id : value) (w : World) :
  write_succeeds w ->
  id <> VNull ->
  exists w',
    deleteRecord f id w
      = (Ok (bool_decide (is_Some (find_by_id id (stored w f)))), w') /\
    stored w' f
      = obj_to_json <$> filter (fun r => strict_eq (prop r "id") id = false) (stored w f) /\
    getRecordById f id w' = (Ok None, w').
Proof.
  intros Hw Hid. eexists. split; [|split].
  - rewrite deleteRecord_run. do 2 f_equal.
    apply bool_decide_ext, filter_shorter_iff_found.
  - apply stored_after_write, Hw.
  - unfold getRecordById, getRecords. rewrite bind_run, readData_run.
    rewrite stored_after_write by exact Hw.
    rewrite find_none_after_filter by exact Hid. reflexivity.
Qed.

Lemma delete_removes_every_record_with_the_identifier_witness :
  let w := Examples.world (Examples.one_record (Examples.record "a" "pending"))
             Examples.healthy in
  (write_succeeds w /\ VStr "a" <> VNull) /\
  exists w',
    deleteRecord uploadsFile (VStr "a") w
      = (Ok (bool_decide (is_Some (find_by_id (VStr "a") (stored w uploadsFile)))), w') /\
    stored w' uploadsFile
      = obj_to_json <$> filter (fun r => strict_eq (prop r "id") (VStr "a") = false)
                          (stored w uploadsFile) /\
    getRecordById uploadsFile (VStr "a") w' = (Ok None, w').
Proof.
  split; [split; [reflexivity | discriminate]|].
  apply (delete_removes_every_record_with_the_identifier uploadsFile (VStr "a"));
    [reflexivity | discriminate].
Defined.

(** X2: a creation on a file that cannot be read does not fail: the
    read is answered by the empty array, and when the write succeeds the
    file holds the new record alone. *)
Theorem create_on_unreadable_file_starts_afresh
  (f : filename) (data : obj) (w : World) :
  files w f = Unreadable ->
  write_succeeds w ->
  exists w',
    createRecord f data w = (Ok (created_record data w), w') /\
    files w' f = Stored [obj_to_json (created_record data w)].
Proof.
  intros Hf Hw. eexists. split; [apply createRecord_run|].
  unfold stored. rewrite Hf. unfold fs_writeJson.
  unfold write_succeeds in Hw. simpl. rewrite Hw. simpl.
  unfold set_file. rewrite decide_True by reflexivity. reflexivity.
Qed.

Lemma create_on_unreadable_file_starts_afresh_witness :
  let w := Examples.world Examples.corrupt_store Examples.healthy in
  let data := Examples.draft "U1" in
  (files w usersFile = Unreadable /\ write_succeeds w) /\
  exists w',
    createRecord usersFile data w = (Ok (created_record data w), w') /\
    files w' usersFile = Stored [obj_to_json (created_record data w)].
Proof.
  split; [split; reflexivity|].
  apply (create_on_unreadable_file_starts_afresh usersFile (Examples.draft "U1"));
    reflexivity.
Defined.

(** X3: an update of an identifier that no record has answers [null]
    and leaves the world as it was: nothing is written and the clock is
    not read. *)
Theorem update_of_missing_record_changes_nothing
  (f : filename) (id : value) (updateData : obj) (w : World) :
  find_by_id id (stored w f) = None ->
  updateRecord f id updateData w = (Ok None, w).
Proof.
  intros Hnone. apply updateRecord_missing, findIndex_none_of_find, Hnone.
Qed.

Lemma update_of_missing_record_changes_nothing_witness :
  let w := Examples.world (Examples.one_record (Examples.record "a" "pending"))
             Examples.healthy in
  find_by_id (VStr "b") (stored w detectionsFile) = None /\
  updateRecord detectionsFile (VStr "b") (Examples.draft "U1") w = (Ok None, w).
Proof.
  split; [reflexivity|].
  apply (update_of_missing_record_changes_nothing detectionsFile (VStr "b")).
  reflexivity.
Defined.

(** X4: an update rewrites the first record with the identifier and no
    other: when the write succeeds the file has as many records as
    before, the updated one at the place of the first match, and at every
    other place the record that was there. *)
Theorem update_rewrites_first_match_only
  (f : filename) (id : value) (updateData existing : obj) (w : World) :
  find_by_id id (stored w f) = Some existing ->
  write_succeeds w ->
  let updated := merged_record existing updateData (now w) in
  exists i w',
    updateRecord f id updateData w = (Ok (Some updated), w') /\
    stored w f !! i = Some existing /\
    (forall j r, (j < i)%nat -> stored w f !! j = Some r ->
                 strict_eq (prop r "id") id = false) /\
    length (stored w' f) = length (stored w f) /\
    stored w' f !! i = Some (obj_to_json updated) /\
    (forall j, j <> i -> stored w' f !! j = obj_to_json <$> (stored w f !! j)).
Proof.
  intros Hfind Hw updated.
  destruct (findIndex_of_find _ _ _ Hfind) as (i & Hi & Hex).
  exists i. eexists. split; [apply (updateRecord_run _ _ _ _ _ _ Hi Hex)|].
  split; [exact Hex|]. split; [apply (findIndex_first _ _ _ Hi)|].
  rewrite stored_after_write by exact Hw.
  split; [rewrite length_fmap, length_insert; reflexivity|]. split.
  - rewrite list_lookup_fmap, list_lookup_insert_eq; [reflexivity|].
    apply (lookup_lt_Some _ _ _ Hex).
  - intros j Hj. rewrite list_lookup_fmap, list_lookup_insert_ne by congruence.
    reflexivity.
Qed.

Lemma update_rewrites_first_match_only_witness :
  let w := Examples.world (Examples.one_record (Examples.record "a" "pending"))
             Examples.healthy in
  let existing := Examples.record "a" "pending" in
  let updateData := <["status" := VStr "processing"]> ∅ in
  let updated := merged_record existing updateData (now w) in
  (find_by_id (VStr "a") (stored w uploadsFile) = Some existing /\ write_succeeds w) /\
  exists i w',
    updateRecord uploadsFile (VStr "a") updateData w = (Ok (Some updated), w') /\
    stored w uploadsFile !! i = Some existing /\
    (forall j r, (j < i)%nat -> stored w uploadsFile !! j = Some r ->
                 strict_eq (prop r "id") (VStr "a") = false) /\
    length (stored w' uploadsFile) = length (stored w uploadsFile) /\
    stored w' uploadsFile !! i = Some (obj_to_json updated) /\
    (forall j, j <> i ->
               stored w' uploadsFile !! j = obj_to_json <$> (stored w uploadsFile !! j)).
Proof.
  split; [split; reflexivity|].
  apply (update_rewrites_first_match_only uploadsFile (VStr "a")); reflexivity.
Defined.


Lemma filter_by_field_json k u (rs : list obj) :
  u <> VNull ->
  filter (fun d => strict_eq (prop d k) u = true) (obj_to_json <$> rs)
  = obj_to_json <$> filter (fun d => strict_eq (prop d k) u = true) rs.
Proof.
  intros Hu. induction rs as [|r rs IH]; [reflexivity|].
  rewrite fmap_cons, !filter_cons, prop_obj_to_json, strict_eq_json_prop by exact Hu.
  destruct (decide (strict_eq (prop r k) u = true)); rewrite IH; reflexivity.
Qed.

(** X6: after a creation whose write succeeds, the detections listed
    for the upload of the draft are those listed before, in their order,
    followed by the new one (all in JSON form); this for an upload
    identifier that can be compared, as a string can. *)
Theorem created_detection_is_listed_for_its_upload (detectionData : obj) (w : World) :
  let uploadId := prop detectionData "uploadId" in
  write_succeeds w ->
  strict_eq uploadId uploadId = true ->
  uploadId <> VNull ->
  exists before created w' w'',
    getDetectionsByUploadId uploadId w = (Ok before, w) /\
    createDetection detectionData w = (Ok created, w') /\
    getDetectionsByUploadId uploadId w'
      = (Ok ((obj_to_json <$> before) ++ [obj_to_json created]), w'') /\
    prop created "uploadId" = uploadId.
Proof.
  intros uploadId Hw Hcmp Hnull.
  assert (Hup : prop (created_record detectionData w) "uploadId" = uploadId).
  { unfold created_record, prop. rewrite prop_new_record_other by discriminate.
    reflexivity. }
  eexists _, _, _, _. split; [|split; [apply createRecord_run|split; [|exact Hup]]].
  - unfold getDetectionsByUploadId, getDetections, getRecords.
    rewrite bind_run, readData_run. reflexivity.
  - unfold getDetectionsByUploadId, getDetections, getRecords.
    rewrite bind_run, readData_run, stored_after_write by exact Hw.
    unfold mret, M_ret. do 2 f_equal.
    rewrite filter_by_field_json by exact Hnull.
    rewrite filter_app, fmap_app. f_equal.
    rewrite filter_cons, Hup, decide_True by exact Hcmp. reflexivity.
Qed.

Lemma created_detection_is_listed_for_its_upload_witness :
  let w := Examples.world (Examples.one_record (Examples.record "a" "pending"))
             Examples.healthy in
  let detectionData := Examples.draft "U1" in
  let uploadId := prop detectionData "uploadId" in
  (write_succeeds w /\ strict_eq uploadId uploadId = true /\ uploadId <> VNull) /\
  exists before created w' w'',
    getDetectionsByUploadId uploadId w = (Ok before, w) /\
    createDetection detectionData w = (Ok created, w') /\
    getDetectionsByUploadId uploadId w'
      = (Ok ((obj_to_json <$> before) ++ [obj_to_json created]), w'') /\
    prop created "uploadId" = uploadId.
Proof.
  split; [split; [reflexivity|split; [reflexivity|discriminate]]|].
  apply (created_detection_is_listed_for_its_upload (Examples.draft "U1"));
    [reflexivity | reflexivity | discriminate].
Defined.

(** * Further properties of the detection model *)

Lemma is_occluded_throws v e : Detection.is_occluded v = Throw e -> e = null_read.
Proof. destruct v; simpl; intros [= <-] || discriminate; reflexivity. Qed.

Lemma occluded_count_null vehicles :
  Exists (fun v => nullish v = true) vehicles ->
  Detection.occluded_count vehicles = Throw null_read.
Proof.
  induction 1 as [v vs Hv|v vs _ IH]; simpl.
  - destruct v; try discriminate Hv; reflexivity.
  - rewrite IH. destruct (Detection.is_occluded v) as [b|e] eqn:Hv; [reflexivity|].
    rewrite (is_occluded_throws v e Hv). reflexivity.
Qed.

Section Model.
Context `{Runtime}.

(** The save of an instance that designates a record of the file, in
    full. *)
Lemma save_existing_exact this u existing w :
  Detection.occlusion_update (prop this "results") = Ok u ->
  truthy (prop this "id") = true ->
  find_by_id (prop this "id") (stored w detectionsFile) = Some existing ->
  exists this1 i,
    Detection.recompute_occlusion (Detection.recompute_duration this) = Ok this1 /\
    (forall k, k <> "results" -> k <> "processingDuration" ->
               prop this1 k = prop this k) /\
    findIndex_by_id (prop this "id") (stored w detectionsFile) = Some i /\
    stored w detectionsFile !! i = Some existing /\
    Detection.save this w
    = (Detection.Object_assign this1
         (merged_record existing (Detection.detectionData_of this1) (now w)),
       (fs_writeJson detectionsFile
          (<[i := merged_record existing (Detection.detectionData_of this1) (now w)]>
             (stored w detectionsFile))
          (new_Date w).2).2).
Proof.
  intros Hu Hid Hfind.
  destruct (recompute_succeeds this u Hu) as (this1 & Hr & Hk).
  destruct (findIndex_of_find _ _ _ Hfind) as (i & Hi & Hex).
  exists this1, i. split; [exact Hr|]. split; [exact Hk|].
  split; [exact Hi|]. split; [exact Hex|].
  assert (Hsame : prop this1 "id" = prop this "id") by (apply Hk; discriminate).
  apply save_update_run; rewrite ?Hsame; assumption.
Qed.

Lemma read_back_after_update id existing rec i w :
  write_succeeds w ->
  truthy id = true ->
  findIndex_by_id id (stored w detectionsFile) = Some i ->
  stored w detectionsFile !! i = Some existing ->
  prop rec "id" = prop existing "id" ->
  let w' := (fs_writeJson detectionsFile (<[i := rec]> (stored w detectionsFile))
               (new_Date w).2).2 in
  getDetectionById id w' = (Ok (Some (obj_to_json rec)), w') /\
  prop (obj_to_json rec) "id" = prop existing "id".
Proof.
  intros Hw Hid Hi Hex Hrec w'.
  destruct (findIndex_found _ _ _ Hi) as (r & Hr & Heq).
  rewrite Hex in Hr. injection Hr as <-. split.
  - unfold getDetectionById, getRecordById, getRecords.
    rewrite bind_run, readData_run. unfold w'.
    rewrite stored_after_write by exact Hw.
    rewrite (find_after_update id _ i rec (truthy_not_null _ Hid) Hi)
      by (rewrite Hrec; exact Heq).
    reflexivity.
  - rewrite prop_obj_to_json, Hrec.
    apply json_prop_comparable, (strict_eq_comparable _ _ Heq).
Qed.

(** X7: a save of a detection that is in the file never changes the
    identifier nor the creation time of its record, whatever the
    instance holds: the record read back has those of the stored record,
    and the time of the save as [updatedAt].  The save answers the
    instance when the record has no property named like an accessor of
    the class; when it has one, and none named [__proto__], the save of
    an instance with the prototype of the class throws after the
    write. *)
Theorem save_keeps_identifier_and_creation_time
  (this existing : obj) (u : option obj) (w : World) :
  Detection.occlusion_update (prop this "results") = Ok u ->
  truthy (prop this "id") = true ->
  find_by_id (prop this "id") (stored w detectionsFile) = Some existing ->
  write_succeeds w ->
  exists answer w' record,
    Detection.save this w = (answer, w') /\
    (accessor_free existing -> exists this', answer = Ok this') /\
    (~ accessor_free existing -> this !! "__proto__" = None ->
     existing !! "__proto__" = None -> answer = Throw Detection.getter_only) /\
    getDetectionById (prop this "id") w' = (Ok (Some record), w') /\
    prop record "id" = prop existing "id" /\
    prop record "createdAt" = json_prop (prop existing "createdAt") /\
    prop record "updatedAt" = now w.
Proof.
  intros Hu Hid Hfind Hw.
  destruct (save_existing_exact this u existing w Hu Hid Hfind)
    as (this1 & i & Hr & _ & Hi & Hex & Hsave).
  set (rec := merged_record existing (Detection.detectionData_of this1) (now w)) in *.
  assert (Hrec : prop rec "id" = prop existing "id").
  { unfold rec. rewrite prop_merged_record by discriminate. reflexivity. }
  destruct (read_back_after_update _ existing rec i w Hw Hid Hi Hex Hrec)
    as (Hget & Hjid).
  pose proof (accessor_free_merged_record existing this1 (now w)) as Hfree.
  fold rec in Hfree.
  eexists _, _, (obj_to_json rec). split; [exact Hsave|].
  split; [|split; [|split; [exact Hget|split; [exact Hjid|split]]]].
  - intros Hex'. rewrite Object_assign_free by (apply Hfree, Hex').
    eexists. reflexivity.
  - intros Hex' Hthis Hnone.
    apply Object_assign_accessor; [rewrite Hfree; exact Hex' | |].
    + rewrite (lookup_recomputed _ _ _ Hr) by discriminate. exact Hthis.
    + unfold rec. rewrite merged_record_lookup by (not_saved || discriminate).
      exact Hnone.
  - rewrite prop_obj_to_json. unfold rec.
    rewrite prop_merged_record by discriminate. reflexivity.
  - rewrite prop_obj_to_json. unfold rec. rewrite updatedAt_merged_record.
    reflexivity.
Qed.

(** X8: [updateStatus] stamps each time once.  [processingStartTime] is
    set to the present time when the new status is [processing] and no
    start time is set, [processingEndTime] when the new status is
    terminal and no end time is set; a time that is set is never
    replaced, whatever the new status.  This for an instance whose
    results [save] reads without a [TypeError] and whose [save] is the
    method of the class, and a file without a record that has a property
    named like an accessor of the class. *)
Theorem updateStatus_stamps_each_time_once
  (this : obj) (status errorDetails : value) (u : option obj) (w : World) :
  Detection.occlusion_update (prop this "results") = Ok u ->
  Detection.has_method this "save" = true ->
  Forall accessor_free (stored w detectionsFile) ->
  exists this' w',
    Detection.updateStatus this status errorDetails w = (Ok this', w') /\
    prop this' "processingStartTime"
      = (if negb (truthy (prop this "processingStartTime"))
            && strict_eq status (VStr "processing")
         then now w else prop this "processingStartTime") /\
    prop this' "processingEndTime"
      = (if negb (truthy (prop this "processingEndTime"))
            && Detection.terminal_status status
         then now w else prop this "processingEndTime").
Proof.
  intros Hu Hmethod Hfree.
  assert (Hrun : exists this2 w2,
    Detection.updateStatus this status errorDetails w = Detection.save this2 w2 /\
    stored w2 detectionsFile = stored w detectionsFile /\
    prop this2 "results" = prop this "results" /\
    prop this2 "processingStartTime"
      = (if negb (truthy (prop this "processingStartTime"))
            && strict_eq status (VStr "processing")
         then now w else prop this "processingStartTime") /\
    prop this2 "processingEndTime"
      = (if negb (truthy (prop this "processingEndTime"))
            && Detection.terminal_status status
         then now w else prop this "processingEndTime")).
  { unfold Detection.updateStatus. rewrite bind_run.
    rewrite !(prop_insert_ne this "status") by discriminate.
    assert (Hexcl : strict_eq status (VStr "processing") = true ->
                    Detection.terminal_status status = false).
    { unfold Detection.terminal_status. destruct status; try discriminate. simpl.
      intros Hs. apply String.eqb_eq in Hs. subst. reflexivity. }
    destruct (truthy (prop this "processingStartTime")),
             (truthy (prop this "processingEndTime")),
             (strict_eq status (VStr "processing")) eqn:Hp,
             (Detection.terminal_status status) eqn:Ht;
      try (specialize (Hexcl eq_refl); discriminate Hexcl);
      cbn [andb negb]; cbv beta iota;
      unfold mbind, M_bind, new_Date, mret, M_ret; cbv beta iota;
      destruct (truthy errorDetails);
      (eexists _, _; split;
       [unfold Detection.call_save;
        rewrite ?has_method_insert by discriminate; rewrite Hmethod; reflexivity|]);
      repeat split;
      repeat (rewrite prop_insert_eq || rewrite prop_insert_ne by discriminate);
      reflexivity. }
  destruct Hrun as (this2 & w2 & -> & Hsto & Hres & Hstart & Hend).
  rewrite <- Hres in Hu. rewrite <- Hsto in Hfree.
  destruct (recompute_succeeds this2 u Hu) as (this1 & Hr & Hk).
  destruct (save_returns this2 this1 w2 Hr Hfree) as (this' & w' & Hsave & Hret).
  exists this', w'. split; [exact Hsave|]. split.
  - rewrite Hret, Hk, Hstart; [reflexivity|discriminate|discriminate|].
    unfold saved_fields. rewrite !elem_of_cons. tauto.
  - rewrite Hret, Hk, Hend; [reflexivity|discriminate|discriminate|].
    unfold saved_fields. rewrite !elem_of_cons. tauto.
Qed.

End Model.

Lemma save_keeps_identifier_and_creation_time_witness :
  let w := Examples.world (Examples.one_record (Examples.record "a" "pending"))
             Examples.healthy in
  let existing := Examples.record "a" "pending" in
  let this := <["createdAt" := VTime 77]> (Detection.new existing) in
  (Detection.occlusion_update (H := Examples.runtime) (prop this "results") = Ok None /\
   truthy (prop this "id") = true /\
   find_by_id (prop this "id") (stored w detectionsFile) = Some existing /\
   write_succeeds w) /\
  exists answer w' record,
    Detection.save (H := Examples.runtime) this w = (answer, w') /\
    (accessor_free existing -> exists this', answer = Ok this') /\
    (~ accessor_free existing -> this !! "__proto__" = None ->
     existing !! "__proto__" = None -> answer = Throw Detection.getter_only) /\
    getDetectionById (prop this "id") w' = (Ok (Some record), w') /\
    prop record "id" = prop existing "id" /\
    prop record "createdAt" = json_prop (prop existing "createdAt") /\
    prop record "updatedAt" = now w.
Proof.
  split; [split; [evaluate|split; [evaluate|split; reflexivity]]|].
  apply (save_keeps_identifier_and_creation_time (H := Examples.runtime) _ _ None);
    [evaluate | evaluate | reflexivity | reflexivity].
Defined.

Lemma updateStatus_stamps_each_time_once_witness :
  let w := Examples.world (Examples.one_record (Examples.record "a" "pending"))
             Examples.healthy in
  let this := <["processingStartTime" := VTime 5]>
              (Detection.new (Examples.record "a" "pending")) in
  (Detection.occlusion_update (H := Examples.runtime) (prop this "results") = Ok None /\
   Detection.has_method this "save" = true /\
   Forall accessor_free (stored w detectionsFile)) /\
  exists this' w',
    Detection.updateStatus (H := Examples.runtime) this (VStr "processing") VNull w
      = (Ok this', w') /\
    prop this' "processingStartTime"
      = (if negb (truthy (prop this "processingStartTime"))
            && strict_eq (VStr "processing") (VStr "processing")
         then now w else prop this "processingStartTime") /\
    prop this' "processingEndTime"
      = (if negb (truthy (prop this "processingEndTime"))
            && Detection.terminal_status (VStr "processing")
         then now w else prop this "processingEndTime").
Proof.
  assert (Hfree : Forall accessor_free
                    (stored (Examples.world
                               (Examples.one_record (Examples.record "a" "pending"))
                               Examples.healthy) detectionsFile)).
  { apply List.Forall_cons; [split; reflexivity | apply List.Forall_nil]. }
  split; [split; [evaluate|split; [evaluate|exact Hfree]]|].
  apply (updateStatus_stamps_each_time_once (H := Examples.runtime) _ _ _ None);
    [evaluate | evaluate | exact Hfree].
Defined.

Section Model2.
Context `{Runtime}.

Lemma date_sub_exact s e :
  valid_time s -> valid_time e -> exact_integer (e - s) ->
  date_sub (VTime e) (VTime s) = num_of_Z (e - s).
Proof.
  unfold valid_time, exact_integer, date_sub, date_ms, time_clip. intros Hs He Hd.
  rewrite !(proj2 (Z.leb_le _ _)) by assumption.
  rewrite fl_int by exact Hd. reflexivity.
Qed.

Lemma duration_recomputed this this1 s e :
  prop this "processingStartTime" = VTime s ->
  prop this "processingEndTime" = VTime e ->
  valid_time s -> valid_time e -> exact_integer (e - s) ->
  Detection.recompute_occlusion (Detection.recompute_duration this) = Ok this1 ->
  prop this1 "processingDuration" = num_of_Z (e - s).
Proof.
  intros Hs He Hvs Hve Hd Hr.
  rewrite (prop_recompute_occlusion _ _ "processingDuration" Hr) by discriminate.
  unfold Detection.recompute_duration. rewrite Hs, He. cbn [truthy andb].
  rewrite prop_insert_eq. apply date_sub_exact; assumption.
Qed.

(** X9: the duration is derived on every save: when the start and the
    end of the processing are both set, to the dates [s] and [e], whose
    difference a double holds exactly, the answer and the record stored
    carry [e - s] as [processingDuration], whatever duration the
    instance held.  This when the write succeeds and no record of the
    file has a property named like an accessor of the class. *)
Theorem save_derives_processing_duration
  (this : obj) (s e : Z) (u : option obj) (w : World) :
  prop this "processingStartTime" = VTime s ->
  prop this "processingEndTime" = VTime e ->
  valid_time s -> valid_time e -> exact_integer (e - s) ->
  Detection.occlusion_update (prop this "results") = Ok u ->
  write_succeeds w ->
  Forall accessor_free (stored w detectionsFile) ->
  truthy (prop this "id") = false
  \/ is_Some (find_by_id (prop this "id") (stored w detectionsFile)) ->
  exists this' w' i record,
    Detection.save this w = (Ok this', w') /\
    prop this' "processingDuration" = num_of_Z (e - s) /\
    stored w' detectionsFile !! i = Some record /\
    prop record "id" = prop this' "id" /\
    prop record "processingDuration" = num_of_Z (e - s).
Proof.
  intros Hs He Hvs Hve Hexact Hu Hw Hfree Hcase.
  destruct (recompute_succeeds this u Hu) as (this1 & Hr & _).
  pose proof (duration_recomputed this this1 s e Hs He Hvs Hve Hexact Hr) as Hd.
  assert (Hin : "processingDuration" ∈ saved_fields).
  { unfold saved_fields. rewrite !elem_of_cons. tauto. }
  destruct (save_stores this this1 w Hr Hw Hfree Hcase)
    as (this' & w' & i & rec & Hsave & Hi & Hrec & Hid & Hjid).
  exists this', w', i, (obj_to_json rec).
  split; [exact Hsave|]. split; [|split; [exact Hi|split]].
  - destruct (save_returns this this1 w Hr Hfree) as (this'' & w'' & Hsave' & Hk).
    rewrite Hsave in Hsave'. injection Hsave' as <- <-.
    rewrite (Hk _ Hin). exact Hd.
  - rewrite prop_obj_to_json, Hjid. exact Hid.
  - rewrite prop_obj_to_json. unfold prop at 1. rewrite (Hrec _ Hin).
    simpl. rewrite Hd. reflexivity.
Qed.

(** X10: a save of results whose vehicle list holds [null] (or
    [undefined]) throws the [TypeError] of the read of its [occlusion],
    before anything is written: the world is left as it was. *)
Theorem save_rejects_null_vehicle (this r : obj) (vehicles : list value) (w : World) :
  prop this "results" = VObj r ->
  prop r "vehicles" = VArr vehicles ->
  Exists (fun v => nullish v = true) vehicles ->
  Detection.save this w = (Throw null_read, w).
Proof.
  intros Hres Hv Hnull. apply save_throws.
  unfold Detection.recompute_occlusion, Detection.occlusion_update.
  rewrite prop_recompute_duration, Hres by discriminate. simpl. rewrite Hv. simpl.
  rewrite (occluded_count_null vehicles Hnull).
  destruct vehicles; [inversion Hnull | reflexivity].
Qed.

(** X11: annotations are appended.  On a detection whose annotations are
    the list [l], [addAnnotation] answers, and stores, the list [l]
    followed by the annotation, stamped with the present time whatever
    [timestamp] the caller gave it.  This for an instance whose results
    [save] reads without a [TypeError] and whose [save] is the method of
    the class, when the write succeeds and no record of the file has a
    property named like an accessor of the class. *)
Theorem addAnnotation_appends_with_server_time
  (this annotation : obj) (l : list value) (u : option obj) (w : World) :
  prop this "annotations" = VArr l ->
  Detection.occlusion_update (prop this "results") = Ok u ->
  Detection.has_method this "save" = true ->
  write_succeeds w ->
  Forall accessor_free (stored w detectionsFile) ->
  truthy (prop this "id") = false
  \/ is_Some (find_by_id (prop this "id") (stored w detectionsFile)) ->
  let stamped := VObj (<["timestamp" := now w]> annotation) in
  exists this' w' i record,
    Detection.addAnnotation this annotation w = (Ok this', w') /\
    prop this' "annotations" = VArr (l ++ [stamped]) /\
    stored w' detectionsFile !! i = Some record /\
    prop record "id" = prop this' "id" /\
    prop record "annotations" = VArr (to_json <$> (l ++ [stamped])).
Proof.
  intros Hl Hu Hmethod Hw Hfree Hcase stamped.
  set (this2 := <["annotations" := VArr (l ++ [stamped])]> this).
  assert (Hrun : Detection.addAnnotation this annotation w
                 = Detection.save this2 (new_Date w).2).
  { unfold Detection.addAnnotation. rewrite bind_run. unfold new_Date at 1.
    cbv iota. rewrite Hl. unfold Detection.call_save.
    rewrite has_method_insert by discriminate. rewrite Hmethod. reflexivity. }
  assert (Hu2 : Detection.occlusion_update (prop this2 "results") = Ok u).
  { unfold this2. rewrite prop_insert_ne by discriminate. exact Hu. }
  destruct (recompute_succeeds this2 u Hu2) as (this1 & Hr & Hk).
  assert (Hin : "annotations" ∈ saved_fields).
  { unfold saved_fields. rewrite !elem_of_cons. tauto. }
  assert (Hcase2 : truthy (prop this2 "id") = false
                   \/ is_Some (find_by_id (prop this2 "id")
                                 (stored (new_Date w).2 detectionsFile))).
  { unfold this2. rewrite prop_insert_ne by discriminate. exact Hcase. }
  destruct (save_stores this2 this1 (new_Date w).2 Hr Hw Hfree Hcase2)
    as (this' & w' & i & rec & Hsave & Hi & Hrec & Hid & Hjid).
  assert (Hann : prop this1 "annotations" = VArr (l ++ [stamped])).
  { rewrite Hk by discriminate. unfold this2. apply prop_insert_eq. }
  exists this', w', i, (obj_to_json rec). rewrite Hrun.
  split; [exact Hsave|]. split; [|split; [exact Hi|split]].
  - destruct (save_returns this2 this1 (new_Date w).2 Hr Hfree)
      as (this'' & w'' & Hsave' & Hret).
    rewrite Hsave in Hsave'. injection Hsave' as <- <-.
    rewrite (Hret _ Hin). exact Hann.
  - rewrite prop_obj_to_json, Hjid. exact Hid.
  - rewrite prop_obj_to_json. unfold prop at 1. rewrite (Hrec _ Hin).
    simpl. rewrite Hann. reflexivity.
Qed.

End Model2.

Lemma save_derives_processing_duration_witness :
  let w := Examples.world Examples.empty_store Examples.healthy in
  let this := <["processingStartTime" := VTime 1000]>
              (<["processingEndTime" := VTime 6000]>
              (<["processingDuration" := num_of_Z 1]>
              (Examples.unsaved (Examples.supplied_results 0 0 0 [])))) in
  (prop this "processingStartTime" = VTime 1000 /\
   prop this "processingEndTime" = VTime 6000 /\
   valid_time 1000 /\ valid_time 6000 /\ exact_integer (6000 - 1000) /\
   Detection.occlusion_update (H := Examples.runtime) (prop this "results") = Ok None /\
   write_succeeds w /\
   Forall accessor_free (stored w detectionsFile) /\
   truthy (prop this "id") = false) /\
  exists this' w' i record,
    Detection.save (H := Examples.runtime) this w = (Ok this', w') /\
    prop this' "processingDuration" = num_of_Z (6000 - 1000) /\
    stored w' detectionsFile !! i = Some record /\
    prop record "id" = prop this' "id" /\
    prop record "processingDuration" = num_of_Z (6000 - 1000).
Proof.
  assert (Hv1 : valid_time 1000) by (unfold valid_time, max_time; lia).
  assert (Hv2 : valid_time 6000) by (unfold valid_time, max_time; lia).
  assert (Hex : exact_integer (6000 - 1000)) by (unfold exact_integer; lia).
  split.
  - split; [evaluate|]. split; [evaluate|]. split; [exact Hv1|].
    split; [exact Hv2|]. split; [exact Hex|]. split; [evaluate|].
    split; [reflexivity|]. split; [apply List.Forall_nil | evaluate].
  - apply (save_derives_processing_duration (H := Examples.runtime) _ 1000 6000 None);
      [evaluate | evaluate | exact Hv1 | exact Hv2 | exact Hex | evaluate
      | reflexivity | apply List.Forall_nil | left; evaluate].
Defined.

Lemma save_rejects_null_vehicle_witness :
  let w := Examples.world Examples.empty_store Examples.healthy in
  let vehicles := [Examples.clear_vehicle; VNull] in
  let r := Examples.supplied_results 2 0 0 vehicles in
  let this := Examples.unsaved r in
  (prop this "results" = VObj r /\ prop r "vehicles" = VArr vehicles /\
   Exists (fun v => nullish v = true) vehicles) /\
  Detection.save (H := Examples.runtime) this w = (Throw null_read, w).
Proof.
  assert (Hnull : Exists (fun v => nullish v = true) [Examples.clear_vehicle; VNull]).
  { apply Exists_cons_tl, Exists_cons_hd. reflexivity. }
  split; [split; [evaluate|split; [evaluate|exact Hnull]]|].
  apply (save_rejects_null_vehicle (H := Examples.runtime) _
           (Examples.supplied_results 2 0 0 [Examples.clear_vehicle; VNull])
           [Examples.clear_vehicle; VNull]);
    [evaluate | evaluate | exact Hnull].
Defined.

Lemma addAnnotation_appends_with_server_time_witness :
  let w := Examples.world Examples.empty_store Examples.healthy in
  let first := VObj (<["notes" := VStr "first"]> ∅) in
  let this := <["annotations" := VArr [first]]>
              (Examples.unsaved (Examples.supplied_results 0 0 0 [])) in
  let annotation := <["notes" := VStr "second"]> (<["timestamp" := VTime 1]> ∅) in
  let stamped := VObj (<["timestamp" := now w]> annotation) in
  (prop this "annotations" = VArr [first] /\
   Detection.occlusion_update (H := Examples.runtime) (prop this "results") = Ok None /\
   Detection.has_method this "save" = true /\
   write_succeeds w /\
   Forall accessor_free (stored w detectionsFile) /\
   truthy (prop this "id") = false) /\
  exists this' w' i record,
    Detection.addAnnotation (H := Examples.runtime) this annotation w = (Ok this', w') /\
    prop this' "annotations" = VArr ([first] ++ [stamped]) /\
    stored w' detectionsFile !! i = Some record /\
    prop record "id" = prop this' "id" /\
    prop record "annotations" = VArr (to_json <$> ([first] ++ [stamped])).
Proof.
  cbv zeta.
  split.
  - split; [reflexivity|]. split; [evaluate|]. split; [evaluate|].
    split; [reflexivity|]. split; [apply List.Forall_nil | evaluate].
  - apply (addAnnotation_appends_with_server_time (H := Examples.runtime) _ _ _ None);
      [reflexivity | evaluate | evaluate | reflexivity | apply List.Forall_nil
      | left; evaluate].
Defined.

(** * The getters of a detection *)

Lemma Qfloor_nonneg_div q : (0 < q)%Q -> 0 <= Qfloor (q / inject_Z 1000).
Proof.
  intros Hq. change 0 with (Qfloor 0). apply Qfloor_resp_le.
  apply Qle_shift_div_l; [reflexivity|].
  rewrite Qmult_0_l. apply Qlt_le_weak, Hq.
Qed.

Lemma processingTimeFormatted_of_rational `{Runtime} (this : obj) (q : Q) :
  prop this "processingDuration" = VNum q ->
  (0 < q)%Q ->
  let T := Qfloor (q / inject_Z 1000) in
  let h := T / 3600 in
  let m := (T / 60) mod 60 in
  let s := T mod 60 in
  Detection.processingTimeFormatted this = VStr (hms_text h m s) /\
  T = h * 3600 + m * 60 + s /\
  0 <= h /\ 0 <= m < 60 /\ 0 <= s < 60.
Proof.
  intros Hd Hq T h m s.
  pose proof (Qfloor_nonneg_div q Hq) as HT. fold T in HT.
  assert (Hm : 0 <= m < 60) by (apply Z.mod_pos_bound; lia).
  assert (Hs : 0 <= s < 60) by (apply Z.mod_pos_bound; lia).
  assert (Hh : 0 <= h) by (apply Z.div_pos; lia).
  assert (Hdiv : T / 60 / 60 = h).
  { unfold h. rewrite Z.div_div by lia. reflexivity. }
  assert (Hsum : T = h * 3600 + m * 60 + s).
  { rewrite <- Hdiv. unfold m, s.
    pose proof (Z.div_mod T 60 ltac:(lia)).
    pose proof (Z.div_mod (T / 60) 60 ltac:(lia)). lia. }
  split; [|repeat split; lia || assumption].
  unfold Detection.processingTimeFormatted. rewrite Hd.
  assert (Htruthy : truthy (VNum q) = true).
  { simpl. destruct (Qeq_bool q 0) eqn:Hz; [|reflexivity].
    apply Qeq_bool_iff in Hz. rewrite Hz in Hq. discriminate Hq. }
  rewrite Htruthy. simpl negb. cbv iota. simpl to_number. cbv iota.
  fold T. rewrite Hdiv.
  assert (Hrs : Z.rem T 60 = s) by (apply Z.rem_mod_nonneg; lia).
  assert (Hrm : Z.rem (T / 60) 60 = m).
  { apply Z.rem_mod_nonneg; [apply Z.div_pos|]; lia. }
  rewrite Hrs, Hrm. unfold hms_text.
  destruct (0 <? h) eqn:Hhpos; [reflexivity|].
  apply Z.ltb_ge in Hhpos.
  assert (Hh0 : h = 0) by lia.
  assert (Hm' : T / 60 = m).
  { unfold m. symmetry. apply Z.mod_small. split; [apply Z.div_pos; lia|].
    rewrite <- Hdiv in Hh0. apply Z.div_small_iff in Hh0; lia. }
  rewrite Hm'. destruct (0 <? m) eqn:Hmpos; [reflexivity|].
  apply Z.ltb_ge in Hmpos. f_equal. f_equal. f_equal. lia.
Qed.

Lemma Qfloor_div_1000 d : Qfloor (inject_Z d / inject_Z 1000) = d / 1000.
Proof. unfold Qdiv, Qmult, Qinv, inject_Z, Qfloor. simpl. rewrite Z.mul_1_r. reflexivity. Qed.

(** X12: for a duration of [d] milliseconds, a positive integer that a
    number holds exactly, hence of [T = d / 1000] whole seconds,
    [processingTimeFormatted] writes hours, minutes below 60 and seconds
    below 60 that add up to [T], leaving out the hours when there are
    none and the minutes too when the duration is under a minute. *)
Theorem processingTimeFormatted_splits_the_seconds `{Runtime} (this : obj) (d : Z) :
  prop this "processingDuration" = num_of_Z d ->
  0 < d < 2 ^ 53 ->
  let T := d / 1000 in
  let h := T / 3600 in
  let m := (T / 60) mod 60 in
  let s := T mod 60 in
  Detection.processingTimeFormatted this = VStr (hms_text h m s) /\
  T = h * 3600 + m * 60 + s /\
  0 <= h /\ 0 <= m < 60 /\ 0 <= s < 60.
Proof.
  intros Hd Hpos. rewrite <- (Qfloor_div_1000 d).
  apply processingTimeFormatted_of_rational; [exact Hd|].
  unfold Qlt. simpl. lia.
Qed.

Lemma processingTimeFormatted_splits_the_seconds_witness :
  let this := <["processingDuration" := num_of_Z 3725999]> ∅ in
  let d := 3725999 in
  (prop this "processingDuration" = num_of_Z d /\ 0 < d < 2 ^ 53) /\
  let T := d / 1000 in
  let h := T / 3600 in
  let m := (T / 60) mod 60 in
  let s := T mod 60 in
  Detection.processingTimeFormatted (H := Examples.runtime) this = VStr (hms_text h m s) /\
  T = h * 3600 + m * 60 + s /\
  0 <= h /\ 0 <= m < 60 /\ 0 <= s < 60.
Proof.
  split; [split; [reflexivity | lia]|].
  apply (processingTimeFormatted_splits_the_seconds (H := Examples.runtime));
    [reflexivity | lia].
Defined.

(** One hour, two minutes and five seconds, and the shorter forms. *)
Example processingTimeFormatted_examples :
  let text (ms : Z) :=
    Detection.processingTimeFormatted (H := Examples.runtime)
      (<["processingDuration" := num_of_Z ms]> ∅) in
  text 3725999 = VStr "1h 2m 5s" /\ text 125000 = VStr "2m 5s" /\
  text 4850 = VStr "4s" /\ text 999 = VStr "0s" /\ text 0 = VNull.
Proof. evaluate. Qed.

(** ** Counting by name *)

Lemma Qred_succ n : Qred (inject_Z n + 1) = inject_Z (n + 1).
Proof.
  rewrite (Qred_complete (inject_Z n + 1) (inject_Z (n + 1))).
  - apply Qcanon.Qred_identity. simpl. apply Z.gcd_1_r.
  - rewrite inject_Z_plus. reflexivity.
Qed.

Section Counting.
Context `{Runtime}.

Lemma increment_lookup summary k' k :
  k <> "__proto__" ->
  Detection.increment summary k' !! k
  = if decide (k' = k) then bumped (summary !! k) else summary !! k.
Proof.
  intros Hk. unfold Detection.increment.
  destruct (String.eqb k' "__proto__") eqn:Hp.
  - apply String.eqb_eq in Hp. rewrite decide_False by congruence. reflexivity.
  - destruct (decide (k' = k)) as [->|Hne].
    + rewrite lookup_insert_eq. reflexivity.
    + rewrite lookup_insert_ne by exact Hne. reflexivity.
Qed.

Lemma summary_fold_lookup k vehicles :
  k <> "__proto__" ->
  forall summary,
    foldl (fun s v => match level_key v with
                      | Some k' => Detection.increment s k'
                      | None => s
                      end) summary vehicles !! k
    = Nat.iter (length (filter (fun v => level_key v = Some k) vehicles)) bumped
        (summary !! k).
Proof.
  intros Hk. induction vehicles as [|v vs IH]; intros summary; [reflexivity|].
  simpl foldl. rewrite IH, filter_cons.
  destruct (level_key v) as [k'|] eqn:Hv.
  - rewrite increment_lookup by exact Hk.
    destruct (decide (k' = k)) as [->|Hne].
    + rewrite decide_True by reflexivity. simpl length. rewrite Nat.iter_succ_r.
      reflexivity.
    + rewrite decide_False by congruence. reflexivity.
  - rewrite decide_False by discriminate. reflexivity.
Qed.

Lemma bumped_number c n :
  Nat.iter c bumped (Some (num_of_Z n)) = Some (num_of_Z (n + Z.of_nat c)).
Proof.
  induction c as [|c IH].
  - simpl. rewrite Z.add_0_r. reflexivity.
  - rewrite Nat.iter_succ, IH. unfold bumped, num_of_Z.
    rewrite Qred_succ. do 3 f_equal. lia.
Qed.

Lemma bumped_missing c :
  Nat.iter c bumped None = if decide (c = O) then None else Some VNaN.
Proof.
  destruct c as [|c]; [reflexivity|]. rewrite decide_False by discriminate.
  induction c as [|c IH]; [reflexivity|]. rewrite Nat.iter_succ, IH. reflexivity.
Qed.

Lemma summary_visit_level acc v :
  nullish v = false ->
  Detection.summary_visit acc v
  = Ok match level_key v with
       | Some k' => Detection.increment acc k'
       | None => acc
       end.
Proof.
  intros Hv. unfold Detection.summary_visit, level_key.
  destruct v; try discriminate Hv;
    destruct (truthy _ && truthy _); reflexivity.
Qed.

(** X13: the occlusion summary of a detection whose vehicles are a list
    without [null] counts, under each of its four levels, the vehicles
    with an occlusion of that level; under any other name that a vehicle
    has as level it holds [NaN], not a count. *)
Theorem occlusionSummary_counts_the_levels (this r : obj) (vehicles : list value) :
  prop this "results" = VObj r ->
  prop r "vehicles" = VArr vehicles ->
  forallb (fun v => negb (nullish v)) vehicles = true ->
  exists summary,
    Detection.occlusionSummary this = Ok (VObj summary) /\
    (forall k, k ∈ occlusion_levels ->
       prop summary k
       = num_of_nat (length (filter (fun v => level_key v = Some k) vehicles))) /\
    (forall k, k ∉ occlusion_levels -> k <> "__proto__" ->
       prop summary k
       = if decide (length (filter (fun v => level_key v = Some k) vehicles) = O)
         then VUndef else VNaN).
Proof.
  intros Hres Hv Hvs. eexists. split; [|split].
  - unfold Detection.occlusionSummary. rewrite Hres. simpl. rewrite Hv. simpl.
    rewrite (forEach_without_null Detection.summary_visit
               (fun s v => match level_key v with
                           | Some k' => Detection.increment s k'
                           | None => s
                           end) vehicles summary_visit_level Hvs).
    reflexivity.
  - intros k Hk. unfold prop.
    assert (Hne : k <> "__proto__").
    { intros ->. revert Hk. unfold occlusion_levels. rewrite !elem_of_cons, elem_of_nil.
      intros [?|[?|[?|[?|[]]]]]; discriminate. }
    rewrite summary_fold_lookup by exact Hne.
    assert (Hzero : Detection.empty_summary !! k = Some (num_of_Z 0)).
    { revert Hk. unfold occlusion_levels. rewrite !elem_of_cons, elem_of_nil.
      intros [->|[->|[->|[->|[]]]]]; reflexivity. }
    rewrite Hzero, bumped_number. reflexivity.
  - intros k Hk Hne. unfold prop. rewrite summary_fold_lookup by exact Hne.
    assert (Hnone : Detection.empty_summary !! k = None).
    { unfold Detection.empty_summary.
      rewrite !lookup_insert_ne, lookup_empty; [reflexivity|..];
        intros <-; apply Hk; unfold occlusion_levels; rewrite !elem_of_cons; tauto. }
    rewrite Hnone, bumped_missing.
    destruct (decide (_ = O)); reflexivity.
Qed.

Lemma type_fold_lookup k vehicles :
  forall m : gmap string nat,
    foldl (fun m v => <[type_key v := S (default O (m !! type_key v))]> m) m vehicles !! k
    = Nat.iter (length (filter (fun v => type_key v = k) vehicles)) counted (m !! k).
Proof.
  induction vehicles as [|v vs IH]; intros m; [reflexivity|].
  simpl foldl. rewrite IH, filter_cons.
  destruct (decide (type_key v = k)) as [<-|Hne].
  - rewrite lookup_insert_eq. simpl length. rewrite Nat.iter_succ_r. reflexivity.
  - rewrite lookup_insert_ne by exact Hne. reflexivity.
Qed.

Lemma counted_from_nothing c :
  Nat.iter c counted None = if decide (c = O) then None else Some c.
Proof.
  destruct c as [|c]; [reflexivity|]. rewrite decide_False by discriminate.
  induction c as [|c IH]; [reflexivity|]. rewrite Nat.iter_succ, IH. reflexivity.
Qed.

(** X14: the vehicle statistics hold, under each type name, the number
    of vehicles of that type found at the top level of the detections,
    and nothing under a name no vehicle has; this for detections that are
    read without a [TypeError] and types that are not names every object
    inherits. *)
Theorem calculateVehicleStats_counts_by_type (detections : list obj) :
  Forall (fun d => countable_detection d = true) detections ->
  Forall (fun v => type_key v ∉ inherited_names) (visited_vehicles detections) ->
  exists stats,
    calculateVehicleStats detections = Ok stats /\
    forall k,
      prop stats k
      = let c := length (filter (fun v => type_key v = k) (visited_vehicles detections)) in
        if decide (c = O) then VUndef else num_of_nat c.
Proof.
  intros Hds _. eexists. split.
  - unfold calculateVehicleStats.
    rewrite (forEach_detection_countable type_visit
               (fun m v => <[type_key v := S (default O (m !! type_key v))]> m));
      [reflexivity | |exact Hds].
    intros acc [] Hv; (discriminate Hv || reflexivity).
  - intros k. unfold prop. rewrite lookup_fmap, type_fold_lookup, lookup_empty.
    rewrite counted_from_nothing. simpl.
    destruct (decide (_ = O)); reflexivity.
Qed.

End Counting.

Lemma occlusionSummary_counts_the_levels_witness :
  let vehicles :=
    [Examples.levelled "partial"; Examples.levelled "severe";
     Examples.levelled "partial"; Examples.clear_vehicle] in
  let r := Examples.supplied_results 4 0 0 vehicles in
  let this := Examples.unsaved r in
  (prop this "results" = VObj r /\ prop r "vehicles" = VArr vehicles /\
   forallb (fun v => negb (nullish v)) vehicles = true) /\
  exists summary,
    Detection.occlusionSummary (H := Examples.runtime) this = Ok (VObj summary) /\
    (forall k, k ∈ occlusion_levels ->
       prop summary k
       = num_of_nat (length (filter (fun v => level_key (H := Examples.runtime) v = Some k)
                               vehicles))) /\
    (forall k, k ∉ occlusion_levels -> k <> "__proto__" ->
       prop summary k
       = if decide (length (filter (fun v => level_key (H := Examples.runtime) v = Some k)
                              vehicles) = O)
         then VUndef else VNaN).
Proof.
  split; [evaluate|].
  apply (occlusionSummary_counts_the_levels (H := Examples.runtime) _
           (Examples.supplied_results 4 0 0
              [Examples.levelled "partial"; Examples.levelled "severe";
               Examples.levelled "partial"; Examples.clear_vehicle]));
    evaluate.
Defined.

(** Two vehicles of level [partial], one of the unknown level [severe],
    one without a level. *)
Example occlusionSummary_example :
  let summary :=
    match Detection.occlusionSummary (H := Examples.runtime)
            (Examples.unsaved
               (Examples.supplied_results 4 0 0
                  [Examples.levelled "partial"; Examples.levelled "severe";
                   Examples.levelled "partial"; Examples.clear_vehicle])) with
    | Ok summary => summary
    | Throw e => e
    end in
  get summary "partial" = num_of_Z 2 /\ get summary "none" = num_of_Z 0 /\
  get summary "severe" = VNaN /\ get summary "heavy" = num_of_Z 0.
Proof. evaluate. Qed.

Lemma Forall_of_forallb {A} (P : A -> Prop) `{forall x, Decision (P x)} (l : list A) :
  forallb (fun x => bool_decide (P x)) l = true -> Forall P l.
Proof.
  induction l as [|x l IH]; simpl; intros Hl; [apply List.Forall_nil|].
  apply andb_prop in Hl as [Hx Hl].
  apply List.Forall_cons; [apply bool_decide_eq_true in Hx; exact Hx | apply IH, Hl].
Qed.

Lemma calculateVehicleStats_counts_by_type_witness :
  let detections :=
    stored (Examples.world Examples.flagged_store Examples.healthy) detectionsFile in
  (Forall (fun d => countable_detection d = true) detections /\
   Forall (fun v => type_key (H := Examples.runtime) v ∉ inherited_names)
     (visited_vehicles detections)) /\
  exists stats,
    calculateVehicleStats (H := Examples.runtime) detections = Ok stats /\
    forall k,
      prop stats k
      = let c := length (filter (fun v => type_key (H := Examples.runtime) v = k)
                           (visited_vehicles detections)) in
        if decide (c = O) then VUndef else num_of_nat c.
Proof.
  assert (Hhyp : forall P Q : Prop, P -> (P -> Q) -> P /\ Q) by tauto.
  apply Hhyp.
  - split; [repeat constructor|].
    refine (Forall_of_forallb
              (fun v => type_key (H := Examples.runtime) v ∉ inherited_names) _ _).
    evaluate.
  - intros [Hcountable Hnames].
    exact (calculateVehicleStats_counts_by_type (H := Examples.runtime) _
             Hcountable Hnames).
Defined.

(** * Further properties of the statistics *)

Lemma last10_reversed_length {A} (l : list A) :
  length (last10_reversed l) = Nat.min 10 (length l).
Proof.
  unfold last10_reversed. rewrite length_rev, length_drop.
  destruct (Nat.min_spec 10 (length l)) as [[? ->]|[? ->]]; lia.
Qed.

Lemma last10_reversed_lookup {A} (l : list A) j :
  (j < length (last10_reversed l))%nat ->
  last10_reversed l !! j = l !! (length l - 1 - j)%nat.
Proof.
  intros Hj. pose proof (last10_reversed_length l) as Hlen.
  unfold last10_reversed in *. rewrite rev_alt.
  change (rev_append (drop (length l - 10) l) []) with (reverse (drop (length l - 10) l)).
  rewrite length_rev, length_drop in Hj.
  rewrite reverse_lookup by (rewrite length_drop; exact Hj).
  rewrite lookup_drop, length_drop. f_equal. lia.
Qed.

(** X15: the statistics count the uploads and the detections of the
    user (all of them when no user is given), and list as recent activity
    the last ten uploads of the file, or all when there are fewer, the
    latest first. *)
Theorem getStats_totals_and_recent_activity `{Runtime} (userId : value) (w : World) :
  let uploads := stats_uploads userId w in
  let detections := stats_detections userId w in
  Forall (fun d => countable_detection d = true) detections ->
  exists result recent,
    getStats userId w = (Ok result, w) /\
    prop result "totalUploads" = num_of_nat (length uploads) /\
    prop result "totalDetections" = num_of_nat (length detections) /\
    prop result "recentActivity" = VArr (VObj <$> recent) /\
    length recent = Nat.min 10 (length uploads) /\
    (forall j, (j < length recent)%nat ->
               recent !! j = uploads !! (length uploads - 1 - j)%nat).
Proof.
  intros uploads detections Hds.
  destruct (calculateVehicleStats_countable detections Hds) as (vehicleStats & Hv).
  pose proof (calculateOcclusionStats_countable detections Hds) as Ho.
  exists (<["totalUploads" := num_of_nat (length uploads)]>
         (<["totalDetections" := num_of_nat (length detections)]>
         (<["recentActivity" := VArr (VObj <$> last10_reversed uploads)]>
         (<["vehicleStats" := VObj vehicleStats]>
         (<["occlusionStats" :=
              VObj (occlusion_stats_of
                      (length (visited_vehicles detections),
                       length (filter (fun v => occluded_flag v = true)
                                 (visited_vehicles detections))))]> ∅))))),
         (last10_reversed uploads).
  split.
  - unfold getStats, getUploads, getDetections, getRecords.
    rewrite bind_run, readData_run, bind_run, readData_run.
    fold (stats_detections userId w). fold detections.
    fold (stats_uploads userId w). fold uploads.
    unfold lift. rewrite bind_run, Hv, bind_run, Ho. reflexivity.
  - split; [reflexivity|]. split; [reflexivity|]. split; [reflexivity|].
    split; [apply last10_reversed_length | apply last10_reversed_lookup].
Qed.

Lemma getStats_totals_and_recent_activity_witness :
  let w := Examples.world Examples.analysed_store Examples.healthy in
  let uploads := stats_uploads (VStr "user-1") w in
  let detections := stats_detections (VStr "user-1") w in
  Forall (fun d => countable_detection d = true) detections /\
  exists result recent,
    getStats (H := Examples.runtime) (VStr "user-1") w = (Ok result, w) /\
    prop result "totalUploads" = num_of_nat (length uploads) /\
    prop result "totalDetections" = num_of_nat (length detections) /\
    prop result "recentActivity" = VArr (VObj <$> recent) /\
    length recent = Nat.min 10 (length uploads) /\
    (forall j, (j < length recent)%nat ->
               recent !! j = uploads !! (length uploads - 1 - j)%nat).
Proof.
  split.
  - repeat constructor.
  - apply (getStats_totals_and_recent_activity (H := Examples.runtime) (VStr "user-1")).
    repeat constructor.
Defined.

(** * The detection job *)

Lemma world_after_write f data w :
  env (fs_writeJson f data w).2 = env w /\
  time_ctr (fs_writeJson f data w).2 = time_ctr w /\
  write_ctr (fs_writeJson f data w).2 = S (write_ctr w).
Proof. unfold fs_writeJson. destruct (write_at _ _); repeat split. Qed.

Lemma prop_union_l (a b : obj) k : is_Some (a !! k) -> prop (a ∪ b) k = prop a k.
Proof.
  intros [v Hv]. unfold prop. rewrite lookup_union, Hv.
  destruct (b !! k); reflexivity.
Qed.

Lemma prop_is_Some (o : obj) k v : prop o k = v -> v <> VUndef -> is_Some (o !! k).
Proof.
  unfold prop. destruct (o !! k) as [x|]; simpl; intros <- Hv; [eexists; reflexivity|].
  congruence.
Qed.

Section Job.
Context `{Runtime}.

Lemma findById_run id w :
  Detection.findById id w
  = (Ok (Detection.new <$> find_by_id id (stored w detectionsFile)), w).
Proof.
  unfold Detection.findById, getDetectionById, getRecordById, getRecords.
  rewrite !bind_run, readData_run. reflexivity.
Qed.

Lemma process_body_missing (analyze : M obj) (detectionId : value) (w : World) :
  find_by_id detectionId (stored w detectionsFile) = None ->
  Routes.process_body analyze detectionId w = (Ok tt, w).
Proof.
  intros Hnone. unfold Routes.process_body.
  rewrite bind_run, findById_run, Hnone. reflexivity.
Qed.

(** X16: the job of a detection that is not in the file does nothing:
    it runs no analysis, writes nothing and returns, and so does the
    callback the route schedules. *)
Theorem job_without_detection_does_nothing
  (analyze : M obj) (detectionId : value) (w : World) :
  find_by_id detectionId (stored w detectionsFile) = None ->
  Routes.processVehicleDetection analyze detectionId w = (Ok tt, w) /\
  Routes.background_task analyze detectionId w = (Ok tt, w).
Proof.
  intros Hnone.
  unfold Routes.background_task, Routes.processVehicleDetection, try_catch.
  rewrite (process_body_missing analyze detectionId w Hnone). split; reflexivity.
Qed.

End Job.

Lemma job_without_detection_does_nothing_witness :
  let w := Examples.world (Examples.one_record (Examples.record "a" "pending"))
             Examples.healthy in
  find_by_id (VStr "b") (stored w detectionsFile) = None /\
  Routes.processVehicleDetection (H := Examples.runtime) Routes.mock_analyze (VStr "b") w
  = (Ok tt, w) /\
  Routes.background_task (H := Examples.runtime) Routes.mock_analyze (VStr "b") w
  = (Ok tt, w).
Proof.
  split; [evaluate|].
  apply (job_without_detection_does_nothing (H := Examples.runtime)).
  evaluate.
Defined.

Section JobCompletes.
Context `{Runtime}.

Lemma occlusion_update_counted (r : obj) (vehicles : list value) :
  prop r "vehicles" = VArr vehicles ->
  vehicles <> [] ->
  forallb (fun v => negb (nullish v)) vehicles = true ->
  let c := length (filter (fun v => marked_occluded v = true) vehicles) in
  Detection.occlusion_update (VObj r)
  = Ok (Some (with_statistics r c (ratio100 c (length vehicles)))).
Proof.
  intros Hv Hne Hnull c. unfold Detection.occlusion_update. simpl get. rewrite Hv.
  simpl truthy. simpl andb. cbv iota.
  rewrite bool_decide_eq_true_2 by (destruct vehicles; [congruence | simpl; lia]).
  rewrite (occluded_count_marked _ Hnull). reflexivity.
Qed.

Lemma lookup_obj_to_json_None (o : obj) k : o !! k = None -> obj_to_json o !! k = None.
Proof. intros Hk. unfold obj_to_json. rewrite lookup_omap, Hk. reflexivity. Qed.

Lemma method_free_merged_record existing this t :
  method_free existing ->
  method_free (merged_record existing (Detection.detectionData_of this) t).
Proof.
  intros (Hacc & Hsave & Hproto). split; [apply accessor_free_merged_record, Hacc|].
  rewrite !merged_record_lookup by (not_saved || discriminate). split; assumption.
Qed.

Lemma method_free_obj_to_json r : method_free r -> method_free (obj_to_json r).
Proof.
  intros ((H1 & H2) & H3 & H4).
  repeat split; apply lookup_obj_to_json_None; assumption.
Qed.

(** The instance after the assignment of a record that hides no method:
    [save] is still the method of the class. *)
Lemma has_method_assigned this rec :
  method_free rec -> this !! "save" = None -> this !! "__proto__" = None ->
  Detection.has_method (Detection.assigned this rec) "save" = true.
Proof.
  intros (_ & Hs & Hp) Hts Htp. unfold Detection.assigned, Detection.has_method.
  rewrite Hp, !lookup_union, Hs, Hp, Hts, Htp. reflexivity.
Qed.

(** X17: a job that runs to its end.  When the detection is in the
    file with results as the data model has them and no property named
    like an accessor of the class, [save] or [__proto__], the analysis
    answers results with a non-empty list of vehicles without [null],
    the two writes succeed, and the times of the start and of the end
    are dates whose difference a double holds exactly, the job leaves
    the detection [completed], with the time of its start, the time of
    its end and their difference as duration.  The stored results are
    those of the analysis, but for the two statistics [save] derives
    from the vehicles: the number of those whose [occlusion.isOccluded]
    is truthy, and what JavaScript computes for that number divided by
    the length of the list, times 100, which replace what the analysis
    answered. *)
Theorem job_completes_detection
  (analyze : M obj) (detectionId : value) (existing results : obj)
  (vehicles : list value) (w : World) :
  (forall w0, analyze w0 = (Ok results, w0)) ->
  prop results "vehicles" = VArr vehicles ->
  vehicles <> [] ->
  forallb (fun v => negb (nullish v)) vehicles = true ->
  truthy detectionId = true ->
  find_by_id detectionId (stored w detectionsFile) = Some existing ->
  plain_results (prop existing "results") = true ->
  method_free existing ->
  write_at (env w) (write_ctr w) = WriteOk ->
  write_at (env w) (S (write_ctr w)) = WriteOk ->
  let started := time_at (env w) (time_ctr w) in
  let ended := time_at (env w) (2 + time_ctr w) in
  valid_time started -> valid_time ended -> exact_integer (ended - started) ->
  let c := length (filter (fun v => marked_occluded v = true) vehicles) in
  exists w' record p,
    Routes.processVehicleDetection analyze detectionId w = (Ok tt, w') /\
    getDetectionById detectionId w' = (Ok (Some record), w') /\
    prop record "id" = prop existing "id" /\
    prop record "status" = VStr "completed" /\
    prop record "processingStartTime" = VTime started /\
    prop record "processingEndTime" = VTime ended /\
    prop record "processingDuration" = num_of_Z (ended - started) /\
    percentage_of c (length vehicles) p /\
    get (prop record "results") "occludedVehicles" = num_of_nat c /\
    get (prop record "results") "occlusionPercentage" = VNum p /\
    (forall k, k <> "occludedVehicles" -> k <> "occlusionPercentage" ->
               is_Some (results !! k) ->
               get (prop record "results") k = json_prop (prop results k)).
Proof.
  intros Hpure Hveh Hne Hnull Hid Hfind Hplain Hmethod Hw1 Hw2 started ended
    Hvs Hve Hexact c.
  pose proof (find_by_id_matches _ _ _ Hfind) as Hmatch.
  pose proof (strict_eq_comparable _ _ Hmatch) as Hself.
  assert (Htruthy : truthy (prop existing "id") = true)
    by apply (strict_eq_truthy _ _ Hmatch Hid).
  (* the first save *)
  set (this0 := <["processingStartTime" := now w]>
                (<["status" := VStr "processing"]> (Detection.new existing))).
  set (w1 := (new_Date w).2).
  destruct (occlusion_update_new existing Hplain) as (u & Hu).
  assert (Hfind0 : find_by_id (prop this0 "id") (stored w1 detectionsFile)
                   = Some existing).
  { change (prop this0 "id") with (prop existing "id").
    rewrite (find_by_id_equal _ _ _ Hmatch). exact Hfind. }
  destruct (save_existing_exact this0 u existing w1 Hu Htruthy Hfind0)
    as (this1 & i & Hr1 & Hk1 & Hi1 & Hex1 & Hsave1).
  set (rec1 := merged_record existing (Detection.detectionData_of this1) (now w1)) in *.
  set (w2 := (fs_writeJson detectionsFile (<[i := rec1]> (stored w1 detectionsFile))
                (new_Date w1).2).2) in *.
  assert (Hfree1 : method_free rec1) by apply method_free_merged_record, Hmethod.
  rewrite (Object_assign_free this1 rec1) in Hsave1 by apply Hfree1.
  set (detection1 := Detection.assigned this1 rec1) in *.
  destruct (world_after_write detectionsFile (<[i := rec1]> (stored w1 detectionsFile))
              (new_Date w1).2) as (Henv2 & Htime2 & Hwrite2).
  fold w2 in Henv2, Htime2, Hwrite2. simpl in Henv2, Htime2, Hwrite2.
  assert (Hsaved1 : forall k, k ∈ saved_fields -> prop detection1 k = prop this1 k).
  { intros k Hk. apply prop_assigned; [apply saved_fields_not_proto, Hk|].
    apply saved_as_merged_record, Hk. }
  assert (Hrec1 : prop rec1 "id" = prop existing "id").
  { unfold rec1. rewrite prop_merged_record by discriminate. reflexivity. }
  assert (Hid1 : prop detection1 "id" = prop existing "id").
  { destruct (rec1 !! "id") as [v|] eqn:E.
    - unfold detection1. rewrite (prop_assigned _ _ "id" _ ltac:(discriminate) E).
      rewrite <- Hrec1. unfold prop. rewrite E. reflexivity.
    - unfold detection1. rewrite (prop_assigned_missing _ _ "id" ltac:(discriminate) E).
      apply (Hk1 "id"); discriminate. }
  assert (Hmethod1 : Detection.has_method detection1 "save" = true).
  { apply has_method_assigned; [exact Hfree1| |];
      rewrite (lookup_recomputed _ _ _ Hr1) by discriminate; reflexivity. }
  (* the second save *)
  set (merged := (results ∪ Routes.spread_of (prop detection1 "results"))).
  set (this2 := <["results" := VObj merged]>
                (<["processingEndTime" := now w2]>
                (<["status" := VStr "completed"]> detection1))).
  set (w3 := (new_Date w2).2).
  assert (Hbody : Routes.process_body analyze detectionId w
                  = match Detection.save this2 w3 with
                    | (Ok _, w') => (Ok tt, w')
                    | (Throw e, w') => (Throw e, w')
                    end).
  { unfold Routes.process_body. rewrite bind_run, findById_run, Hfind.
    cbn [fmap option_fmap option_map]. rewrite bind_run. unfold new_Date at 1.
    cbv iota. rewrite bind_run.
    change (Detection.save (<["processingStartTime" := _]> _) _)
      with (Detection.save this0 w1).
    rewrite Hsave1. rewrite bind_run, Hpure. rewrite bind_run.
    unfold new_Date at 1. cbv iota.
    rewrite !prop_insert_ne by discriminate. rewrite bind_run.
    unfold Detection.call_save.
    rewrite !has_method_insert by discriminate. rewrite Hmethod1.
    change (Detection.save (<["results" := _]> _) _)
      with (Detection.save this2 w3).
    destruct (Detection.save this2 w3) as [[?|?] ?]; reflexivity. }
  set (p := ratio100 c (length vehicles)).
  assert (Hu2 : Detection.occlusion_update (prop this2 "results")
                = Ok (Some (with_statistics merged c p))).
  { unfold this2. rewrite prop_insert_eq.
    apply occlusion_update_counted; [|exact Hne|exact Hnull].
    unfold merged. rewrite prop_union_l; [exact Hveh|].
    apply (prop_is_Some _ _ _ Hveh). discriminate. }
  assert (Hid2 : prop this2 "id" = prop existing "id").
  { unfold this2. rewrite !prop_insert_ne by discriminate. exact Hid1. }
  assert (Hstored2 : stored w3 detectionsFile
                     = obj_to_json <$> <[i := rec1]> (stored w1 detectionsFile)).
  { change (stored w3 detectionsFile) with (stored w2 detectionsFile).
    unfold w2. apply stored_after_write. exact Hw1. }
  assert (Hfind2 : find_by_id (prop this2 "id") (stored w3 detectionsFile)
                   = Some (obj_to_json rec1)).
  { rewrite Hid2, Hstored2.
    apply find_after_update; [apply truthy_not_null, Htruthy | exact Hi1 |].
    rewrite Hrec1. exact Hself. }
  assert (Htruthy2 : truthy (prop this2 "id") = true) by (rewrite Hid2; exact Htruthy).
  destruct (save_existing_exact this2 _ (obj_to_json rec1) w3 Hu2 Htruthy2 Hfind2)
    as (this3 & j & Hr2 & Hk2 & Hi2 & Hex2 & Hsave2).
  set (rec2 := merged_record (obj_to_json rec1) (Detection.detectionData_of this3)
                 (now w3)) in *.
  assert (Hfree2 : method_free rec2)
    by apply method_free_merged_record, method_free_obj_to_json, Hfree1.
  rewrite (Object_assign_free this3 rec2) in Hsave2 by apply Hfree2.
  assert (Hw3 : write_succeeds w3).
  { unfold write_succeeds. change (env w3) with (env w2).
    change (write_ctr w3) with (write_ctr w2). rewrite Henv2, Hwrite2. exact Hw2. }
  assert (Hrec2 : prop rec2 "id" = prop (obj_to_json rec1) "id").
  { unfold rec2. rewrite prop_merged_record by discriminate. reflexivity. }
  rewrite Hid2 in Hi2.
  destruct (read_back_after_update (prop existing "id") (obj_to_json rec1) rec2 j w3
              Hw3 Htruthy Hi2 Hex2 Hrec2) as (Hget & Hjid).
  set (w4 := (fs_writeJson detectionsFile (<[j := rec2]> (stored w3 detectionsFile))
                (new_Date w3).2).2) in *.
  assert (Hrun : Routes.processVehicleDetection analyze detectionId w = (Ok tt, w4)).
  { unfold Routes.processVehicleDetection, try_catch.
    rewrite Hbody, Hsave2. reflexivity. }
  assert (Hread : getDetectionById detectionId w4 = (Ok (Some (obj_to_json rec2)), w4)).
  { revert Hget. unfold getDetectionById, getRecordById, getRecords.
    rewrite !bind_run, !readData_run.
    rewrite (find_by_id_equal _ _ _ Hmatch). trivial. }
  assert (Hfield : forall k, k ∈ saved_fields ->
                             prop (obj_to_json rec2) k = json_prop (prop this3 k)).
  { intros k Hk. rewrite prop_obj_to_json. unfold rec2. unfold prop at 1.
    rewrite (saved_as_merged_record this3 (obj_to_json rec1) (now w3) k Hk).
    reflexivity. }
  assert (Hstart : prop this2 "processingStartTime" = VTime started).
  { unfold this2. rewrite !prop_insert_ne by discriminate.
    rewrite Hsaved1 by (unfold saved_fields; rewrite !elem_of_cons; tauto).
    rewrite Hk1 by discriminate. reflexivity. }
  assert (Hend : prop this2 "processingEndTime" = VTime ended).
  { unfold this2. rewrite prop_insert_ne by discriminate. rewrite prop_insert_eq.
    unfold now. rewrite Henv2, Htime2. reflexivity. }
  assert (Hres3 : prop this3 "results" = VObj (with_statistics merged c p)).
  { revert Hr2. unfold Detection.recompute_occlusion.
    rewrite prop_recompute_duration, Hu2 by discriminate.
    intros [= <-]. apply prop_insert_eq. }
  assert (Hresults : prop (obj_to_json rec2) "results"
                     = VObj (obj_to_json (with_statistics merged c p))).
  { rewrite Hfield by (unfold saved_fields; rewrite !elem_of_cons; tauto).
    rewrite Hres3. reflexivity. }
  exists w4, (obj_to_json rec2), p.
  split; [exact Hrun|]. split; [exact Hread|].
  split; [|split; [|split; [|split; [|split; [|split]]]]].
  - rewrite Hjid, prop_obj_to_json, Hrec1. apply json_prop_comparable, Hself.
  - rewrite Hfield by (unfold saved_fields; rewrite !elem_of_cons; tauto).
    rewrite Hk2 by discriminate. unfold this2.
    rewrite !prop_insert_ne by discriminate. rewrite prop_insert_eq. reflexivity.
  - rewrite Hfield by (unfold saved_fields; rewrite !elem_of_cons; tauto).
    rewrite Hk2, Hstart by discriminate. reflexivity.
  - rewrite Hfield by (unfold saved_fields; rewrite !elem_of_cons; tauto).
    rewrite Hk2, Hend by discriminate. reflexivity.
  - rewrite Hfield by (unfold saved_fields; rewrite !elem_of_cons; tauto).
    rewrite (duration_recomputed this2 this3 started ended Hstart Hend Hvs Hve Hexact Hr2).
    reflexivity.
  - apply ratio100_percentage. destruct vehicles; [congruence | simpl; lia].
  - rewrite Hresults. simpl get. unfold with_statistics. rewrite !prop_obj_to_json.
    split; [|split].
    + rewrite prop_insert_ne by discriminate. rewrite prop_insert_eq. reflexivity.
    + rewrite prop_insert_eq. reflexivity.
    + intros k Hk1' Hk2' Hsome. rewrite prop_obj_to_json.
      rewrite !prop_insert_ne by congruence.
      unfold merged. rewrite (prop_union_l _ _ _ Hsome). reflexivity.
Qed.

End JobCompletes.

Lemma job_completes_detection_witness :
  let w := Examples.world (Examples.one_record (Examples.record "a" "pending"))
             Examples.healthy in
  let existing := Examples.record "a" "pending" in
  let detectionId := VStr "a" in
  let results := Routes.mockResults in
  let vehicles := Examples.mock_vehicles in
  let started := time_at (env w) (time_ctr w) in
  let ended := time_at (env w) (2 + time_ctr w) in
  let c := length (filter (fun v => marked_occluded v = true) vehicles) in
  ((forall w0, Routes.mock_analyze w0 = (Ok results, w0)) /\
   prop results "vehicles" = VArr vehicles /\
   vehicles <> [] /\
   forallb (fun v => negb (nullish v)) vehicles = true /\
   truthy detectionId = true /\
   find_by_id detectionId (stored w detectionsFile) = Some existing /\
   plain_results (prop existing "results") = true /\
   method_free existing /\
   write_at (env w) (write_ctr w) = WriteOk /\
   write_at (env w) (S (write_ctr w)) = WriteOk /\
   valid_time started /\ valid_time ended /\ exact_integer (ended - started)) /\
  exists w' record p,
    Routes.processVehicleDetection (H := Examples.runtime) Routes.mock_analyze
      detectionId w = (Ok tt, w') /\
    getDetectionById detectionId w' = (Ok (Some record), w') /\
    prop record "id" = prop existing "id" /\
    prop record "status" = VStr "completed" /\
    prop record "processingStartTime" = VTime started /\
    prop record "processingEndTime" = VTime ended /\
    prop record "processingDuration" = num_of_Z (ended - started) /\
    percentage_of c (length vehicles) p /\
    get (prop record "results") "occludedVehicles" = num_of_nat c /\
    get (prop record "results") "occlusionPercentage" = VNum p /\
    (forall k, k <> "occludedVehicles" -> k <> "occlusionPercentage" ->
               is_Some (results !! k) ->
               get (prop record "results") k = json_prop (prop results k)).
Proof.
  cbv zeta.
  assert (Hhyp : forall P Q : Prop, P -> (P -> Q) -> P /\ Q) by tauto.
  apply Hhyp.
  - split; [intros w0; reflexivity|]. split; [reflexivity|].
    split; [discriminate|]. split; [reflexivity|]. split; [reflexivity|].
    split; [reflexivity|]. split; [evaluate|].
    split; [repeat split; reflexivity|]. split; [reflexivity|].
    split; [reflexivity|].
    split; [apply Z.leb_le; reflexivity|].
    split; [apply Z.leb_le; reflexivity | apply Z.ltb_lt; reflexivity].
  - intros (Hpure & Hveh & Hne & Hnull & Hid & Hfind & Hplain & Hmethod & Hw1 & Hw2
            & Hvs & Hve & Hexact).
    exact (job_completes_detection (H := Examples.runtime) _ _ _ _ _ _
             Hpure Hveh Hne Hnull Hid Hfind Hplain Hmethod Hw1 Hw2 Hvs Hve Hexact).
Defined.

(** With the results the source inlines, the job stores one occluded
    vehicle out of three and, as their share, the double that JavaScript
    prints as 33.33333333333333, in place of the 33.33 of the inlined
    results. *)
Example job_with_inlined_results :
  let w := Examples.world (Examples.one_record (Examples.record "a" "pending"))
             Examples.healthy in
  let r := Routes.processVehicleDetection (H := Examples.runtime) Routes.mock_analyze
             (VStr "a") w in
  let results d := prop d "results" in
  returned r = Some tt /\
  field "status" <$> stored r.2 detectionsFile = [VStr "completed"] /\
  field "processingDuration" <$> stored r.2 detectionsFile = [num_of_Z 2] /\
  (fun d => get (results d) "totalVehicles") <$> stored r.2 detectionsFile
    = [num_of_Z 3] /\
  (fun d => get (results d) "occludedVehicles") <$> stored r.2 detectionsFile
    = [num_of_Z 1] /\
  (fun d => get (results d) "occlusionPercentage") <$> stored r.2 detectionsFile
    = [VNum (2345624805922133 # 70368744177664)] /\
  prop Routes.mockResults "occlusionPercentage" = VNum (fl (3333 # 100)).
Proof. evaluate. Qed.

(** * The analysis route *)

(** X18: the analysis route as the repository has it.  Without an
    [uploadId] in the body it answers 400 and starts no job.  With one,
    it calls [Upload.findOne], a method that no class of the repository
    defines: the handler throws the [TypeError] of that call, whatever
    the body, the user and the files are.  In both cases it has read
    and written nothing: no detection is created, and none of the
    answers 404, 400 for an upload already analysed, or 201 is ever
    given. *)
Theorem analysis_route_stops_at_the_upload_query
  `{Runtime} (req_body : obj) (user_id : value) (w : World) :
  Routes.analyze_route req_body user_id w
  = if truthy (prop req_body "uploadId")
    then (Throw Detection.not_a_function, w)
    else (Ok ({| Routes.status_code := 400;
                 Routes.body := Routes.failure "Upload ID is required" |}, None), w).
Proof.
  unfold Routes.analyze_route, Routes.post_analyze, Routes.Upload_findOne, Routes.call.
  destruct (truthy (prop req_body "uploadId")); reflexivity.
Qed.

(** A request for the upload [U1] of the examples, by its owner. *)
Example analysis_of_an_upload_throws :
  let w := Examples.world Examples.uploaded_store Examples.healthy in
  let r := Routes.analyze_route (H := Examples.runtime)
             (<["uploadId" := VStr "U1"]> ∅) (VStr "user-1") w in
  thrown r = Some Detection.not_a_function /\ r.2 = w.
Proof. evaluate. Qed.

(** * Interleaved creations *)

(** X19: a lost creation.  When two calls of [createDetection] both
    read the file before either writes, both answer their new record,
    and the file, the second write succeeding, holds the records it
    held and the record of the second call: the record answered to the
    first caller is not stored. *)
Theorem interleaved_creations_lose_the_first (d0 d1 : obj) (w : World) :
  write_at (env w) (S (write_ctr w)) = WriteOk ->
  exists r0 r1 w',
    Interleaving.run [0; 1; 0; 1]%nat
      [Interleaving.Called d0; Interleaving.Called d1] w
    = ([Interleaving.Returned (Ok r0); Interleaving.Returned (Ok r1)], w') /\
    r0 = created_record d0 w /\
    r1 = created_record d1 (Interleaving.turn (Interleaving.Called d0) w).2 /\
    stored w' detectionsFile = obj_to_json <$> (stored w detectionsFile ++ [r1]).
Proof.
  intros Hw.
  set (wa := (new_Date (new_Date (uuidv4 w).2).2).2).
  set (wb := (new_Date (new_Date (uuidv4 wa).2).2).2).
  set (r0 := created_record d0 w).
  set (r1 := created_record d1 wa).
  set (wc := (fs_writeJson detectionsFile (stored w detectionsFile ++ [r0]) wb).2).
  set (wd := (fs_writeJson detectionsFile (stored w detectionsFile ++ [r1]) wc).2).
  exists r0, r1, wd.
  destruct (world_after_write detectionsFile (stored w detectionsFile ++ [r0]) wb)
    as (Henv & _ & Hctr).
  fold wc in Henv, Hctr. simpl in Henv, Hctr.
  split; [|split; [reflexivity|split]].
  - rewrite InterleavingFacts.run_cons. simpl lookup. unfold Interleaving.turn at 1 2.
    rewrite InterleavingFacts.first_turn_run. simpl insert. cbn [fst snd].
    rewrite InterleavingFacts.run_cons. simpl lookup. unfold Interleaving.turn at 1 2.
    rewrite InterleavingFacts.first_turn_run. simpl insert. cbn [fst snd].
    rewrite InterleavingFacts.run_cons. simpl lookup. unfold Interleaving.turn at 1 2.
    rewrite InterleavingFacts.second_turn_run. simpl insert. cbn [fst snd].
    rewrite InterleavingFacts.run_cons. simpl lookup. unfold Interleaving.turn at 1 2.
    rewrite InterleavingFacts.second_turn_run. simpl insert. cbn [fst snd].
    reflexivity.
  - unfold Interleaving.turn. rewrite InterleavingFacts.first_turn_run. reflexivity.
  - unfold wd. apply stored_after_write.
    unfold write_succeeds. rewrite Henv, Hctr. exact Hw.
Qed.

Lemma interleaved_creations_lose_the_first_witness :
  let w := Examples.world Examples.empty_store Examples.healthy in
  let d0 := Examples.draft "U1" in
  let d1 := Examples.draft "U2" in
  write_at (env w) (S (write_ctr w)) = WriteOk /\
  exists r0 r1 w',
    Interleaving.run [0; 1; 0; 1]%nat
      [Interleaving.Called d0; Interleaving.Called d1] w
    = ([Interleaving.Returned (Ok r0); Interleaving.Returned (Ok r1)], w') /\
    r0 = created_record d0 w /\
    r1 = created_record d1 (Interleaving.turn (Interleaving.Called d0) w).2 /\
    stored w' detectionsFile = obj_to_json <$> (stored w detectionsFile ++ [r1]).
Proof.
  split; [reflexivity|].
  apply (interleaved_creations_lose_the_first (Examples.draft "U1") (Examples.draft "U2")).
  reflexivity.
Defined.

(** * Removal of a detection *)

(** X20: [remove] deletes by the identifier of the instance.  An
    instance without a (truthy) identifier is answered [false] and
    nothing is read or written; otherwise the answer tells whether the
    file held a record with the identifier and, the write succeeding,
    [findById] no longer finds one. *)
Theorem remove_deletes_by_identifier (this : obj) (w : World) :
  write_succeeds w ->
  let id := prop this "id" in
  exists w',
    Detection.remove this w
      = (Ok (truthy id && bool_decide (is_Some (find_by_id id (stored w detectionsFile)))),
         w') /\
    (if truthy id then Detection.findById id w' = (Ok None, w') else w' = w).
Proof.
  intros Hw id. unfold Detection.remove. fold id.
  destruct (truthy id) eqn:Hid.
  - unfold deleteDetection. eexists. split.
    + rewrite deleteRecord_run. do 2 f_equal. simpl.
      apply bool_decide_ext, filter_shorter_iff_found.
    + unfold Detection.findById, getDetectionById, getRecordById, getRecords.
      rewrite !bind_run, readData_run.
      rewrite stored_after_write by exact Hw.
      rewrite find_none_after_filter by (apply truthy_not_null, Hid). reflexivity.
  - exists w. split; reflexivity.
Qed.

Lemma remove_deletes_by_identifier_witness :
  let w := Examples.world (Examples.one_record (Examples.record "a" "pending"))
             Examples.healthy in
  let this := Detection.new (Examples.record "a" "pending") in
  let id := prop this "id" in
  write_succeeds w /\
  exists w',
    Detection.remove this w
      = (Ok (truthy id && bool_decide (is_Some (find_by_id id (stored w detectionsFile)))),
         w') /\
    (if truthy id then Detection.findById id w' = (Ok None, w') else w' = w).
Proof.
  split; [reflexivity|].
  apply (remove_deletes_by_identifier (Detection.new (Examples.record "a" "pending"))).
  reflexivity.
Defined.

(** * Repeated operations of the record store *)

Lemma depth_member (o : obj) k x : o !! k = Some x -> (depth x < depth (VObj o))%nat.
Proof.
  simpl. revert k x.
  apply (map_fold_weak_ind
           (fun r (m : obj) => forall k x, m !! k = Some x -> (depth x < S r)%nat)).
  - intros k x Hx. rewrite lookup_empty in Hx. discriminate.
  - intros i y m r Hi IH k x Hx.
    destruct (decide (i = k)) as [->|Hne].
    + rewrite lookup_insert_eq in Hx. injection Hx as ->. lia.
    + rewrite lookup_insert_ne in Hx by exact Hne. specialize (IH k x Hx). lia.
Qed.

Lemma depth_element (l : list value) x : x ∈ l -> (depth x < depth (VArr l))%nat.
Proof.
  simpl. induction l as [|y l IH]; intros Hx.
  - apply elem_of_nil in Hx. destruct Hx.
  - apply elem_of_cons in Hx as [->|Hx]; simpl; [lia|].
    specialize (IH Hx). lia.
Qed.

Lemma to_json_idempotent_below n :
  forall v, (depth v < n)%nat -> to_json (to_json v) = to_json v.
Proof.
  induction n as [|n IH]; intros v Hv; [lia|].
  destruct v as [| |b|q| |s|t|l|o]; try reflexivity.
  - simpl. f_equal. rewrite map_map. apply map_ext_in. intros x Hx.
    apply IH. apply list_elem_of_In in Hx.
    pose proof (depth_element l x Hx). lia.
  - simpl. f_equal. apply map_eq. intros k. rewrite !lookup_omap.
    destruct (o !! k) as [x|] eqn:Hx; simpl; [|reflexivity].
    pose proof (depth_member o k x Hx) as Hd.
    assert (Hidem : to_json (to_json x) = to_json x) by (apply IH; lia).
    destruct x; simpl; try reflexivity.
    + simpl in Hidem. rewrite Hidem. reflexivity.
    + simpl in Hidem. rewrite Hidem. reflexivity.
Qed.

(** What was read from a file is written back as it is. *)
Lemma to_json_idempotent v : to_json (to_json v) = to_json v.
Proof. apply (to_json_idempotent_below (S (depth v))). lia. Qed.

Lemma obj_to_json_idempotent (o : obj) : obj_to_json (obj_to_json o) = obj_to_json o.
Proof.
  pose proof (to_json_idempotent (VObj o)) as Ho. simpl in Ho.
  injection Ho as Ho. exact Ho.
Qed.

Lemma json_prop_idempotent v : json_prop (json_prop v) = json_prop v.
Proof.
  destruct v as [| |b|q| |s|t|l|o]; try reflexivity.
  - apply (to_json_idempotent (VArr l)).
  - apply (to_json_idempotent (VObj o)).
Qed.

Lemma fmap_obj_to_json_idempotent (rs : list obj) :
  obj_to_json <$> (obj_to_json <$> rs) = obj_to_json <$> rs.
Proof.
  rewrite <- list_fmap_compose. apply list_fmap_ext. intros i r _. simpl.
  apply obj_to_json_idempotent.
Qed.

Lemma filter_after_filter id (rs : list obj) :
  id <> VNull ->
  filter (fun r => strict_eq (prop r "id") id = false)
    (obj_to_json <$> filter (fun r => strict_eq (prop r "id") id = false) rs)
  = obj_to_json <$> filter (fun r => strict_eq (prop r "id") id = false) rs.
Proof.
  intros Hid. induction rs as [|r rs IH]; [reflexivity|].
  rewrite filter_cons.
  destruct (decide (strict_eq (prop r "id") id = false)) as [Hr|Hr]; [|exact IH].
  rewrite fmap_cons, filter_cons.
  rewrite decide_True
    by (rewrite prop_obj_to_json, strict_eq_json_prop by exact Hid; exact Hr).
  rewrite IH. reflexivity.
Qed.

(** X21: a deletion repeated is a deletion.  After a deletion, a second
    one of the same identifier answers [false] and leaves the file as the
    first left it. *)
Theorem delete_is_idempotent (f : filename) (id : value) (w : World) :
  write_at (env w) (write_ctr w) = WriteOk ->
  write_at (env w) (S (write_ctr w)) = WriteOk ->
  id <> VNull ->
  exists b w1 w2,
    deleteRecord f id w = (Ok b, w1) /\
    deleteRecord f id w1 = (Ok false, w2) /\
    stored w2 f = stored w1 f.
Proof.
  intros Hw1 Hw2 Hid.
  set (kept := filter (fun r => strict_eq (prop r "id") id = false) (stored w f)).
  set (w1 := (fs_writeJson f kept w).2).
  assert (Hstored1 : stored w1 f = obj_to_json <$> kept)
    by (apply stored_after_write; exact Hw1).
  destruct (world_after_write f kept w) as (Henv & _ & Hctr).
  fold w1 in Henv, Hctr.
  assert (Hwrite : write_succeeds w1).
  { unfold write_succeeds. rewrite Henv, Hctr. exact Hw2. }
  eexists _, w1, _. split; [apply deleteRecord_run|]. split.
  - rewrite deleteRecord_run. rewrite Hstored1. unfold kept.
    rewrite filter_after_filter by exact Hid.
    rewrite bool_decide_eq_false_2 by lia. reflexivity.
  - rewrite stored_after_write by exact Hwrite.
    rewrite Hstored1. apply fmap_obj_to_json_idempotent.
Qed.

Lemma delete_is_idempotent_witness :
  let w := Examples.world (Examples.one_record (Examples.record "a" "pending"))
             Examples.healthy in
  (write_at (env w) (write_ctr w) = WriteOk /\
   write_at (env w) (S (write_ctr w)) = WriteOk /\
   VStr "a" <> VNull) /\
  exists b w1 w2,
    deleteRecord detectionsFile (VStr "a") w = (Ok b, w1) /\
    deleteRecord detectionsFile (VStr "a") w1 = (Ok false, w2) /\
    stored w2 detectionsFile = stored w1 detectionsFile.
Proof.
  split; [split; [reflexivity|split; [reflexivity|discriminate]]|].
  apply (delete_is_idempotent detectionsFile (VStr "a"));
    [reflexivity | reflexivity | discriminate].
Defined.

Lemma filter_keeps_others id (rs : list obj) :
  id <> VNull ->
  find_by_id id rs = None ->
  filter (fun r => strict_eq (prop r "id") id = false) (obj_to_json <$> rs)
  = obj_to_json <$> rs.
Proof.
  intros Hid. unfold find_by_id. induction rs as [|r rs IH]; [reflexivity|].
  intros Hnone. simpl in Hnone.
  destruct (strict_eq (prop r "id") id) eqn:Hr; [discriminate|].
  rewrite fmap_cons, filter_cons.
  rewrite decide_True
    by (rewrite prop_obj_to_json, strict_eq_json_prop by exact Hid; exact Hr).
  rewrite (IH Hnone). reflexivity.
Qed.

(** X22: a creation undone.  When no record of the file has the
    identifier of the new record, deleting that identifier after the
    creation answers [true] and leaves the records the file held before
    the creation, as a write leaves them. *)
Theorem create_then_delete_restores (f : filename) (data : obj) (w : World) :
  let id := prop (created_record data w) "id" in
  write_at (env w) (write_ctr w) = WriteOk ->
  write_at (env w) (S (write_ctr w)) = WriteOk ->
  strict_eq id id = true ->
  id <> VNull ->
  find_by_id id (stored w f) = None ->
  exists created w1 w2,
    createRecord f data w = (Ok created, w1) /\
    prop created "id" = id /\
    deleteRecord f id w1 = (Ok true, w2) /\
    stored w2 f = obj_to_json <$> stored w f.
Proof.
  intros id Hw1 Hw2 Hself Hid Hnone.
  set (r := created_record data w) in *.
  set (w0 := (new_Date (new_Date (uuidv4 w).2).2).2).
  set (w1 := (fs_writeJson f (stored w f ++ [r]) w0).2).
  assert (Hstored1 : stored w1 f = (obj_to_json <$> stored w f) ++ [obj_to_json r]).
  { unfold w1. rewrite stored_after_write by exact Hw1. rewrite fmap_app. reflexivity. }
  destruct (world_after_write f (stored w f ++ [r]) w0) as (Henv & _ & Hctr).
  fold w1 in Henv, Hctr. simpl in Henv, Hctr.
  assert (Hwrite : write_succeeds w1).
  { unfold write_succeeds. rewrite Henv, Hctr. exact Hw2. }
  assert (Hkept : filter (fun x => strict_eq (prop x "id") id = false) (stored w1 f)
                  = obj_to_json <$> stored w f).
  { rewrite Hstored1, filter_app, (filter_keeps_others id _ Hid Hnone).
    rewrite filter_cons, filter_nil.
    rewrite decide_False; [apply app_nil_r|].
    rewrite prop_obj_to_json, strict_eq_json_prop by exact Hid.
    fold id. rewrite Hself. discriminate. }
  exists r, w1, (fs_writeJson f (obj_to_json <$> stored w f) w1).2.
  split; [apply createRecord_run|]. split; [reflexivity|]. split.
  - rewrite deleteRecord_run, Hkept. rewrite bool_decide_eq_true_2; [reflexivity|].
    rewrite Hstored1, length_app. simpl. lia.
  - rewrite stored_after_write by exact Hwrite.
    apply fmap_obj_to_json_idempotent.
Qed.

Lemma create_then_delete_restores_witness :
  let w := Examples.world (Examples.one_record (Examples.record "a" "pending"))
             Examples.healthy in
  let data := Examples.draft "U2" in
  let id := prop (created_record data w) "id" in
  (write_at (env w) (write_ctr w) = WriteOk /\
   write_at (env w) (S (write_ctr w)) = WriteOk /\
   strict_eq id id = true /\
   id <> VNull /\
   find_by_id id (stored w detectionsFile) = None) /\
  exists created w1 w2,
    createRecord detectionsFile data w = (Ok created, w1) /\
    prop created "id" = id /\
    deleteRecord detectionsFile id w1 = (Ok true, w2) /\
    stored w2 detectionsFile = obj_to_json <$> stored w detectionsFile.
Proof.
  cbv zeta.
  assert (Hid : prop (created_record (Examples.draft "U2")
                        (Examples.world
                           (Examples.one_record (Examples.record "a" "pending"))
                           Examples.healthy)) "id" = VStr "uuid-0") by (vm_compute; reflexivity).
  split.
  - split; [reflexivity|]. split; [reflexivity|]. rewrite Hid.
    split; [reflexivity|]. split; [discriminate | evaluate].
  - apply (create_then_delete_restores detectionsFile (Examples.draft "U2"));
      rewrite ?Hid; [reflexivity | reflexivity | reflexivity | discriminate | evaluate].
Defined.

Lemma findIndex_after_update id (rs : list obj) i u :
  id <> VNull ->
  findIndex_by_id id rs = Some i ->
  strict_eq (prop u "id") id = true ->
  findIndex_by_id id (obj_to_json <$> <[i := u]> rs) = Some i.
Proof.
  intros Hid. revert i.
  induction rs as [|x rs IH]; simpl; intros i Hi Hu; [discriminate|].
  destruct (strict_eq (prop x "id") id) eqn:Hx.
  - injection Hi as <-. simpl.
    rewrite prop_obj_to_json, strict_eq_json_prop, Hu by exact Hid. reflexivity.
  - destruct (findIndex_by_id id rs) as [j|]; simpl in Hi; [|discriminate].
    injection Hi as <-. simpl.
    rewrite prop_obj_to_json, strict_eq_json_prop, Hx by exact Hid.
    change (list_fmap obj obj obj_to_json (<[j := u]> rs))
      with (obj_to_json <$> <[j := u]> rs).
    rewrite (IH j eq_refl Hu). reflexivity.
Qed.

(** X23: an update repeated.  A second update of a record with the
    same properties, none of them the identifier, answers a record and
    leaves a file that differ from those of the first in [updatedAt]
    alone: every record of the file has, under every other name, the
    property it had. *)
Theorem update_is_idempotent
  (f : filename) (id : value) (updateData existing : obj) (w : World) :
  find_by_id id (stored w f) = Some existing ->
  id <> VNull ->
  updateData !! "id" = None ->
  write_at (env w) (write_ctr w) = WriteOk ->
  write_at (env w) (S (write_ctr w)) = WriteOk ->
  exists r1 r2 w1 w2,
    updateRecord f id updateData w = (Ok (Some r1), w1) /\
    updateRecord f id updateData w1 = (Ok (Some r2), w2) /\
    (forall k, k <> "updatedAt" -> json_prop (prop r2 k) = json_prop (prop r1 k)) /\
    Forall2 (fun s1 s2 => forall k, k <> "updatedAt" -> prop s2 k = prop s1 k)
      (stored w1 f) (stored w2 f).
Proof.
  intros Hfind Hid Hpatch Hw1 Hw2.
  destruct (findIndex_of_find _ _ _ Hfind) as (i & Hi & Hex).
  pose proof (find_by_id_matches _ _ _ Hfind) as Hmatch.
  set (r1 := merged_record existing updateData (now w)).
  set (w1 := (fs_writeJson f (<[i := r1]> (stored w f)) (new_Date w).2).2).
  assert (Hrun1 : updateRecord f id updateData w = (Ok (Some r1), w1))
    by apply (updateRecord_run _ _ _ _ _ _ Hi Hex).
  assert (Hstored1 : stored w1 f = obj_to_json <$> <[i := r1]> (stored w f)).
  { unfold w1. apply stored_after_write. exact Hw1. }
  assert (Hr1 : strict_eq (prop r1 "id") id = true).
  { unfold r1. rewrite prop_merged_record by discriminate. rewrite Hpatch. exact Hmatch. }
  assert (Hi1 : findIndex_by_id id (stored w1 f) = Some i).
  { rewrite Hstored1. apply findIndex_after_update; assumption. }
  assert (Hlt : (i < length (stored w f))%nat) by apply (lookup_lt_Some _ _ _ Hex).
  assert (Hex1 : stored w1 f !! i = Some (obj_to_json r1)).
  { rewrite Hstored1, list_lookup_fmap, list_lookup_insert_eq by exact Hlt.
    reflexivity. }
  set (r2 := merged_record (obj_to_json r1) updateData (now w1)).
  set (w2 := (fs_writeJson f (<[i := r2]> (stored w1 f)) (new_Date w1).2).2).
  assert (Hrun2 : updateRecord f id updateData w1 = (Ok (Some r2), w2))
    by apply (updateRecord_run _ _ _ _ _ _ Hi1 Hex1).
  destruct (world_after_write f (<[i := r1]> (stored w f)) (new_Date w).2)
    as (Henv & _ & Hctr).
  fold w1 in Henv, Hctr. simpl in Henv, Hctr.
  assert (Hstored2 : stored w2 f = obj_to_json <$> <[i := r2]> (stored w1 f)).
  { unfold w2. apply stored_after_write.
    unfold write_succeeds. change (env (new_Date w1).2) with (env w1).
    change (write_ctr (new_Date w1).2) with (write_ctr w1).
    rewrite Henv, Hctr. exact Hw2. }
  assert (Hprops : forall k, k <> "updatedAt" ->
                             json_prop (prop r2 k) = json_prop (prop r1 k)).
  { intros k Hk. unfold r2. rewrite prop_merged_record by exact Hk.
    rewrite prop_obj_to_json.
    assert (Hr1k : prop r1 k = default (prop existing k) (updateData !! k)).
    { unfold r1. apply prop_merged_record, Hk. }
    destruct (updateData !! k) as [v|] eqn:Hv; simpl.
    - rewrite Hr1k. reflexivity.
    - apply json_prop_idempotent. }
  exists r1, r2, w1, w2. split; [exact Hrun1|]. split; [exact Hrun2|].
  split; [exact Hprops|].
  apply Forall2_same_length_lookup_2.
  - rewrite Hstored2, length_fmap, length_insert. reflexivity.
  - intros j s1 s2 Hs1 Hs2 k Hk.
    rewrite Hstored2, list_lookup_fmap in Hs2.
    destruct (decide (j = i)) as [->|Hne].
    + rewrite Hex1 in Hs1. injection Hs1 as <-.
      rewrite list_lookup_insert_eq in Hs2
        by (rewrite Hstored1, length_fmap, length_insert; exact Hlt).
      injection Hs2 as <-. rewrite !prop_obj_to_json. apply Hprops, Hk.
    + rewrite list_lookup_insert_ne in Hs2 by congruence.
      rewrite Hs1 in Hs2. injection Hs2 as <-.
      rewrite Hstored1, list_lookup_fmap in Hs1.
      destruct (<[i := r1]> (stored w f) !! j) as [x|]; [|discriminate].
      injection Hs1 as <-. rewrite obj_to_json_idempotent. reflexivity.
Qed.

Lemma update_is_idempotent_witness :
  let w := Examples.world (Examples.one_record (Examples.record "a" "pending"))
             Examples.healthy in
  let updateData := <["status" := VStr "completed"]> ∅ in
  let existing := Examples.record "a" "pending" in
  (find_by_id (VStr "a") (stored w detectionsFile) = Some existing /\
   VStr "a" <> VNull /\
   updateData !! "id" = None /\
   write_at (env w) (write_ctr w) = WriteOk /\
   write_at (env w) (S (write_ctr w)) = WriteOk) /\
  exists r1 r2 w1 w2,
    updateRecord detectionsFile (VStr "a") updateData w = (Ok (Some r1), w1) /\
    updateRecord detectionsFile (VStr "a") updateData w1 = (Ok (Some r2), w2) /\
    (forall k, k <> "updatedAt" -> json_prop (prop r2 k) = json_prop (prop r1 k)) /\
    Forall2 (fun s1 s2 => forall k, k <> "updatedAt" -> prop s2 k = prop s1 k)
      (stored w1 detectionsFile) (stored w2 detectionsFile).
Proof.
  split.
  - split; [reflexivity|]. split; [discriminate|]. split; reflexivity || (split; reflexivity).
  - apply (update_is_idempotent detectionsFile (VStr "a")
             (<["status" := VStr "completed"]> ∅) (Examples.record "a" "pending"));
      [reflexivity | discriminate | reflexivity | reflexivity | reflexivity].
Defined.

(** * Failures the job does not record *)

Section JobFails.
Context `{Runtime}.

Lemma recompute_null_vehicle (this r : obj) (vehicles : list value) :
  prop this "results" = VObj r ->
  prop r "vehicles" = VArr vehicles ->
  Exists (fun v => nullish v = true) vehicles ->
  Detection.recompute_occlusion (Detection.recompute_duration this) = Throw null_read.
Proof.
  intros Hres Hv Hnull.
  unfold Detection.recompute_occlusion, Detection.occlusion_update.
  rewrite prop_recompute_duration, Hres by discriminate. simpl. rewrite Hv. simpl.
  rewrite (occluded_count_null vehicles Hnull).
  destruct vehicles; [inversion Hnull | reflexivity].
Qed.

(** X24: a detection whose stored vehicles hold [null] is never
    processed.  The first save of the job throws the [TypeError] of
    [save], the save of the [catch] block throws it again, and the job
    fails with it without having written anything: the files are as they
    were, the detection neither [processing] nor [failed].  The callback
    of the route swallows the error. *)
Theorem job_on_null_vehicle_records_nothing
  (analyze : M obj) (detectionId : value) (existing r : obj)
  (vehicles : list value) (w : World) :
  find_by_id detectionId (stored w detectionsFile) = Some existing ->
  prop existing "results" = VObj r ->
  prop r "vehicles" = VArr vehicles ->
  Exists (fun v => nullish v = true) vehicles ->
  exists w',
    Routes.processVehicleDetection analyze detectionId w = (Throw null_read, w') /\
    files w' = files w /\
    Routes.background_task analyze detectionId w = (Ok tt, w').
Proof.
  intros Hfind Hres Hv Hnull.
  assert (Hnew : prop (Detection.new existing) "results" = VObj r).
  { change (prop (Detection.new existing) "results")
      with (js_or (prop existing "results") Detection.default_results).
    rewrite Hres. reflexivity. }
  assert (Hbody : Routes.process_body analyze detectionId w
                  = (Throw null_read, (new_Date w).2)).
  { unfold Routes.process_body. rewrite bind_run, findById_run, Hfind.
    cbn [fmap option_fmap option_map]. rewrite bind_run. unfold new_Date at 1.
    cbv iota. rewrite bind_run.
    rewrite (save_throws _ null_read); [reflexivity|].
    apply (recompute_null_vehicle _ r vehicles); [|exact Hv|exact Hnull].
    rewrite !prop_insert_ne by discriminate. exact Hnew. }
  assert (Hfailed : Routes.process_failed detectionId null_read (new_Date w).2
                    = (Throw null_read, (new_Date (new_Date w).2).2)).
  { unfold Routes.process_failed. rewrite bind_run, findById_run.
    change (stored (new_Date w).2 detectionsFile) with (stored w detectionsFile).
    rewrite Hfind. cbn [fmap option_fmap option_map]. rewrite bind_run.
    unfold new_Date at 1. cbv iota. rewrite bind_run.
    change (match null_read with
            | VUndef | VNull => throw null_read
            | _ => mret (get null_read "message")
            end) with (mret (M := M) (get null_read "message")).
    unfold mret at 1, M_ret at 1. cbv iota. rewrite bind_run.
    rewrite (save_throws _ null_read); [reflexivity|].
    apply (recompute_null_vehicle _ r vehicles); [|exact Hv|exact Hnull].
    rewrite !prop_insert_ne by discriminate. exact Hnew. }
  exists (new_Date (new_Date w).2).2.
  assert (Hrun : Routes.processVehicleDetection analyze detectionId w
                 = (Throw null_read, (new_Date (new_Date w).2).2)).
  { unfold Routes.processVehicleDetection, try_catch. rewrite Hbody. exact Hfailed. }
  split; [exact Hrun|]. split; [reflexivity|].
  unfold Routes.background_task, try_catch. rewrite Hrun. reflexivity.
Qed.

End JobFails.

Lemma job_on_null_vehicle_records_nothing_witness :
  let vehicles := [Examples.clear_vehicle; VNull] in
  let r := Examples.supplied_results 2 0 0 vehicles in
  let existing := <["results" := VObj r]> (Examples.record "a" "pending") in
  let w := Examples.world (Examples.one_record existing) Examples.healthy in
  (find_by_id (VStr "a") (stored w detectionsFile) = Some existing /\
   prop existing "results" = VObj r /\
   prop r "vehicles" = VArr vehicles /\
   Exists (fun v => nullish v = true) vehicles) /\
  exists w',
    Routes.processVehicleDetection (H := Examples.runtime) Routes.mock_analyze
      (VStr "a") w = (Throw null_read, w') /\
    files w' = files w /\
    Routes.background_task (H := Examples.runtime) Routes.mock_analyze (VStr "a") w
      = (Ok tt, w').
Proof.
  cbv zeta.
  assert (Hnull : Exists (fun v => nullish v = true) [Examples.clear_vehicle; VNull]).
  { apply Exists_cons_tl, Exists_cons_hd. reflexivity. }
  split; [split; [reflexivity|split; [reflexivity|split; [reflexivity|exact Hnull]]]|].
  apply (job_on_null_vehicle_records_nothing (H := Examples.runtime)
           Routes.mock_analyze (VStr "a")
           (<["results" :=
                VObj (Examples.supplied_results 2 0 0 [Examples.clear_vehicle; VNull])]>
              (Examples.record "a" "pending"))
           (Examples.supplied_results 2 0 0 [Examples.clear_vehicle; VNull])
           [Examples.clear_vehicle; VNull]);
    [reflexivity | reflexivity | reflexivity | exact Hnull].
Defined.
